(** * Endpoint synthesis of the external-dns routing sources

    A shallow embedding of the five resource adapters of the [source]
    package (Contour HTTPProxy and IngressRoute, Ambassador Host, Gloo
    Proxy, Kong TCPIngress) and of the service reference parser, with the
    properties the specification states about them. *)

From Stdlib Require Import ZArith Ascii String List Sorted.
From stdpp Require Import base option list gmap strings sorting.

Local Open Scope string_scope.
Local Open Scope Z_scope.
Local Open Scope list_scope.

(** ** Go's [strings] functions used by the adapters *)

Module strings.

(** [strings.Split(s, sep)] for a one-byte separator: the pieces between
    the separators, always at least one ([Split("", ",")] is [[""]]). *)
Fixpoint Split (s : string) (sep : ascii) : list string :=
  match s with
  | EmptyString => [EmptyString]
  | String c s' =>
      if Ascii.eqb c sep then EmptyString :: Split s' sep
      else match Split s' sep with
           | [] => [String c EmptyString]
           | w :: ws => String c w :: ws
           end
  end.

(** The text before and after the first separator, if there is one. *)
Fixpoint Cut (s : string) (sep : ascii) : option (string * string) :=
  match s with
  | EmptyString => None
  | String c s' =>
      if Ascii.eqb c sep then Some (EmptyString, s')
      else match Cut s' sep with
           | Some (before, after) => Some (String c before, after)
           | None => None
           end
  end.

(** [strings.SplitN(s, sep, 2)]: at most one split, at the first
    separator. *)
Definition SplitN2 (s : string) (sep : ascii) : list string :=
  match Cut s sep with
  | Some (before, after) => [before; after]
  | None => [s]
  end.

(** [strings.Replace(s, old, "", -1)] for a one-byte [old]: every
    occurrence removed. *)
Fixpoint Remove (s : string) (old : ascii) : string :=
  match s with
  | EmptyString => EmptyString
  | String c s' =>
      if Ascii.eqb c old then Remove s' old else String c (Remove s' old)
  end.

(** [strings.TrimSuffix(s, suffix)] for a one-byte suffix: one trailing
    occurrence removed. *)
Fixpoint TrimSuffix (s : string) (suffix : ascii) : string :=
  match s with
  | EmptyString => EmptyString
  | String c EmptyString =>
      if Ascii.eqb c suffix then EmptyString else s
  | String c s' => String c (TrimSuffix s' suffix)
  end.

(** Number of occurrences of a byte. *)
Fixpoint Count (s : string) (c : ascii) : nat :=
  match s with
  | EmptyString => O
  | String c' s' => (if Ascii.eqb c' c then 1 else 0) + Count s' c
  end%nat.

End strings.

(** ** Errors and results

    Go's [error] values of this package only carry a message. *)

Definition error := string.

Inductive result (A : Type) : Type :=
| Ok (a : A)
| Err (e : error).
Arguments Ok {A} a.
Arguments Err {A} e.

Definition isOk {A} (r : result A) : bool :=
  match r with Ok _ => true | Err _ => false end.

(** ** The service reference of an Ambassador Host *)

(** [api.NamespaceDefault] of Kubernetes. *)
Definition NamespaceDefault : string := "default".

(** [parseAmbLoadBalancerService]: the (namespace, name) pair of the
    annotation of an Ambassador Host, from "namespace/name",
    "name.namespace" or a bare name. *)
Definition parseAmbLoadBalancerService (service : string)
  : result (string * string) :=
  let parts := strings.Split service "/" in
  if decide (length parts = 1%nat) then
    let parts := strings.SplitN2 service "." in
    match parts with
    | [name; namespace] => Ok (namespace, name)
    | _ => Ok (NamespaceDefault, service)
    end
  else
    match parts with
    | [namespace; name] => Ok (namespace, name)
    | _ => Err ("invalid external-dns service: " +:+ service)
    end.

(** ** Kubernetes objects and the cluster snapshot *)

(** [corev1.LoadBalancerIngress]. *)
Record LoadBalancerIngress := {
  IP : string;
  Hostname : string;
}.

(** [corev1.ServiceTypeLoadBalancer]. *)
Definition ServiceTypeLoadBalancer : string := "LoadBalancer".

(** [corev1.Service], with the fields the adapters read: [Spec.Type] and
    [Status.LoadBalancer.Ingress]. *)
Record Service := {
  Service_Spec_Type : string;
  Service_Status_LoadBalancer_Ingress : list LoadBalancerIngress;
}.

(** What a pass reads besides the resources it lists: the services and the
    Gloo virtual services (their annotations), by (namespace, name). *)
Record Cluster := {
  Services : gmap (string * string) Service;
  VirtualServices : gmap (string * string) (gmap string string);
}.

(** ** Effects of a pass

    A pass reads the cluster, may stop with an error, and leaves a trace of
    the lookups it made and of the warnings it logged ([log.Warn]); debug
    logging is left out. *)

Inductive event : Type :=
| GetService (namespace name : string)
| GetVirtualService (namespace name : string)
| Warn (msg : string).

Definition M (A : Type) : Type := Cluster -> result A * list event.

Definition ret {A} (a : A) : M A := fun _ => (Ok a, []).

Definition fail {A} (e : error) : M A := fun _ => (Err e, []).

Definition bind {A B} (m : M A) (k : A -> M B) : M B :=
  fun c =>
    match m c with
    | (Ok a, t1) => let (r, t2) := k a c in (r, t1 ++ t2)
    | (Err e, t1) => (Err e, t1)
    end.

Notation "x <- m ;; k" := (bind m (fun x => k))
  (at level 100, m at next level, right associativity).

(** [log.Warn(msg)]. *)
Definition logWarn (msg : string) : M unit := fun _ => (Ok tt, [Warn msg]).

(** [if err != nil { return nil, err }]. *)
Definition try {A} (r : result A) : M A :=
  match r with Ok a => ret a | Err e => fail e end.

(** [errors.Wrap(err, msg)] on the error of a call. *)
Definition wrap {A} (m : M A) (msg : string) : M A :=
  fun c =>
    match m c with
    | (Err e, t) => (Err (msg +:+ ": " +:+ e), t)
    | r => r
    end.

(** [Services(namespace).Get(name)] of a service lister or client; what it
    returns is left to the caller to handle. The services of the cluster
    are those that [Get] returns; for any other it returns an error. The
    text of the error is the client's, and a client can fail in more than
    one way; the model has the one error, which tells the service that was
    not found, and no adapter looks into the error it is given. *)
Definition getService (namespace name : string) : M (result Service) :=
  fun c =>
    let found : option Service := Services c !! (namespace, name) in
    (Ok match found with
        | Some svc => Ok svc
        | None => Err ("service " +:+ namespace +:+ "/" +:+ name +:+ " not found")
        end, [GetService namespace name]).

(** [VirtualServices(namespace).Get(name)] of the Gloo client, then
    [GetAnnotations()]; an error for a virtual service that is not among
    those of the cluster, as for [getService]. *)
Definition getVirtualService (namespace name : string)
  : M (result (gmap string string)) :=
  fun c =>
    let found : option (gmap string string) :=
      VirtualServices c !! (namespace, name) in
    (Ok match found with
        | Some a => Ok a
        | None => Err ("virtualservice " +:+ namespace +:+ "/" +:+ name +:+ " not found")
        end, [GetVirtualService namespace name]).

(** A [for _, x := range xs] loop whose body either continues (with what it
    appends to the accumulated slice) or returns an error from the
    function. *)
Fixpoint forRange {A B} (body : A -> M (list B)) (xs : list A) (acc : list B)
  : M (list B) :=
  match xs with
  | [] => ret acc
  | x :: xs' => new <- body x ;; forRange body xs' (acc ++ new)
  end.

(** The targets a load-balancer status contributes: of each entry the IP
    and the hostname, when set. The loop is written out at each of its
    uses in the sources. *)
Definition targetsFromIngress (ingress : list LoadBalancerIngress) : list string :=
  flat_map (fun lb =>
              (if decide (IP lb = "") then [] else [IP lb]) ++
              (if decide (Hostname lb = "") then [] else [Hostname lb]))
           ingress.

(** ** Endpoints

    The [endpoint] package is not among the sources; the record has the
    fields the adapters and their tests set and read. *)

Inductive recordType : Type :=
| RecordTypeA
| RecordTypeAAAA
| RecordTypeCNAME.

Record Endpoint := {
  DNSName : string;
  Targets : list string;
  RecordType : recordType;
  SetIdentifier : string;
  RecordTTL : Z;
  Labels : gmap string string;
  ProviderSpecific : list (string * string);
}.

(** [ep.Labels[key] = value]. *)
Definition setLabel (key value : string) (ep : Endpoint) : Endpoint :=
  {| DNSName := DNSName ep; Targets := Targets ep;
     RecordType := RecordType ep; SetIdentifier := SetIdentifier ep;
     RecordTTL := RecordTTL ep; Labels := <[key := value]> (Labels ep);
     ProviderSpecific := ProviderSpecific ep |}.

(** [sort.Sort(ep.Targets)]: [Targets] orders strings by [<], so sorting
    leaves the one non-decreasing arrangement of the targets. *)
Definition sortTargets (ep : Endpoint) : Endpoint :=
  {| DNSName := DNSName ep; Targets := merge_sort String.le (Targets ep);
     RecordType := RecordType ep; SetIdentifier := SetIdentifier ep;
     RecordTTL := RecordTTL ep; Labels := Labels ep;
     ProviderSpecific := ProviderSpecific ep |}.

(** Modelled from the spec: the annotation vocabulary and the label keys
    (section 6), declared in source/source.go and in the endpoint package,
    which are not among the sources. The hostname, ttl, set-identifier and
    aws keys and the "resource" label are the ones the tests write out. *)
Definition annotationPrefix : string := "external-dns.alpha.kubernetes.io/".
Definition hostnameAnnotationKey : string := annotationPrefix +:+ "hostname".
Definition targetAnnotationKey : string := annotationPrefix +:+ "target".
Definition ttlAnnotationKey : string := annotationPrefix +:+ "ttl".
Definition controllerAnnotationKey : string := annotationPrefix +:+ "controller".
Definition controllerAnnotationValue : string := "dns-controller".
Definition setIdentifierKey : string := annotationPrefix +:+ "set-identifier".
Definition awsAnnotationPrefix : string := annotationPrefix +:+ "aws-".
Definition ALBDualstackAnnotationKey : string := "alb.ingress.kubernetes.io/ip-address-type".
Definition ALBDualstackAnnotationValue : string := "dualstack".
Definition ResourceLabelKey : string := "resource".
Definition DualstackLabelKey : string := "dualstack".

(** The value of a decimal digit. *)
Definition digitValue (c : ascii) : option Z :=
  let n := Z.of_N (N_of_ascii c) in
  if (48 <=? n) && (n <=? 57) then Some (n - 48) else None.

Fixpoint parseDigits (s : string) (acc : Z) : option Z :=
  match s with
  | EmptyString => Some acc
  | String c s' =>
      match digitValue c with
      | Some d => parseDigits s' (10 * acc + d)
      | None => None
      end
  end.

(** A non-empty string of decimal digits. *)
Definition parseDecimal (s : string) : option Z :=
  match s with
  | EmptyString => None
  | _ => parseDigits s 0
  end.

Definition isDigit (c : ascii) : bool :=
  match digitValue c with Some _ => true | None => false end.

(** Go's [time.ParseDuration], which the TTL of an annotation goes
    through: a sign, then one or more decimal numbers, each with an
    optional fraction and a unit, as in "10s", "1h30m" or "1.5s"; the
    duration in nanoseconds, none for a string that is no duration or that
    passes 63 bits. *)

(** [leadingInt]: the digits at the head of the string as a number, and
    the rest of the string; none when the number passes 2^63. *)
Fixpoint leadingInt (s : string) (x : Z) : option (Z * string) :=
  match s with
  | EmptyString => Some (x, s)
  | String c s' =>
      match digitValue c with
      | Some d =>
          if 922337203685477580 <? x then None
          else
            let x' := 10 * x + d in
            if 9223372036854775808 <? x' then None else leadingInt s' x'
      | None => Some (x, s)
      end
  end.

(** [leadingFraction]: the digits at the head of the string as the
    numerator and the denominator of a fraction, and the rest; the digits
    that would pass 63 bits are dropped. *)
Fixpoint leadingFraction (s : string) (x scale : Z) (overflow : bool)
  : Z * Z * string :=
  match s with
  | EmptyString => (x, scale, s)
  | String c s' =>
      match digitValue c with
      | Some d =>
          if overflow then leadingFraction s' x scale true
          else if 922337203685477580 <? x then leadingFraction s' x scale true
          else
            let y := 10 * x + d in
            if 9223372036854775808 <? y then leadingFraction s' x scale true
            else leadingFraction s' y (10 * scale) false
      | None => (x, scale, s)
      end
  end.

(** The unit: the bytes up to the next digit or dot. *)
Fixpoint leadingUnit (s : string) : string * string :=
  match s with
  | EmptyString => (EmptyString, s)
  | String c s' =>
      if Ascii.eqb c "." || isDigit c then (EmptyString, s)
      else let '(u, rest) := leadingUnit s' in (String c u, rest)
  end.

(** [unitMap], in nanoseconds. *)
Definition unitMap (u : string) : option Z :=
  if String.eqb u "ns" then Some 1
  else if String.eqb u "us" then Some 1000
  else if String.eqb u "µs" then Some 1000
  else if String.eqb u "μs" then Some 1000
  else if String.eqb u "ms" then Some 1000000
  else if String.eqb u "s" then Some 1000000000
  else if String.eqb u "m" then Some 60000000000
  else if String.eqb u "h" then Some 3600000000000
  else None.

(** One number with its unit, added to the duration [d] read so far; the
    new duration and the rest of the string. The part of a fraction is
    rounded down to the nanosecond (Go computes it in floating point). *)
Definition durationTerm (s : string) (d : Z) : option (Z * string) :=
  match s with
  | EmptyString => None
  | String c _ =>
      if negb (Ascii.eqb c "." || isDigit c) then None
      else
        match leadingInt s 0 with
        | None => None
        | Some (v, s1) =>
            let pre := negb (String.length s1 =? String.length s)%nat in
            let '(f, scale, s2, post) :=
              match s1 with
              | String c1 s1' =>
                  if Ascii.eqb c1 "." then
                    let '(f, scale, s2) := leadingFraction s1' 0 1 false in
                    (f, scale, s2,
                     negb (String.length s2 =? String.length s1')%nat)
                  else (0, 1, s1, false)
              | EmptyString => (0, 1, s1, false)
              end in
            if negb pre && negb post then None
            else
              let '(u, s3) := leadingUnit s2 in
              match u with
              | EmptyString => None
              | _ =>
                  match unitMap u with
                  | None => None
                  | Some unit =>
                      if 9223372036854775808 / unit <? v then None
                      else
                        let v := v * unit in
                        let v := if 0 <? f then v + f * unit / scale else v in
                        if 9223372036854775808 <? v then None
                        else
                          let d := d + v in
                          if 9223372036854775808 <? d then None
                          else Some (d, s3)
                  end
              end
        end
  end.

(** The loop of [ParseDuration] over the terms; every term takes at
    least the byte of its unit, so the length of the string is fuel
    enough. *)
Fixpoint durationTerms (fuel : nat) (s : string) (d : Z) : option Z :=
  match s with
  | EmptyString => Some d
  | _ =>
      match fuel with
      | O => None
      | S fuel' =>
          match durationTerm s d with
          | Some (d', s') => durationTerms fuel' s' d'
          | None => None
          end
      end
  end.

Definition ParseDuration (s : string) : option Z :=
  let '(neg, s) :=
    match s with
    | String c s' =>
        if Ascii.eqb c "-" then (true, s')
        else if Ascii.eqb c "+" then (false, s')
        else (false, s)
    | EmptyString => (false, s)
    end in
  if String.eqb s "0" then Some 0
  else
    match s with
    | EmptyString => None
    | _ =>
        match durationTerms (String.length s) s 0 with
        | Some d =>
            if neg then Some (- d)
            else if 9223372036854775807 <? d then None
            else Some d
        | None => None
        end
    end.

(** Go's [strconv.ParseInt(s, 10, 64)]: a sign and decimal digits, within
    64 bits. *)
Definition ParseInt (s : string) : option Z :=
  let '(neg, digits) :=
    match s with
    | String c s' =>
        if Ascii.eqb c "-" then (true, s')
        else if Ascii.eqb c "+" then (false, s')
        else (false, s)
    | EmptyString => (false, s)
    end in
  match parseDecimal digits with
  | Some n =>
      let n := if neg then - n else n in
      if (-9223372036854775808 <=? n) && (n <=? 9223372036854775807)
      then Some n else None
  | None => None
  end.

(** Modelled from the spec: the TTL annotation's value (section 4.4),
    parsed in source/source.go, which is not among the sources: a duration
    string ("10s", "1h30m", "1.5s") normalized to whole seconds, the
    fraction of a second dropped, or else integer seconds ("600"). *)
Definition parseTTL (s : string) : option Z :=
  match ParseDuration s with
  | Some d => Some (Z.quot d 1000000000)
  | None => ParseInt s
  end.

(** The TTLs an endpoint can have: a positive number of seconds within 31
    bits. *)
Definition ttlMinimum : Z := 1.
Definition ttlMaximum : Z := 2147483647.

(** Modelled from the spec: [getTTLFromAnnotations] of source/source.go,
    which is not among the sources (section 4.4): the TTL of the
    annotation; 0 without an error when the annotation is missing (the
    adapters' tests pass without it), 0 with the error its callers log or
    return when the value does not parse or is no TTL an endpoint can
    have. *)
Definition getTTLFromAnnotations (annotations : gmap string string)
  : Z * option error :=
  match annotations !! ttlAnnotationKey with
  | None => (0, None)
  | Some v =>
      match parseTTL v with
      | Some ttl =>
          if (ttlMinimum <=? ttl) && (ttl <=? ttlMaximum) then (ttl, None)
          else (0, Some "TTL value must be between [1, 2147483647]")
      | None => (0, Some (v +:+ " is not a valid TTL value"))
      end
  end.

(** Modelled from the spec: [getTargetsFromTargetAnnotation] of
    source/source.go, which is not among the sources (section 4.2, step 1):
    the comma-separated values of the target annotation, verbatim; none
    when the annotation is missing or empty (test "httpproxy with empty
    annotation"). *)
Definition getTargetsFromTargetAnnotation (annotations : gmap string string)
  : list string :=
  match annotations !! targetAnnotationKey with
  | Some v => if decide (v = "") then [] else strings.Split v ","
  | None => []
  end.

(** Modelled from the spec: [getHostnamesFromAnnotations] of
    source/source.go, which is not among the sources (section 4.3, b): the
    entries of the hostname annotation, split and trimmed the way the
    adapters split the rendered template. *)
Definition getHostnamesFromAnnotations (annotations : gmap string string)
  : list string :=
  match annotations !! hostnameAnnotationKey with
  | Some v => strings.Split (strings.Remove v " ") ","
  | None => []
  end.

(** Modelled from the spec: [getProviderSpecificAnnotations] of
    source/source.go, which is not among the sources (section 4.4): the
    annotations under a vendor prefix, as (name, value) pairs with the
    prefix in its short form, and the set identifier, empty if absent. The
    one prefix is the one the Gloo test uses; Go ranges over the map in no
    fixed order, the model in the order of [map_to_list]. *)
Definition getProviderSpecificAnnotations (annotations : gmap string string)
  : list (string * string) * string :=
  let n := String.length awsAnnotationPrefix in
  let providerSpecific :=
    omap (fun kv : string * string =>
            if String.prefix awsAnnotationPrefix kv.1
            then Some ("aws/" +:+ String.substring n (String.length kv.1 - n) kv.1, kv.2)
            else None)
         (map_to_list annotations) in
  (providerSpecific, default "" (annotations !! setIdentifierKey)).

#[global] Instance recordType_eq_dec : EqDecision recordType.
Proof. solve_decision. Defined.

(** A dotted quad of decimal numbers up to 255. *)
Definition isIPv4 (target : string) : bool :=
  match strings.Split target "." with
  | [a; b; c; d] =>
      forallb (fun part =>
                 match parseDecimal part with
                 | Some n => (n <=? 255) && (String.length part <=? 3)%nat
                 | None => false
                 end) [a; b; c; d]
  | _ => false
  end.

Definition isHexDigitOrColon (c : ascii) : bool :=
  let n := Z.of_N (N_of_ascii c) in
  ((48 <=? n) && (n <=? 58)) || ((65 <=? n) && (n <=? 70))
  || ((97 <=? n) && (n <=? 102)).

(** Hexadecimal groups separated by colons, at least two colons. *)
Definition isIPv6 (target : string) : bool :=
  (2 <=? strings.Count target ":")%nat
  && forallb isHexDigitOrColon (list_ascii_of_string target).

(** Modelled from the spec: [suitableType] of source/source.go, which is
    not among the sources (sections 3 and 4.5): A or AAAA for a target that
    reads as an IP literal, CNAME for any other. The literal syntax is
    Go's [net.ParseIP]; the model reads dotted quads and plain colon
    separated hexadecimal groups. *)
Definition suitableType (target : string) : recordType :=
  if isIPv4 target then RecordTypeA
  else if isIPv6 target then RecordTypeAAAA
  else RecordTypeCNAME.

(** Modelled from the spec: [endpointsForHostname] of source/source.go,
    which is not among the sources (section 4.5): the endpoints of one
    hostname, trailing dot stripped, with the metadata shared; none when
    there is no target. As the adapters' tests expect ("one rule.host two
    lb.IP and two lb.Hostname"), the targets of each record type make an
    endpoint of their own, addresses first, each keeping the order of the
    targets. *)
Definition endpointsForHostname (hostname : string) (targets : list string)
    (ttl : Z) (providerSpecific : list (string * string))
    (setIdentifier : string) : list Endpoint :=
  flat_map (fun ty =>
              match filter (fun t => suitableType t = ty) targets with
              | [] => []
              | ts => [ {| DNSName := strings.TrimSuffix hostname ".";
                           Targets := ts;
                           RecordType := ty;
                           SetIdentifier := setIdentifier;
                           RecordTTL := ttl;
                           Labels := ∅;
                           ProviderSpecific := providerSpecific |} ]
              end)
           [RecordTypeA; RecordTypeAAAA; RecordTypeCNAME].

(** [labels.Selector]: what [Matches] answers on a set of annotations. *)
Definition Selector : Type := gmap string string -> bool.

(** A parsed [text/template]: what [Execute] writes for a resource, or its
    error. *)
Definition Template (R : Type) : Type := R -> result string.

(** The controller annotation names another controller. *)
Definition otherController (annotations : gmap string string) : bool :=
  match annotations !! controllerAnnotationKey with
  | Some controller => bool_decide (controller <> controllerAnnotationValue)
  | None => false
  end.

(** [if err != nil { log.Warn(err) }] *)
Definition warnIfError (err : option error) : M unit :=
  match err with
  | Some e => logWarn e
  | None => ret tt
  end.

(** ** Contour HTTPProxy (source/httpproxy.go) *)

Module HTTPProxySource.

Record VirtualHost := { Fqdn : string }.

(** [projcontour_v1.HTTPProxy]. *)
Record HTTPProxy := {
  Namespace : string;
  Name : string;
  Annotations : gmap string string;
  Spec_VirtualHost : option VirtualHost;
  Status_CurrentStatus : string;
  Status_LoadBalancer_Ingress : list LoadBalancerIngress;
}.

Record httpProxySource := {
  namespace : string;
  fqdnTemplate : option (Template HTTPProxy);
  annotationSelector : Selector;
  combineFQDNAnnotation : bool;
  ignoreHostnameAnnotation : bool;
}.

(** [endpointsFromTemplate], for the template of a source that has
    one. *)
Definition endpointsFromTemplate (tmpl : Template HTTPProxy)
    (httpProxy : HTTPProxy) : M (list Endpoint) :=
  match tmpl httpProxy with
  | Err err =>
      fail ("failed to apply template on HTTPProxy "
            +:+ Namespace httpProxy +:+ "/" +:+ Name httpProxy
            +:+ ": " +:+ err)
  | Ok hostnames =>
      let '(ttl, err) := getTTLFromAnnotations (Annotations httpProxy) in
      _ <- warnIfError err ;;
      let targets := getTargetsFromTargetAnnotation (Annotations httpProxy) in
      let targets :=
        if decide (length targets = 0%nat)
        then targetsFromIngress (Status_LoadBalancer_Ingress httpProxy)
        else targets in
      let '(providerSpecific, setIdentifier) :=
        getProviderSpecificAnnotations (Annotations httpProxy) in
      let hostnameList := strings.Split (strings.Remove hostnames " ") "," in
      ret (flat_map (fun hostname =>
                       endpointsForHostname (strings.TrimSuffix hostname ".")
                         targets ttl providerSpecific setIdentifier)
                    hostnameList)
  end.

Definition setResourceLabel (httpProxy : HTTPProxy)
    (endpoints : list Endpoint) : list Endpoint :=
  map (setLabel ResourceLabelKey
         ("HTTPProxy/" +:+ Namespace httpProxy +:+ "/" +:+ Name httpProxy))
      endpoints.

Definition endpointsFromHTTPProxy (sc : httpProxySource)
    (httpProxy : HTTPProxy) : M (list Endpoint) :=
  if decide (Status_CurrentStatus httpProxy <> "valid") then
    _ <- logWarn ("cannot generate endpoints for HTTPProxy with status "
                  +:+ Status_CurrentStatus httpProxy) ;;
    ret []
  else
    let '(ttl, err) := getTTLFromAnnotations (Annotations httpProxy) in
    _ <- warnIfError err ;;
    let targets := getTargetsFromTargetAnnotation (Annotations httpProxy) in
    let targets :=
      if decide (length targets = 0%nat)
      then targetsFromIngress (Status_LoadBalancer_Ingress httpProxy)
      else targets in
    let '(providerSpecific, setIdentifier) :=
      getProviderSpecificAnnotations (Annotations httpProxy) in
    let endpoints :=
      match Spec_VirtualHost httpProxy with
      | Some virtualHost =>
          if decide (Fqdn virtualHost <> "")
          then endpointsForHostname (Fqdn virtualHost) targets ttl
                 providerSpecific setIdentifier
          else []
      | None => []
      end in
    let endpoints :=
      if ignoreHostnameAnnotation sc then endpoints
      else endpoints ++
           flat_map (fun hostname =>
                       endpointsForHostname hostname targets ttl
                         providerSpecific setIdentifier)
                    (getHostnamesFromAnnotations (Annotations httpProxy)) in
    ret endpoints.

(** One turn of the loop of [Endpoints]: the endpoints it appends for
    [hp], none when it continues early. *)
Definition Endpoints_body (sc : httpProxySource) (hp : HTTPProxy)
  : M (list Endpoint) :=
  if negb (annotationSelector sc (Annotations hp)) then ret []
  else if otherController (Annotations hp) then ret []
  else if decide (Status_CurrentStatus hp <> "valid") then ret []
  else
    eps <- wrap (endpointsFromHTTPProxy sc hp)
             "failed to get endpoints from HTTPProxy" ;;
    eps <- match fqdnTemplate sc with
           | Some tmpl =>
               if combineFQDNAnnotation sc || bool_decide (length eps = 0%nat)
               then
                 tmplEndpoints <- wrap (endpointsFromTemplate tmpl hp)
                                    "failed to get endpoints from template" ;;
                 ret (if combineFQDNAnnotation sc
                      then eps ++ tmplEndpoints
                      else tmplEndpoints)
               else ret eps
           | None => ret eps
           end ;;
    if decide (length eps = 0%nat) then ret []
    else ret (setResourceLabel hp eps).

(** [Endpoints] after the call of the lister: the loop over the
    HTTPProxies it returned, and the sort of the targets. *)
Definition Endpoints (sc : httpProxySource) (httpProxies : list HTTPProxy)
  : M (list Endpoint) :=
  endpoints <- forRange (Endpoints_body sc) httpProxies [] ;;
  ret (map sortTargets endpoints).

(** [Endpoints] from its first statement: [listed] is what the [List] of
    the lister returns, the HTTPProxies of the namespace or an error, which
    [Endpoints] returns before it does anything else. *)
Definition EndpointsFromLister (sc : httpProxySource)
    (listed : result (list HTTPProxy)) : M (list Endpoint) :=
  httpProxies <- try listed ;;
  Endpoints sc httpProxies.

End HTTPProxySource.

(** ** Contour IngressRoute *)

Module IngressRouteSource.

Record VirtualHost := { Fqdn : string }.

(** [contour_v1b1.IngressRoute]. *)
Record IngressRoute := {
  Namespace : string;
  Name : string;
  Annotations : gmap string string;
  Spec_VirtualHost : option VirtualHost;
  CurrentStatus : string;
}.

Record ingressRouteSource := {
  namespace : string;
  lbService_Namespace : string;
  lbService_Name : string;
  fqdnTemplate : option (Template IngressRoute);
  annotationSelector : Selector;
  combineFQDNAnnotation : bool;
  ignoreHostnameAnnotation : bool;
}.

Definition parseContourLoadBalancerService (service : string)
  : result (string * string) :=
  match strings.Split service "/" with
  | [namespace; name] => Ok (namespace, name)
  | _ => Err ("invalid contour load balancer service (namespace/name) found '"
              +:+ service +:+ "'")
  end.

Definition targetsFromContourLoadBalancer (sc : ingressRouteSource)
  : M (list string) :=
  svc <- getService (lbService_Namespace sc) (lbService_Name sc) ;;
  match svc with
  | Err err => _ <- logWarn err ;; ret []
  | Ok svc => ret (targetsFromIngress (Service_Status_LoadBalancer_Ingress svc))
  end.

(** [endpointsFromTemplate], for the template of a source that has
    one. *)
Definition endpointsFromTemplate (sc : ingressRouteSource)
    (tmpl : Template IngressRoute) (ingressRoute : IngressRoute)
  : M (list Endpoint) :=
  match tmpl ingressRoute with
  | Err err =>
      fail ("failed to apply template on ingressroute "
            +:+ Namespace ingressRoute +:+ "/" +:+ Name ingressRoute
            +:+ ": " +:+ err)
  | Ok hostnames =>
      let '(ttl, err) := getTTLFromAnnotations (Annotations ingressRoute) in
      _ <- warnIfError err ;;
      let targets := getTargetsFromTargetAnnotation (Annotations ingressRoute) in
      targets <- (if decide (length targets = 0%nat)
                  then targetsFromContourLoadBalancer sc
                  else ret targets) ;;
      let '(providerSpecific, setIdentifier) :=
        getProviderSpecificAnnotations (Annotations ingressRoute) in
      let hostnameList := strings.Split (strings.Remove hostnames " ") "," in
      ret (flat_map (fun hostname =>
                       endpointsForHostname (strings.TrimSuffix hostname ".")
                         targets ttl providerSpecific setIdentifier)
                    hostnameList)
  end.

Definition setResourceLabel (ingressRoute : IngressRoute)
    (endpoints : list Endpoint) : list Endpoint :=
  map (setLabel ResourceLabelKey
         ("ingressroute/" +:+ Namespace ingressRoute +:+ "/"
          +:+ Name ingressRoute))
      endpoints.

Definition endpointsFromIngressRoute (sc : ingressRouteSource)
    (route : IngressRoute) : M (list Endpoint) :=
  if decide (CurrentStatus route <> "valid") then
    _ <- logWarn ("cannot generate endpoints for ingressroute with status "
                  +:+ CurrentStatus route) ;;
    ret []
  else
    let '(ttl, err) := getTTLFromAnnotations (Annotations route) in
    _ <- warnIfError err ;;
    let targets := getTargetsFromTargetAnnotation (Annotations route) in
    targets <- (if decide (length targets = 0%nat)
                then targetsFromContourLoadBalancer sc
                else ret targets) ;;
    let '(providerSpecific, setIdentifier) :=
      getProviderSpecificAnnotations (Annotations route) in
    let endpoints :=
      match Spec_VirtualHost route with
      | Some virtualHost =>
          if decide (Fqdn virtualHost <> "")
          then endpointsForHostname (Fqdn virtualHost) targets ttl
                 providerSpecific setIdentifier
          else []
      | None => []
      end in
    let endpoints :=
      if ignoreHostnameAnnotation sc then endpoints
      else endpoints ++
           flat_map (fun hostname =>
                       endpointsForHostname hostname targets ttl
                         providerSpecific setIdentifier)
                    (getHostnamesFromAnnotations (Annotations route)) in
    ret endpoints.

(** One turn of the loop of [Endpoints]: the endpoints it appends for
    [rt], none when it continues early. *)
Definition Endpoints_body (sc : ingressRouteSource) (rt : IngressRoute)
  : M (list Endpoint) :=
  if negb (annotationSelector sc (Annotations rt)) then ret []
  else if otherController (Annotations rt) then ret []
  else if decide (CurrentStatus rt <> "valid") then ret []
  else
    eps <- endpointsFromIngressRoute sc rt ;;
    eps <- match fqdnTemplate sc with
           | Some tmpl =>
               if combineFQDNAnnotation sc || bool_decide (length eps = 0%nat)
               then
                 tmplEndpoints <- endpointsFromTemplate sc tmpl rt ;;
                 ret (if combineFQDNAnnotation sc
                      then eps ++ tmplEndpoints
                      else tmplEndpoints)
               else ret eps
           | None => ret eps
           end ;;
    if decide (length eps = 0%nat) then ret []
    else ret (setResourceLabel rt eps).

(** [Endpoints] after the call of the lister: the loop over the
    IngressRoutes it returned, and the sort of the targets. *)
Definition Endpoints (sc : ingressRouteSource) (routes : list IngressRoute)
  : M (list Endpoint) :=
  endpoints <- forRange (Endpoints_body sc) routes [] ;;
  ret (map sortTargets endpoints).

(** [Endpoints] from its first statement: [listed] is what the [List] of
    the lister returns, the IngressRoutes of the namespace or an error, which
    [Endpoints] returns before it does anything else. *)
Definition EndpointsFromLister (sc : ingressRouteSource)
    (listed : result (list IngressRoute)) : M (list Endpoint) :=
  routes <- try listed ;;
  Endpoints sc routes.

End IngressRouteSource.

(** ** Ambassador Host *)

Module AmbassadorHostSource.

(** The annotation in the Host that maps to a Service. *)
Definition ambHostAnnotation : string := "external-dns.ambassador-service".

Record HostSpec := { Spec_Hostname : string }.

(** [ambassador_v2.Host]. *)
Record Host := {
  Namespace : string;
  Name : string;
  Annotations : gmap string string;
  Spec : option HostSpec;
}.

Record ambassadorHostSource := {
  namespace : string;
}.

Definition endpointsFromHost (sc : ambassadorHostSource) (host : Host)
    (targets : list string) : M (list Endpoint) :=
  let '(ttl, err) := getTTLFromAnnotations (Annotations host) in
  match err with
  | Some err => fail err
  | None =>
      match Spec host with
      | Some spec =>
          if decide (Spec_Hostname spec <> "")
          then ret (endpointsForHostname (Spec_Hostname spec) targets ttl [] "")
          else ret []
      | None => ret []
      end
  end.

Definition targetsFromAmbassadorLoadBalancer (sc : ambassadorHostSource)
    (service : string) : M (list string) :=
  lb <- try (parseAmbLoadBalancerService service) ;;
  svc <- getService lb.1 lb.2 ;;
  svc <- try svc ;;
  ret (targetsFromIngress (Service_Status_LoadBalancer_Ingress svc)).

(** One turn of the loop of [Endpoints]. *)
Definition Endpoints_body (sc : ambassadorHostSource) (host : Host)
  : M (list Endpoint) :=
  match Annotations host !! ambHostAnnotation with
  | None => ret []
  | Some service =>
      targets <- targetsFromAmbassadorLoadBalancer sc service ;;
      hostEndpoints <- endpointsFromHost sc host targets ;;
      if decide (length hostEndpoints = 0%nat) then ret []
      else ret hostEndpoints
  end.

(** [Endpoints] after the call of the lister: the loop over the
    Hosts it returned, and the sort of the targets. *)
Definition Endpoints (sc : ambassadorHostSource) (hosts : list Host)
  : M (list Endpoint) :=
  endpoints <- forRange (Endpoints_body sc) hosts [] ;;
  ret (map sortTargets endpoints).

(** [Endpoints] from its first statement: [listed] is what the [List] of
    the lister returns, the Hosts of the namespace or an error, which
    [Endpoints] returns before it does anything else. *)
Definition EndpointsFromLister (sc : ambassadorHostSource)
    (listed : result (list Host)) : M (list Endpoint) :=
  hosts <- try listed ;;
  Endpoints sc hosts.

End AmbassadorHostSource.

(** ** Gloo Proxy *)

Module GlooSource.

(** The types of third_party/solo.io/apis/gloo/v1/types.go. *)
Record VirtualHostMetadataSource := {
  Kind : string;
  Source_Name : string;
  Source_Namespace : string;
}.

Record VirtualHost := {
  Domains : list string;
  Metadata_Source : list VirtualHostMetadataSource;
}.

Record Listener := {
  HTTPListener_VirtualHosts : list VirtualHost;
}.

Record Status := {
  State : string;
  Reason : string;
  ReportedBy : string;
}.

Definition StatePending : string := "Pending".
Definition StateAccepted : string := "Accepted".
Definition StateRejected : string := "Rejected".
Definition StateWarning : string := "Warning".

Record Proxy := {
  Namespace : string;
  Name : string;
  Spec_Listeners : list Listener;
  Proxy_Status : Status;
}.

Record glooSource := {
  namespace : string;
}.

(** The loop of [annotationsFromVirtualHost] over the sources of the
    virtual host, from the annotations gathered so far; the annotations
    of a later virtual service overwrite those of an earlier one. *)
Fixpoint annotationsFromSources (sources : list VirtualHostMetadataSource)
    (annotations : gmap string string) : M (gmap string string) :=
  match sources with
  | [] => ret annotations
  | src :: sources' =>
      if decide (Kind src = "*v1.VirtualService") then
        svc <- getVirtualService (Source_Namespace src) (Source_Name src) ;;
        svc <- try svc ;;
        annotationsFromSources sources' (svc ∪ annotations)
      else annotationsFromSources sources' annotations
  end.

Definition annotationsFromVirtualHost (gs : glooSource) (vhost : VirtualHost)
  : M (gmap string string) :=
  annotationsFromSources (Metadata_Source vhost) ∅.

Definition endpointsFromProxy (gs : glooSource) (proxy : Proxy)
    (targets : list string) : M (list Endpoint) :=
  forRange (fun listener =>
    forRange (fun vhost =>
      annotations <- annotationsFromVirtualHost gs vhost ;;
      let '(ttl, err) := getTTLFromAnnotations annotations in
      match err with
      | Some err => fail err
      | None =>
          let '(providerSpecific, setIdentifier) :=
            getProviderSpecificAnnotations annotations in
          ret (flat_map (fun domain =>
                           endpointsForHostname
                             (strings.TrimSuffix domain ".") targets ttl
                             providerSpecific setIdentifier)
                        (Domains vhost))
      end) (HTTPListener_VirtualHosts listener) [])
    (Spec_Listeners proxy) [].

Definition proxyTargets (gs : glooSource) (name : string)
  : M (list string) :=
  svc <- getService (namespace gs) name ;;
  svc <- try svc ;;
  if decide (Service_Spec_Type svc = ServiceTypeLoadBalancer)
  then ret (targetsFromIngress (Service_Status_LoadBalancer_Ingress svc))
  else _ <- logWarn "Gloo: Proxy service type not supported" ;; ret [].

(** One turn of the loop of [Endpoints]. *)
Definition Endpoints_body (gs : glooSource) (p : Proxy)
  : M (list Endpoint) :=
  targets <- proxyTargets gs (Name p) ;;
  endpointsFromProxy gs p targets.

(** [Endpoints] after the call of the lister: the loop over the
    Proxies it returned. *)
Definition Endpoints (gs : glooSource) (proxies : list Proxy)
  : M (list Endpoint) :=
  forRange (Endpoints_body gs) proxies [].

(** [Endpoints] from its first statement: [listed] is what the [List] of
    the lister returns, the Proxies of the namespace or an error, which
    [Endpoints] returns before it does anything else. *)
Definition EndpointsFromLister (gs : glooSource)
    (listed : result (list Proxy)) : M (list Endpoint) :=
  proxies <- try listed ;;
  Endpoints gs proxies.

End GlooSource.

(** ** Kong TCPIngress *)

Module KongTCPIngressSource.

Record IngressRule := {
  Host : string;
  Port : Z;
}.

(** [kong_v1b1.TCPIngress]. *)
Record TCPIngress := {
  Namespace : string;
  Name : string;
  Annotations : gmap string string;
  Spec_Rules : list IngressRule;
  Status_LoadBalancer_Ingress : list LoadBalancerIngress;
}.

Record kongTCPIngressSource := {
  namespace : string;
  annotationSelector : Selector;
}.

Definition setResourceLabel (tcpIngress : TCPIngress)
    (endpoints : list Endpoint) : list Endpoint :=
  map (setLabel ResourceLabelKey
         ("tcpingress/" +:+ Namespace tcpIngress +:+ "/" +:+ Name tcpIngress))
      endpoints.

Definition setDualstackLabel (tcpIngress : TCPIngress)
    (endpoints : list Endpoint) : list Endpoint :=
  match Annotations tcpIngress !! ALBDualstackAnnotationKey with
  | Some val =>
      if decide (val = ALBDualstackAnnotationValue)
      then map (setLabel DualstackLabelKey "true") endpoints
      else endpoints
  | None => endpoints
  end.

Definition endpointsFromTCPIngress (sc : kongTCPIngressSource)
    (tcpIngress : TCPIngress) (targets : list string) : M (list Endpoint) :=
  let '(ttl, err) := getTTLFromAnnotations (Annotations tcpIngress) in
  match err with
  | Some err => fail err
  | None =>
      let '(providerSpecific, setIdentifier) :=
        getProviderSpecificAnnotations (Annotations tcpIngress) in
      let endpoints :=
        flat_map (fun hostname =>
                    endpointsForHostname hostname targets ttl
                      providerSpecific setIdentifier)
                 (getHostnamesFromAnnotations (Annotations tcpIngress)) in
      let endpoints :=
        endpoints ++
        flat_map (fun rule =>
                    if decide (Host rule <> "")
                    then endpointsForHostname (Host rule) targets ttl
                           providerSpecific setIdentifier
                    else [])
                 (Spec_Rules tcpIngress) in
      ret endpoints
  end.

(** One turn of the loop of [Endpoints]. *)
Definition Endpoints_body (sc : kongTCPIngressSource) (ti : TCPIngress)
  : M (list Endpoint) :=
  if negb (annotationSelector sc (Annotations ti)) then ret []
  else
    let targets := targetsFromIngress (Status_LoadBalancer_Ingress ti) in
    eps <- endpointsFromTCPIngress sc ti targets ;;
    if decide (length eps = 0%nat) then ret []
    else ret (setDualstackLabel ti (setResourceLabel ti eps)).

(** [Endpoints] after the call of the lister: the loop over the
    TCPIngresses it returned, and the sort of the targets. *)
Definition Endpoints (sc : kongTCPIngressSource)
    (tcpIngresses : list TCPIngress) : M (list Endpoint) :=
  endpoints <- forRange (Endpoints_body sc) tcpIngresses [] ;;
  ret (map sortTargets endpoints).

(** [Endpoints] from its first statement: [listed] is what the [List] of
    the lister returns, the TCPIngresses of the namespace or an error, which
    [Endpoints] returns before it does anything else. *)
Definition EndpointsFromLister (sc : kongTCPIngressSource)
    (listed : result (list TCPIngress)) : M (list Endpoint) :=
  tcpIngresses <- try listed ;;
  Endpoints sc tcpIngresses.

End KongTCPIngressSource.

(** ** Resources of the adapters' tests *)

Module Fixtures.

Definition everything : Selector := fun _ => true.

Definition lbIP (ip : string) : LoadBalancerIngress :=
  {| IP := ip; Hostname := "" |}.
Definition lbHostname (hostname : string) : LoadBalancerIngress :=
  {| IP := ""; Hostname := hostname |}.

(** Gloo: a proxy with one virtual host, in a given state, and the
    service of its name, whose addresses are not in order. *)
Definition glooSrc : GlooSource.glooSource :=
  {| GlooSource.namespace := "gloo-system" |}.

Definition glooProxy (state reason : string) : GlooSource.Proxy :=
  {| GlooSource.Namespace := "gloo-system";
     GlooSource.Name := "internal";
     GlooSource.Spec_Listeners :=
       [ {| GlooSource.HTTPListener_VirtualHosts :=
              [ {| GlooSource.Domains := ["a.test"];
                   GlooSource.Metadata_Source :=
                     [ {| GlooSource.Kind := "*v1.Unknown";
                          GlooSource.Source_Name := "my-unknown-svc";
                          GlooSource.Source_Namespace := "unknown" |} ] |} ] |} ];
     GlooSource.Proxy_Status :=
       {| GlooSource.State := state;
          GlooSource.Reason := reason;
          GlooSource.ReportedBy := "gloo" |} |}.

Definition acceptedProxy : GlooSource.Proxy :=
  glooProxy GlooSource.StateAccepted "".

Definition rejectedProxy : GlooSource.Proxy :=
  glooProxy GlooSource.StateRejected "invalid route".

Definition glooCluster : Cluster :=
  {| Services :=
       {[ ("gloo-system", "internal") :=
            {| Service_Spec_Type := ServiceTypeLoadBalancer;
               Service_Status_LoadBalancer_Ingress :=
                 [lbIP "203.0.113.2"; lbIP "203.0.113.1"] |} ]};
     VirtualServices := ∅ |}.

(** Ambassador: two Hosts; the service of the first exists, the one of
    the second does not. *)
Definition ambassadorSrc : AmbassadorHostSource.ambassadorHostSource :=
  {| AmbassadorHostSource.namespace := "default" |}.

Definition ambassadorHost (name service hostname : string)
  : AmbassadorHostSource.Host :=
  {| AmbassadorHostSource.Namespace := "default";
     AmbassadorHostSource.Name := name;
     AmbassadorHostSource.Annotations :=
       {[ AmbassadorHostSource.ambHostAnnotation := service ]};
     AmbassadorHostSource.Spec :=
       Some {| AmbassadorHostSource.Spec_Hostname := hostname |} |}.

Definition hostWithService : AmbassadorHostSource.Host :=
  ambassadorHost "www" "ambassador/ambassador" "www.example.org".

Definition hostWithMissingService : AmbassadorHostSource.Host :=
  ambassadorHost "api" "ns1/missing" "api.example.org".

Definition ambassadorCluster : Cluster :=
  {| Services :=
       {[ ("ambassador", "ambassador") :=
            {| Service_Spec_Type := ServiceTypeLoadBalancer;
               Service_Status_LoadBalancer_Ingress := [lbIP "1.1.1.1"] |} ]};
     VirtualServices := ∅ |}.

(** Kong: the TCPIngress "tcp-ingress-both" of the adapter's test, with
    a hostname annotation and two rules with a host. *)
Definition kongSrc : KongTCPIngressSource.kongTCPIngressSource :=
  {| KongTCPIngressSource.namespace := "kong";
     KongTCPIngressSource.annotationSelector := everything |}.

Definition tcpIngress (annotations : gmap string string)
  : KongTCPIngressSource.TCPIngress :=
  {| KongTCPIngressSource.Namespace := "kong";
     KongTCPIngressSource.Name := "tcp-ingress-both";
     KongTCPIngressSource.Annotations := annotations;
     KongTCPIngressSource.Spec_Rules :=
       [ {| KongTCPIngressSource.Host := "e.example.com";
            KongTCPIngressSource.Port := 30004 |};
         {| KongTCPIngressSource.Host := "f.example.com";
            KongTCPIngressSource.Port := 30005 |} ];
     KongTCPIngressSource.Status_LoadBalancer_Ingress :=
       [lbHostname "a12e71861a4303f063456769a314a3bd-1291189659.us-east-1.elb.amazonaws.com"] |}.

Definition tcpIngressBoth : KongTCPIngressSource.TCPIngress :=
  tcpIngress {[ hostnameAnnotationKey := "d.example.com";
                "kubernetes.io/ingress.class" := "kong" ]}.

(** The same with a TTL annotation that is no TTL. *)
Definition tcpIngressBadTTL : KongTCPIngressSource.TCPIngress :=
  tcpIngress {[ hostnameAnnotationKey := "d.example.com";
                ttlAnnotationKey := "abc" ]}.

Definition emptyCluster : Cluster :=
  {| Services := ∅; VirtualServices := ∅ |}.

(** HTTPProxy: "fake3" of the test "httpproxy rules with annotation",
    with a target annotation and a load balancer, and a proxy with a
    native hostname for a source with a template. *)
Definition httpProxySrc : HTTPProxySource.httpProxySource :=
  {| HTTPProxySource.namespace := "";
     HTTPProxySource.fqdnTemplate := None;
     HTTPProxySource.annotationSelector := everything;
     HTTPProxySource.combineFQDNAnnotation := false;
     HTTPProxySource.ignoreHostnameAnnotation := false |}.

(** The template "{{.Name}}.ext-dns.test.com". *)
Definition nameTemplate : Template HTTPProxySource.HTTPProxy :=
  fun hp => Ok (HTTPProxySource.Name hp +:+ ".ext-dns.test.com").

Definition httpProxySrcWithTemplate : HTTPProxySource.httpProxySource :=
  {| HTTPProxySource.namespace := "";
     HTTPProxySource.fqdnTemplate := Some nameTemplate;
     HTTPProxySource.annotationSelector := everything;
     HTTPProxySource.combineFQDNAnnotation := false;
     HTTPProxySource.ignoreHostnameAnnotation := false |}.

Definition httpProxy (name host : string) (annotations : gmap string string)
  : HTTPProxySource.HTTPProxy :=
  {| HTTPProxySource.Namespace := "testing";
     HTTPProxySource.Name := name;
     HTTPProxySource.Annotations := annotations;
     HTTPProxySource.Spec_VirtualHost :=
       Some {| HTTPProxySource.Fqdn := host |};
     HTTPProxySource.Status_CurrentStatus := "valid";
     HTTPProxySource.Status_LoadBalancer_Ingress := [lbIP "8.8.8.8"] |}.

Definition fake3 : HTTPProxySource.HTTPProxy :=
  httpProxy "fake3" "example3.org" {[ targetAnnotationKey := "1.2.3.4" ]}.

Definition fooBar : HTTPProxySource.HTTPProxy :=
  httpProxy "proxy" "foo.bar" ∅.

(** IngressRoute: a route with a target annotation, for a source whose
    load-balancer service is "heptio-contour/contour". *)
Definition ingressRouteSrc : IngressRouteSource.ingressRouteSource :=
  {| IngressRouteSource.namespace := "";
     IngressRouteSource.lbService_Namespace := "heptio-contour";
     IngressRouteSource.lbService_Name := "contour";
     IngressRouteSource.fqdnTemplate := None;
     IngressRouteSource.annotationSelector := everything;
     IngressRouteSource.combineFQDNAnnotation := false;
     IngressRouteSource.ignoreHostnameAnnotation := false |}.

Definition ingressRoute (name host status : string)
    (annotations : gmap string string) : IngressRouteSource.IngressRoute :=
  {| IngressRouteSource.Namespace := "testing";
     IngressRouteSource.Name := name;
     IngressRouteSource.Annotations := annotations;
     IngressRouteSource.Spec_VirtualHost :=
       Some {| IngressRouteSource.Fqdn := host |};
     IngressRouteSource.CurrentStatus := status |}.

Definition routeWithTarget : IngressRouteSource.IngressRoute :=
  ingressRoute "fake3" "example3.org" "valid"
    {[ targetAnnotationKey := "1.2.3.4" ]}.

Definition contourCluster : Cluster :=
  {| Services :=
       {[ ("heptio-contour", "contour") :=
            {| Service_Spec_Type := ServiceTypeLoadBalancer;
               Service_Status_LoadBalancer_Ingress := [lbIP "8.8.8.8"] |} ]};
     VirtualServices := ∅ |}.

(** Resources for the other cases: a TTL annotation that is no TTL, a
    status that is not "valid", a Host without the service annotation, a
    source with a template. *)
Definition httpProxyBadTTL : HTTPProxySource.HTTPProxy :=
  httpProxy "fake1" "example.org" {[ ttlAnnotationKey := "abc" ]}.

Definition httpProxyTwoAddresses : HTTPProxySource.HTTPProxy :=
  {| HTTPProxySource.Namespace := "httpproxy-test";
     HTTPProxySource.Name := "proxy";
     HTTPProxySource.Annotations := ∅;
     HTTPProxySource.Spec_VirtualHost :=
       Some {| HTTPProxySource.Fqdn := "foo.bar" |};
     HTTPProxySource.Status_CurrentStatus := "valid";
     HTTPProxySource.Status_LoadBalancer_Ingress :=
       [lbIP "8.8.8.8"; lbIP "127.0.0.1"] |}.

Definition httpProxyInvalid : HTTPProxySource.HTTPProxy :=
  {| HTTPProxySource.Namespace := "httpproxy-test";
     HTTPProxySource.Name := "proxy";
     HTTPProxySource.Annotations := ∅;
     HTTPProxySource.Spec_VirtualHost :=
       Some {| HTTPProxySource.Fqdn := "foo.bar" |};
     HTTPProxySource.Status_CurrentStatus := "invalid";
     HTTPProxySource.Status_LoadBalancer_Ingress := [lbIP "8.8.8.8"] |}.

Definition routeTemplate : Template IngressRouteSource.IngressRoute :=
  fun rt => Ok (IngressRouteSource.Name rt +:+ ".ext-dns.test.com").

Definition ingressRouteSrcWithTemplate : IngressRouteSource.ingressRouteSource :=
  {| IngressRouteSource.namespace := "";
     IngressRouteSource.lbService_Namespace := "heptio-contour";
     IngressRouteSource.lbService_Name := "contour";
     IngressRouteSource.fqdnTemplate := Some routeTemplate;
     IngressRouteSource.annotationSelector := everything;
     IngressRouteSource.combineFQDNAnnotation := true;
     IngressRouteSource.ignoreHostnameAnnotation := false |}.

Definition routeFooBar : IngressRouteSource.IngressRoute :=
  ingressRoute "route" "foo.bar" "valid" ∅.

Definition routeBadTTL : IngressRouteSource.IngressRoute :=
  ingressRoute "fake1" "example.org" "valid" {[ ttlAnnotationKey := "abc" ]}.

Definition routeInvalid : IngressRouteSource.IngressRoute :=
  ingressRoute "fake1" "example.org" "invalid" ∅.

Definition hostWithoutAnnotation : AmbassadorHostSource.Host :=
  {| AmbassadorHostSource.Namespace := "default";
     AmbassadorHostSource.Name := "plain";
     AmbassadorHostSource.Annotations := ∅;
     AmbassadorHostSource.Spec :=
       Some {| AmbassadorHostSource.Spec_Hostname := "plain.example.org" |} |}.

Definition hostBadTTL : AmbassadorHostSource.Host :=
  {| AmbassadorHostSource.Namespace := "default";
     AmbassadorHostSource.Name := "www";
     AmbassadorHostSource.Annotations :=
       {[ AmbassadorHostSource.ambHostAnnotation := "ambassador/ambassador";
          ttlAnnotationKey := "abc" ]};
     AmbassadorHostSource.Spec :=
       Some {| AmbassadorHostSource.Spec_Hostname := "www.example.org" |} |}.

(** Sources with an annotation filter on the ingress class, and
    resources with and without the class. *)
Definition classSelector (class : string) : Selector :=
  fun annotations =>
    bool_decide (annotations !! "kubernetes.io/ingress.class" = Some class).

Definition httpProxySrcFiltered : HTTPProxySource.httpProxySource :=
  {| HTTPProxySource.namespace := "";
     HTTPProxySource.fqdnTemplate := None;
     HTTPProxySource.annotationSelector := classSelector "contour";
     HTTPProxySource.combineFQDNAnnotation := false;
     HTTPProxySource.ignoreHostnameAnnotation := false |}.

Definition httpProxyContourClass : HTTPProxySource.HTTPProxy :=
  httpProxy "fake1" "example.org" {[ "kubernetes.io/ingress.class" := "contour" ]}.

Definition httpProxyTinydnsClass : HTTPProxySource.HTTPProxy :=
  httpProxy "fake2" "example2.org" {[ "kubernetes.io/ingress.class" := "tinydns" ]}.

Definition ingressRouteSrcFiltered : IngressRouteSource.ingressRouteSource :=
  {| IngressRouteSource.namespace := "";
     IngressRouteSource.lbService_Namespace := "heptio-contour";
     IngressRouteSource.lbService_Name := "contour";
     IngressRouteSource.fqdnTemplate := None;
     IngressRouteSource.annotationSelector := classSelector "contour";
     IngressRouteSource.combineFQDNAnnotation := false;
     IngressRouteSource.ignoreHostnameAnnotation := false |}.

Definition routeContourClass : IngressRouteSource.IngressRoute :=
  ingressRoute "fake1" "example.org" "valid"
    {[ "kubernetes.io/ingress.class" := "contour" ]}.

Definition routeTinydnsClass : IngressRouteSource.IngressRoute :=
  ingressRoute "fake2" "example2.org" "valid"
    {[ "kubernetes.io/ingress.class" := "tinydns" ]}.

Definition kongSrcFiltered : KongTCPIngressSource.kongTCPIngressSource :=
  {| KongTCPIngressSource.namespace := "kong";
     KongTCPIngressSource.annotationSelector := classSelector "kong" |}.

(** Resources of another controller. *)
Definition httpProxyOtherController : HTTPProxySource.HTTPProxy :=
  httpProxy "fake1" "example.org" {[ controllerAnnotationKey := "some-other-tool" ]}.

Definition routeOtherController : IngressRouteSource.IngressRoute :=
  ingressRoute "fake1" "example.org" "valid"
    {[ controllerAnnotationKey := "some-other-tool" ]}.

(** Sources whose template fails to render, and resources without a
    hostname of their own. *)
Definition brokenTemplate : Template HTTPProxySource.HTTPProxy :=
  fun _ => Err "no such field".

Definition httpProxySrcBrokenTemplate : HTTPProxySource.httpProxySource :=
  {| HTTPProxySource.namespace := "";
     HTTPProxySource.fqdnTemplate := Some brokenTemplate;
     HTTPProxySource.annotationSelector := everything;
     HTTPProxySource.combineFQDNAnnotation := true;
     HTTPProxySource.ignoreHostnameAnnotation := false |}.

Definition brokenRouteTemplate : Template IngressRouteSource.IngressRoute :=
  fun _ => Err "no such field".

Definition ingressRouteSrcBrokenTemplate : IngressRouteSource.ingressRouteSource :=
  {| IngressRouteSource.namespace := "";
     IngressRouteSource.lbService_Namespace := "heptio-contour";
     IngressRouteSource.lbService_Name := "contour";
     IngressRouteSource.fqdnTemplate := Some brokenRouteTemplate;
     IngressRouteSource.annotationSelector := everything;
     IngressRouteSource.combineFQDNAnnotation := false;
     IngressRouteSource.ignoreHostnameAnnotation := false |}.

Definition routeWithoutHost : IngressRouteSource.IngressRoute :=
  ingressRoute "fake1" "" "valid" ∅.

(** Sources that ignore the hostname annotation, and resources with
    one. *)
Definition httpProxySrcIgnoring : HTTPProxySource.httpProxySource :=
  {| HTTPProxySource.namespace := "";
     HTTPProxySource.fqdnTemplate := None;
     HTTPProxySource.annotationSelector := everything;
     HTTPProxySource.combineFQDNAnnotation := false;
     HTTPProxySource.ignoreHostnameAnnotation := true |}.

Definition httpProxyWithHostname : HTTPProxySource.HTTPProxy :=
  httpProxy "fake1" "example.org" {[ hostnameAnnotationKey := "other.example.org" ]}.

Definition ingressRouteSrcIgnoring : IngressRouteSource.ingressRouteSource :=
  {| IngressRouteSource.namespace := "";
     IngressRouteSource.lbService_Namespace := "heptio-contour";
     IngressRouteSource.lbService_Name := "contour";
     IngressRouteSource.fqdnTemplate := None;
     IngressRouteSource.annotationSelector := everything;
     IngressRouteSource.combineFQDNAnnotation := false;
     IngressRouteSource.ignoreHostnameAnnotation := true |}.

Definition routeWithHostname : IngressRouteSource.IngressRoute :=
  ingressRoute "fake1" "example.org" "valid"
    {[ hostnameAnnotationKey := "other.example.org" ]}.

(** Ambassador Hosts: a reference that does not parse, a Host without a
    hostname, a Host with annotations the adapter does not read. *)
Definition hostMalformed : AmbassadorHostSource.Host :=
  ambassadorHost "bad" "a/b/c" "bad.example.org".

Definition hostWithoutHostname : AmbassadorHostSource.Host :=
  ambassadorHost "empty" "ambassador/ambassador" "".

Definition hostWithMetadata : AmbassadorHostSource.Host :=
  {| AmbassadorHostSource.Namespace := "default";
     AmbassadorHostSource.Name := "www";
     AmbassadorHostSource.Annotations :=
       {[ AmbassadorHostSource.ambHostAnnotation := "ambassador/ambassador";
          setIdentifierKey := "id1";
          awsAnnotationPrefix +:+ "weight" := "10" ]};
     AmbassadorHostSource.Spec :=
       Some {| AmbassadorHostSource.Spec_Hostname := "www.example.org" |} |}.

(** A Kong TCPIngress with the dual-stack annotation. *)
Definition tcpIngressDualstack : KongTCPIngressSource.TCPIngress :=
  tcpIngress {[ hostnameAnnotationKey := "d.example.com";
                ALBDualstackAnnotationKey := ALBDualstackAnnotationValue ]}.

(** Gloo: virtual hosts that name virtual services, two that exist and
    one that does not, and a service of another type. *)
Definition virtualServiceSource (name : string)
  : GlooSource.VirtualHostMetadataSource :=
  {| GlooSource.Kind := "*v1.VirtualService";
     GlooSource.Source_Name := name;
     GlooSource.Source_Namespace := "gloo-system" |}.

Definition unknownSource : GlooSource.VirtualHostMetadataSource :=
  {| GlooSource.Kind := "*v1.Unknown";
     GlooSource.Source_Name := "my-unknown-svc";
     GlooSource.Source_Namespace := "unknown" |}.

Definition firstAnnotations : gmap string string :=
  {[ ttlAnnotationKey := "460"; setIdentifierKey := "identifier" ]}.

Definition secondAnnotations : gmap string string :=
  {[ ttlAnnotationKey := "800" ]}.

Definition glooClusterWithVirtualServices : Cluster :=
  {| Services := Services glooCluster;
     VirtualServices :=
       {[ ("gloo-system", "first") := firstAnnotations;
          ("gloo-system", "second") := secondAnnotations ]} |}.

Definition vhostTwoServices : GlooSource.VirtualHost :=
  {| GlooSource.Domains := ["b.test"];
     GlooSource.Metadata_Source :=
       [virtualServiceSource "first"; unknownSource;
        virtualServiceSource "second"] |}.

Definition vhostMissingService : GlooSource.VirtualHost :=
  {| GlooSource.Domains := ["c.test"];
     GlooSource.Metadata_Source := [virtualServiceSource "missing"] |}.

Definition listenerMissingService : GlooSource.Listener :=
  {| GlooSource.HTTPListener_VirtualHosts := [vhostMissingService] |}.

Definition proxyMissingService : GlooSource.Proxy :=
  {| GlooSource.Namespace := "gloo-system";
     GlooSource.Name := "internal";
     GlooSource.Spec_Listeners := [listenerMissingService];
     GlooSource.Proxy_Status :=
       {| GlooSource.State := GlooSource.StateAccepted;
          GlooSource.Reason := "";
          GlooSource.ReportedBy := "gloo" |} |}.

Definition nodePortService : Service :=
  {| Service_Spec_Type := "NodePort";
     Service_Status_LoadBalancer_Ingress := [lbIP "203.0.113.1"] |}.

Definition glooClusterNodePort : Cluster :=
  {| Services := {[ ("gloo-system", "internal") := nodePortService ]};
     VirtualServices := ∅ |}.

(** A Kong TCPIngress and an Ambassador Host with a target annotation. *)
Definition tcpIngressWithTarget : KongTCPIngressSource.TCPIngress :=
  tcpIngress {[ hostnameAnnotationKey := "d.example.com";
                targetAnnotationKey := "1.2.3.4" ]}.

(** Resources with a TTL annotation that is a duration. *)
Definition httpProxyDurationTTL : HTTPProxySource.HTTPProxy :=
  httpProxy "fake3" "example3.org" {[ ttlAnnotationKey := "10s" ]}.

End Fixtures.

(** ** Notions of the statements *)

(** The cluster with the load-balancer service of an IngressRoute source
    in place, without any load-balancer entry. *)
Definition withEmptyLoadBalancer (sc : IngressRouteSource.ingressRouteSource)
    (c : Cluster) : Cluster :=
  {| Services :=
       <[ (IngressRouteSource.lbService_Namespace sc,
           IngressRouteSource.lbService_Name sc) :=
            {| Service_Spec_Type := ServiceTypeLoadBalancer;
               Service_Status_LoadBalancer_Ingress := [] |} ]> (Services c);
     VirtualServices := VirtualServices c |}.

(** The endpoints of a hostname under the metadata of a set of
    annotations. *)
Definition synthesize (annotations : gmap string string)
    (targets : list string) (hostname : string) : list Endpoint :=
  endpointsForHostname hostname targets
    (getTTLFromAnnotations annotations).1
    (getProviderSpecificAnnotations annotations).1
    (getProviderSpecificAnnotations annotations).2.

(** The hostnames a rendered template stands for. *)
Definition templateHostnames (rendered : string) : list string :=
  map (fun hostname => strings.TrimSuffix hostname ".")
      (strings.Split (strings.Remove rendered " ") ",").

(** The TTL annotation is missing, or [getTTLFromAnnotations] returns an
    error for it. *)
Definition ttlMissingOrInvalid (annotations : gmap string string) : Prop :=
  annotations !! ttlAnnotationKey = None
  \/ exists err, (getTTLFromAnnotations annotations).2 = Some err.

(** What the specification says of an HTTPProxy: its resolved targets, and
    the endpoints of its three sources of hostnames, in the words of
    sections 4.2, 4.3 and 4.5. *)
Module HTTPProxySpec.
Import HTTPProxySource.

(** The resource passes the filters of section 4.1. *)
Definition kept (sc : httpProxySource) (hp : HTTPProxy) : bool :=
  annotationSelector sc (Annotations hp)
  && negb (otherController (Annotations hp))
  && bool_decide (Status_CurrentStatus hp = "valid").

(** Section 4.2: the override annotation, else the embedded status. *)
Definition targets (hp : HTTPProxy) : list string :=
  let override := getTargetsFromTargetAnnotation (Annotations hp) in
  if decide (override = [])
  then targetsFromIngress (Status_LoadBalancer_Ingress hp)
  else override.

Definition native (hp : HTTPProxy) : list Endpoint :=
  match Spec_VirtualHost hp with
  | Some virtualHost =>
      if decide (Fqdn virtualHost = "") then []
      else synthesize (Annotations hp) (targets hp) (Fqdn virtualHost)
  | None => []
  end.

Definition fromAnnotation (sc : httpProxySource) (hp : HTTPProxy)
  : list Endpoint :=
  if ignoreHostnameAnnotation sc then []
  else flat_map (synthesize (Annotations hp) (targets hp))
         (getHostnamesFromAnnotations (Annotations hp)).

Definition fromTemplate (tmpl : Template HTTPProxy) (hp : HTTPProxy)
  : list Endpoint :=
  match tmpl hp with
  | Ok rendered =>
      flat_map (synthesize (Annotations hp) (targets hp))
        (templateHostnames rendered)
  | Err _ => []
  end.

(** Section 4.3: the template is the fallback, or is appended when the
    combine flag is set. *)
Definition usedTemplate (sc : httpProxySource) (hp : HTTPProxy)
  : list Endpoint :=
  match fqdnTemplate sc with
  | Some tmpl =>
      if combineFQDNAnnotation sc
         || bool_decide (native hp ++ fromAnnotation sc hp = [])
      then fromTemplate tmpl hp
      else []
  | None => []
  end.

(** The HTTPProxy with another load-balancer status. *)
Definition withLoadBalancer (hp : HTTPProxy)
    (ingress : list LoadBalancerIngress) : HTTPProxy :=
  {| Namespace := Namespace hp; Name := Name hp;
     Annotations := Annotations hp;
     Spec_VirtualHost := Spec_VirtualHost hp;
     Status_CurrentStatus := Status_CurrentStatus hp;
     Status_LoadBalancer_Ingress := ingress |}.

End HTTPProxySpec.

(** The same of an IngressRoute, whose load-balancer status is that of the
    service of the source. *)
Module IngressRouteSpec.
Import IngressRouteSource.

Definition kept (sc : ingressRouteSource) (rt : IngressRoute) : bool :=
  annotationSelector sc (Annotations rt)
  && negb (otherController (Annotations rt))
  && bool_decide (CurrentStatus rt = "valid").

Definition loadBalancerTargets (sc : ingressRouteSource) (c : Cluster)
  : list string :=
  match Services c !! (lbService_Namespace sc, lbService_Name sc) with
  | Some svc => targetsFromIngress (Service_Status_LoadBalancer_Ingress svc)
  | None => []
  end.

Definition targets (sc : ingressRouteSource) (c : Cluster)
    (rt : IngressRoute) : list string :=
  let override := getTargetsFromTargetAnnotation (Annotations rt) in
  if decide (override = []) then loadBalancerTargets sc c else override.

Definition native (sc : ingressRouteSource) (c : Cluster)
    (rt : IngressRoute) : list Endpoint :=
  match Spec_VirtualHost rt with
  | Some virtualHost =>
      if decide (Fqdn virtualHost = "") then []
      else synthesize (Annotations rt) (targets sc c rt) (Fqdn virtualHost)
  | None => []
  end.

Definition fromAnnotation (sc : ingressRouteSource) (c : Cluster)
    (rt : IngressRoute) : list Endpoint :=
  if ignoreHostnameAnnotation sc then []
  else flat_map (synthesize (Annotations rt) (targets sc c rt))
         (getHostnamesFromAnnotations (Annotations rt)).

Definition fromTemplate (sc : ingressRouteSource) (c : Cluster)
    (tmpl : Template IngressRoute) (rt : IngressRoute) : list Endpoint :=
  match tmpl rt with
  | Ok rendered =>
      flat_map (synthesize (Annotations rt) (targets sc c rt))
        (templateHostnames rendered)
  | Err _ => []
  end.

Definition usedTemplate (sc : ingressRouteSource) (c : Cluster)
    (rt : IngressRoute) : list Endpoint :=
  match fqdnTemplate sc with
  | Some tmpl =>
      if combineFQDNAnnotation sc
         || bool_decide (native sc c rt ++ fromAnnotation sc c rt = [])
      then fromTemplate sc c tmpl rt
      else []
  | None => []
  end.

End IngressRouteSpec.

(** The hostnames of a Kong TCPIngress: its targets are those of its
    status, its native hostnames the hosts of its rules. *)
Module KongTCPIngressSpec.
Import KongTCPIngressSource.

Definition targets (ti : TCPIngress) : list string :=
  targetsFromIngress (Status_LoadBalancer_Ingress ti).

Definition native (ti : TCPIngress) : list Endpoint :=
  flat_map (fun rule =>
              if decide (Host rule = "") then []
              else synthesize (Annotations ti) (targets ti) (Host rule))
           (Spec_Rules ti).

Definition fromAnnotation (ti : TCPIngress) : list Endpoint :=
  flat_map (synthesize (Annotations ti) (targets ti))
    (getHostnamesFromAnnotations (Annotations ti)).

End KongTCPIngressSpec.

(** The Host with a target annotation. *)
Definition withTargetAnnotation (host : AmbassadorHostSource.Host)
    (value : string) : AmbassadorHostSource.Host :=
  {| AmbassadorHostSource.Namespace := AmbassadorHostSource.Namespace host;
     AmbassadorHostSource.Name := AmbassadorHostSource.Name host;
     AmbassadorHostSource.Annotations :=
       <[targetAnnotationKey := value]> (AmbassadorHostSource.Annotations host);
     AmbassadorHostSource.Spec := AmbassadorHostSource.Spec host |}.

(** A computation that does not depend on the cluster. *)
Definition clusterFree {A} (m : M A) : Prop := forall c c', m c = m c'.

(** An event that is a warning of the log. *)
Definition isWarn (ev : event) : Prop :=
  match ev with
  | Warn _ => True
  | _ => False
  end.

(** A computation that looks nothing up: its trace holds warnings only. *)
Definition quiet {A} (m : M A) : Prop := forall c, Forall isWarn (m c).2.

(** The results of two passes, one after the other: the endpoints of the
    first, then those of the second, or the first error. *)
Definition appendResults (r1 r2 : result (list Endpoint))
  : result (list Endpoint) :=
  match r1 with
  | Err e => Err e
  | Ok eps1 =>
      match r2 with
      | Err e => Err e
      | Ok eps2 => Ok (eps1 ++ eps2)
      end
  end.

(** A computation all of whose events are of some kind. *)
Definition traces {A} (P : event -> Prop) (m : M A) : Prop :=
  forall c, Forall P (m c).2.

(** * Properties *)

#[global] Arguments getTTLFromAnnotations : simpl never.
#[global] Arguments getProviderSpecificAnnotations : simpl never.
#[global] Arguments getTargetsFromTargetAnnotation : simpl never.
#[global] Arguments getHostnamesFromAnnotations : simpl never.
#[global] Arguments endpointsForHostname : simpl never.
#[global] Arguments targetsFromIngress : simpl never.

(** ** Running a pass *)

Section ForRange.

Context {A B : Type} (body : A -> M (list B)) (c : Cluster).

(** A turn that appends nothing and leaves no trace can be dropped. *)
Lemma forRange_skip (x : A) (xs1 xs2 : list A) (acc : list B) :
  body x c = (Ok [], []) ->
  forRange body (xs1 ++ x :: xs2) acc c = forRange body (xs1 ++ xs2) acc c.
Proof.
  intros Hx. revert acc.
  induction xs1 as [|y xs1 IH]; intros acc; simpl; unfold bind.
  - rewrite Hx, app_nil_r. by destruct (forRange body xs2 acc c).
  - destruct (body y c) as [[new|e] t1]; [|done]. by rewrite IH.
Qed.

(** What a loop that ran to its end returns: the accumulator, then what
    each turn appended, in order. *)
Lemma forRange_Ok (xs : list A) (acc res : list B) (tr : list event) :
  forRange body xs acc c = (Ok res, tr) ->
  exists parts : list (list B),
    Forall2 (fun x part => exists t, body x c = (Ok part, t)) xs parts
    /\ res = acc ++ concat parts.
Proof.
  revert acc tr.
  induction xs as [|x xs IH]; intros acc tr; simpl; unfold bind, ret.
  - intros [= <- <-]. exists []. split; [constructor|]. by rewrite app_nil_r.
  - destruct (body x c) as [[new|e] t1] eqn:Hx; [|done].
    destruct (forRange body xs (acc ++ new) c) as [r t2] eqn:Hxs.
    intros [= -> <-].
    destruct (IH _ _ Hxs) as (parts & Hparts & ->).
    exists (new :: parts). split.
    + constructor; [by exists t1|done].
    + simpl. by rewrite app_assoc.
Qed.

(** Every element of the result was in the accumulator or was appended
    by the turn of some element. *)
Lemma forRange_elem_of (xs : list A) (acc res : list B) (tr : list event)
    (b : B) :
  forRange body xs acc c = (Ok res, tr) ->
  b ∈ res ->
  b ∈ acc \/ exists x part t, x ∈ xs /\ body x c = (Ok part, t) /\ b ∈ part.
Proof.
  intros Hrun Hb.
  destruct (forRange_Ok _ _ _ _ Hrun) as (parts & Hparts & ->).
  apply elem_of_app in Hb as [Hb|Hb]; [by left|right].
  apply list_elem_of_In, in_concat in Hb as (part & Hpart & Hb).
  apply list_elem_of_In in Hpart, Hb.
  apply list_elem_of_lookup in Hpart as [i Hi].
  destruct (Forall2_lookup_r _ _ _ _ _ Hparts Hi) as (x & Hx & t & Hbody).
  exists x, part, t. split; [|done]. by eapply list_elem_of_lookup_2.
Qed.

(** A loop whose turns all succeed runs to its end. *)
Lemma forRange_total (xs : list A) (acc : list B) :
  (forall x, x ∈ xs -> isOk (body x c).1 = true) ->
  isOk (forRange body xs acc c).1 = true.
Proof.
  revert acc.
  induction xs as [|x xs IH]; intros acc Hall; simpl; [done|].
  unfold bind.
  pose proof (Hall x ltac:(left)) as Hx.
  destruct (body x c) as [[new|e] t1]; [|done].
  specialize (IH (acc ++ new) ltac:(intros; apply Hall; by right)).
  by destruct (forRange body xs (acc ++ new) c).
Qed.

End ForRange.

(** The last step of a pass that sorts: every endpoint of the result has
    its targets in order. *)
Lemma sorted_pass_result (m : M (list Endpoint)) (c : Cluster)
    (eps : list Endpoint) (tr : list event) :
  (endpoints <- m ;; ret (map sortTargets endpoints)) c = (Ok eps, tr) ->
  exists endpoints : list Endpoint,
    m c = (Ok endpoints, tr) /\ eps = map sortTargets endpoints.
Proof.
  unfold bind, ret.
  destruct (m c) as [[endpoints|e] t1]; [|done].
  intros [= <- <-]. exists endpoints. by rewrite app_nil_r.
Qed.

(** Any sort of the targets gives what [sortTargets] gives: there is one
    non-decreasing arrangement of a list of strings. *)
Lemma sortTargets_canonical (ep : Endpoint) (sorted : list string) :
  Sorted String.le sorted ->
  sorted ≡ₚ Targets ep ->
  sorted = Targets (sortTargets ep).
Proof.
  intros Hsorted Hperm. apply (Sorted_unique String.le); [done| |].
  - apply (Sorted_merge_sort String.le).
  - simpl. by rewrite merge_sort_Permutation.
Qed.

Lemma sortTargets_sorted (ep : Endpoint) :
  StronglySorted String.le (Targets (sortTargets ep)).
Proof. apply (StronglySorted_merge_sort String.le). Qed.

(** What a successful [bind] went through. *)
Lemma bind_Ok {A B} (m : M A) (k : A -> M B) (c : Cluster) (b : B)
    (tr : list event) :
  (x <- m ;; k x) c = (Ok b, tr) ->
  exists a t1 t2, m c = (Ok a, t1) /\ k a c = (Ok b, t2) /\ tr = t1 ++ t2.
Proof.
  unfold bind. destruct (m c) as [[a|e] t1]; [|done].
  destruct (k a c) as [r t2] eqn:Hk. intros [= -> <-]. by exists a, t1, t2.
Qed.

Lemma setLabel_lookup (key value : string) (ep : Endpoint) :
  Labels (setLabel key value ep) !! key = Some value.
Proof. apply lookup_insert_eq. Qed.

(** The result of a [bind], whatever the trace. *)
Lemma bind_fst {A B} (m : M A) (k : A -> M B) (c : Cluster) :
  ((x <- m ;; k x) c).1
  = match (m c).1 with
    | Ok a => (k a c).1
    | Err e => Err e
    end.
Proof.
  unfold bind. destruct (m c) as [[a|e] t1]; simpl; [|done].
  by destruct (k a c).
Qed.

Lemma wrap_Ok_result {A} (m : M A) (msg : string) (c : Cluster) (a : A) :
  (m c).1 = Ok a -> (wrap m msg c).1 = Ok a.
Proof. unfold wrap. destruct (m c) as [[a'|e] t]; simpl; congruence. Qed.

Lemma warnIfError_result (err : option error) (c : Cluster) :
  (warnIfError err c).1 = Ok tt.
Proof. by destruct err. Qed.

Section ForRangeResult.

Context {A B : Type}.

(** A loop with a turn that fails does not run to its end. *)
Lemma forRange_fails (body : A -> M (list B)) (c : Cluster) (x : A)
    (xs : list A) (acc : list B) :
  x ∈ xs ->
  isOk (body x c).1 = false ->
  isOk (forRange body xs acc c).1 = false.
Proof.
  intros Hx Hfail. revert acc.
  induction xs as [|y xs IH]; intros acc; [by apply elem_of_nil in Hx|].
  simpl. rewrite bind_fst.
  apply elem_of_cons in Hx as [<-|Hx].
  - by destruct (body x c).1.
  - destruct (body y c).1; [by apply IH|done].
Qed.

(** Two runs whose turns return the same return the same. *)
Lemma forRange_same_result (body body' : A -> M (list B)) (c c' : Cluster)
    (xs : list A) (acc : list B) :
  (forall x, x ∈ xs -> (body x c).1 = (body' x c').1) ->
  (forRange body xs acc c).1 = (forRange body' xs acc c').1.
Proof.
  revert acc.
  induction xs as [|x xs IH]; intros acc Hsame; [done|].
  simpl. rewrite !bind_fst, <- (Hsame x) by left.
  destruct (body x c).1; [|done].
  apply IH. intros; apply Hsame; by right.
Qed.

End ForRangeResult.

Section SplitFacts.

Lemma Split_length (s : string) (sep : ascii) :
  length (strings.Split s sep) = S (strings.Count s sep).
Proof.
  induction s as [|c s IH]; simpl; [done|].
  destruct (Ascii.eqb c sep); simpl.
  - by rewrite IH.
  - destruct (strings.Split s sep) as [|w ws]; simpl in *; lia.
Qed.

End SplitFacts.

(** C5: the reference parser maps "ns1/svc1" and "svc1.ns1" to namespace
    "ns1" and name "svc1", a bare "svc1" to the default namespace, rejects
    "a/b/c", and rejects a reference exactly when it holds more than one
    "/" separator. *)
Theorem parseAmbLoadBalancerService_spec :
  parseAmbLoadBalancerService "ns1/svc1" = Ok ("ns1", "svc1")
  /\ parseAmbLoadBalancerService "svc1.ns1" = Ok ("ns1", "svc1")
  /\ parseAmbLoadBalancerService "svc1" = Ok (NamespaceDefault, "svc1")
  /\ isOk (parseAmbLoadBalancerService "a/b/c") = false
  /\ forall service : string,
       isOk (parseAmbLoadBalancerService service) = false
       <-> (1 < strings.Count service "/")%nat.
Proof.
  repeat split; try reflexivity.
  - unfold parseAmbLoadBalancerService.
    pose proof (Split_length service "/") as Hlen.
    case_decide as H1.
    + destruct (strings.SplitN2 service ".") as [|? [|? [|? ?]]]; simpl; intros; done.
    + destruct (strings.Split service "/") as [|? [|? [|? ?]]]; simpl in *; intros; try done; lia.
  - unfold parseAmbLoadBalancerService.
    pose proof (Split_length service "/") as Hlen.
    case_decide as H1.
    + lia.
    + destruct (strings.Split service "/") as [|? [|? [|? ?]]]; simpl in *; intros; try done; lia.
Qed.

(** ** The Ambassador Host annotation *)

(** C10: a Host without the "external-dns.ambassador-service" annotation
    adds no endpoint and is not looked up (its turn of the loop leaves no
    trace), and the pass goes on: it returns what it returns without that
    Host. *)
Theorem ambassador_host_without_annotation_ignored
    (sc : AmbassadorHostSource.ambassadorHostSource)
    (host : AmbassadorHostSource.Host) (c : Cluster) :
  AmbassadorHostSource.Annotations host
    !! AmbassadorHostSource.ambHostAnnotation = None ->
  AmbassadorHostSource.Endpoints_body sc host c = (Ok [], [])
  /\ forall hosts1 hosts2 : list AmbassadorHostSource.Host,
       AmbassadorHostSource.Endpoints sc (hosts1 ++ host :: hosts2) c
       = AmbassadorHostSource.Endpoints sc (hosts1 ++ hosts2) c.
Proof.
  intros Hnone.
  assert (AmbassadorHostSource.Endpoints_body sc host c = (Ok [], [])) as Hbody.
  { unfold AmbassadorHostSource.Endpoints_body. by rewrite Hnone. }
  split; [done|]. intros hosts1 hosts2.
  unfold AmbassadorHostSource.Endpoints, bind.
  by rewrite (forRange_skip _ _ _ _ _ _ Hbody).
Qed.

(** ** Resources that are not valid *)

(** C9, as the adapters have it: an HTTPProxy or an IngressRoute whose
    status is not "valid" adds no endpoint, and the pass returns what it
    returns without it. *)
Theorem contour_resource_not_valid_skipped :
  (forall (sc : HTTPProxySource.httpProxySource)
          (hp : HTTPProxySource.HTTPProxy) (c : Cluster),
      HTTPProxySource.Status_CurrentStatus hp <> "valid" ->
      HTTPProxySource.Endpoints_body sc hp c = (Ok [], [])
      /\ forall hps1 hps2 : list HTTPProxySource.HTTPProxy,
           HTTPProxySource.Endpoints sc (hps1 ++ hp :: hps2) c
           = HTTPProxySource.Endpoints sc (hps1 ++ hps2) c)
  /\ (forall (sc : IngressRouteSource.ingressRouteSource)
             (rt : IngressRouteSource.IngressRoute) (c : Cluster),
         IngressRouteSource.CurrentStatus rt <> "valid" ->
         IngressRouteSource.Endpoints_body sc rt c = (Ok [], [])
         /\ forall rts1 rts2 : list IngressRouteSource.IngressRoute,
              IngressRouteSource.Endpoints sc (rts1 ++ rt :: rts2) c
              = IngressRouteSource.Endpoints sc (rts1 ++ rts2) c).
Proof.
  split.
  - intros sc hp c Hstatus.
    assert (HTTPProxySource.Endpoints_body sc hp c = (Ok [], [])) as Hbody.
    { unfold HTTPProxySource.Endpoints_body.
      destruct (negb _); [done|]. destruct (otherController _); [done|].
      by case_decide. }
    split; [done|]. intros hps1 hps2.
    unfold HTTPProxySource.Endpoints, bind.
    by rewrite (forRange_skip _ _ _ _ _ _ Hbody).
  - intros sc rt c Hstatus.
    assert (IngressRouteSource.Endpoints_body sc rt c = (Ok [], [])) as Hbody.
    { unfold IngressRouteSource.Endpoints_body.
      destruct (negb _); [done|]. destruct (otherController _); [done|].
      by case_decide. }
    split; [done|]. intros rts1 rts2.
    unfold IngressRouteSource.Endpoints, bind.
    by rewrite (forRange_skip _ _ _ _ _ _ Hbody).
Qed.

(** The Gloo adapter reads no status: a proxy whose state is "Rejected"
    still gets its endpoint. *)
Lemma gloo_rejected_proxy_has_endpoints :
  GlooSource.State (GlooSource.Proxy_Status Fixtures.rejectedProxy) = "Rejected"
  /\ exists ep : Endpoint,
       (GlooSource.Endpoints Fixtures.glooSrc [Fixtures.rejectedProxy]
          Fixtures.glooCluster).1 = Ok [ep]
       /\ DNSName ep = "a.test".
Proof.
  split; [reflexivity|]. eexists. split; [vm_compute; reflexivity|reflexivity].
Qed.

(** ** The order of the targets *)

(** C6, as the adapters have it: every endpoint of a successful pass of
    the HTTPProxy, IngressRoute, Ambassador Host and Kong TCPIngress
    adapters has its targets in non-decreasing order. *)
Theorem targets_sorted_after_pass :
  (forall sc hps c eps tr,
      HTTPProxySource.Endpoints sc hps c = (Ok eps, tr) ->
      forall ep, ep ∈ eps -> StronglySorted String.le (Targets ep))
  /\ (forall sc rts c eps tr,
         IngressRouteSource.Endpoints sc rts c = (Ok eps, tr) ->
         forall ep, ep ∈ eps -> StronglySorted String.le (Targets ep))
  /\ (forall sc hosts c eps tr,
         AmbassadorHostSource.Endpoints sc hosts c = (Ok eps, tr) ->
         forall ep, ep ∈ eps -> StronglySorted String.le (Targets ep))
  /\ (forall sc tis c eps tr,
         KongTCPIngressSource.Endpoints sc tis c = (Ok eps, tr) ->
         forall ep, ep ∈ eps -> StronglySorted String.le (Targets ep)).
Proof.
  repeat split; intros sc xs c eps tr Hrun ep Hep;
    apply sorted_pass_result in Hrun as (endpoints & _ & ->);
    apply list_elem_of_fmap in Hep as (ep' & -> & _);
    apply sortTargets_sorted.
Qed.

(** The Gloo adapter does not sort: the targets of its endpoint are the
    addresses of the service in the order of its status. *)
Lemma gloo_targets_not_sorted :
  exists ep : Endpoint,
    (GlooSource.Endpoints Fixtures.glooSrc [Fixtures.acceptedProxy]
       Fixtures.glooCluster).1 = Ok [ep]
    /\ Targets ep = ["203.0.113.2"; "203.0.113.1"]
    /\ bool_decide (Sorted String.le (Targets ep)) = false.
Proof.
  eexists. split; [vm_compute; reflexivity|]. split; reflexivity.
Qed.

(** ** The provenance label *)

Section ResourceLabel.

Lemma httpproxy_body_labelled sc hp c part t e :
  HTTPProxySource.Endpoints_body sc hp c = (Ok part, t) ->
  e ∈ part ->
  Labels e !! ResourceLabelKey
  = Some ("HTTPProxy/" +:+ HTTPProxySource.Namespace hp +:+ "/"
          +:+ HTTPProxySource.Name hp).
Proof.
  unfold HTTPProxySource.Endpoints_body.
  destruct (negb _); [by intros [= <- <-] ?%elem_of_nil|].
  destruct (otherController _); [by intros [= <- <-] ?%elem_of_nil|].
  case_decide; [by intros [= <- <-] ?%elem_of_nil|].
  intros (eps & t1 & t2 & _ & (eps' & t3 & t4 & _ & Hlast & _)%bind_Ok & _)%bind_Ok.
  case_decide; injection Hlast as <- <-; [by intros ?%elem_of_nil|].
  intros (e' & -> & _)%list_elem_of_fmap. apply setLabel_lookup.
Qed.

Lemma ingressroute_body_labelled sc rt c part t e :
  IngressRouteSource.Endpoints_body sc rt c = (Ok part, t) ->
  e ∈ part ->
  Labels e !! ResourceLabelKey
  = Some ("ingressroute/" +:+ IngressRouteSource.Namespace rt +:+ "/"
          +:+ IngressRouteSource.Name rt).
Proof.
  unfold IngressRouteSource.Endpoints_body.
  destruct (negb _); [by intros [= <- <-] ?%elem_of_nil|].
  destruct (otherController _); [by intros [= <- <-] ?%elem_of_nil|].
  case_decide; [by intros [= <- <-] ?%elem_of_nil|].
  intros (eps & t1 & t2 & _ & (eps' & t3 & t4 & _ & Hlast & _)%bind_Ok & _)%bind_Ok.
  case_decide; injection Hlast as <- <-; [by intros ?%elem_of_nil|].
  intros (e' & -> & _)%list_elem_of_fmap. apply setLabel_lookup.
Qed.

Lemma kong_body_labelled sc ti c part t e :
  KongTCPIngressSource.Endpoints_body sc ti c = (Ok part, t) ->
  e ∈ part ->
  Labels e !! ResourceLabelKey
  = Some ("tcpingress/" +:+ KongTCPIngressSource.Namespace ti +:+ "/"
          +:+ KongTCPIngressSource.Name ti).
Proof.
  unfold KongTCPIngressSource.Endpoints_body.
  destruct (negb _); [by intros [= <- <-] ?%elem_of_nil|].
  intros (eps & t1 & t2 & _ & Hlast & _)%bind_Ok.
  case_decide; injection Hlast as <- <-; [by intros ?%elem_of_nil|].
  unfold KongTCPIngressSource.setDualstackLabel.
  destruct (_ !! ALBDualstackAnnotationKey) as [val|]; [case_decide|].
  - intros (e1 & -> & (e2 & -> & _)%list_elem_of_fmap)%list_elem_of_fmap.
    simpl. rewrite lookup_insert_ne by done. apply lookup_insert_eq.
  - intros (e' & -> & _)%list_elem_of_fmap. apply setLabel_lookup.
  - intros (e' & -> & _)%list_elem_of_fmap. apply setLabel_lookup.
Qed.

End ResourceLabel.

(** C7, as the adapters have it: every endpoint of a pass of the
    HTTPProxy, IngressRoute and Kong TCPIngress adapters was made, in the
    turn of one of the resources of the pass, with the label "resource" set
    to the kind, namespace and name of that resource. *)
Theorem resource_label_after_pass :
  (forall sc hps c eps tr,
      HTTPProxySource.Endpoints sc hps c = (Ok eps, tr) ->
      forall ep, ep ∈ eps ->
      exists hp part t,
        hp ∈ hps
        /\ HTTPProxySource.Endpoints_body sc hp c = (Ok part, t)
        /\ ep ∈ map sortTargets part
        /\ Labels ep !! ResourceLabelKey
           = Some ("HTTPProxy/" +:+ HTTPProxySource.Namespace hp +:+ "/"
                   +:+ HTTPProxySource.Name hp))
  /\ (forall sc rts c eps tr,
         IngressRouteSource.Endpoints sc rts c = (Ok eps, tr) ->
         forall ep, ep ∈ eps ->
         exists rt part t,
           rt ∈ rts
           /\ IngressRouteSource.Endpoints_body sc rt c = (Ok part, t)
           /\ ep ∈ map sortTargets part
           /\ Labels ep !! ResourceLabelKey
              = Some ("ingressroute/" +:+ IngressRouteSource.Namespace rt +:+ "/"
                      +:+ IngressRouteSource.Name rt))
  /\ (forall sc tis c eps tr,
         KongTCPIngressSource.Endpoints sc tis c = (Ok eps, tr) ->
         forall ep, ep ∈ eps ->
         exists ti part t,
           ti ∈ tis
           /\ KongTCPIngressSource.Endpoints_body sc ti c = (Ok part, t)
           /\ ep ∈ map sortTargets part
           /\ Labels ep !! ResourceLabelKey
              = Some ("tcpingress/" +:+ KongTCPIngressSource.Namespace ti +:+ "/"
                      +:+ KongTCPIngressSource.Name ti)).
Proof.
  repeat split; intros sc xs c eps tr Hrun ep Hep;
    apply sorted_pass_result in Hrun as (endpoints & Hrun & ->);
    apply list_elem_of_fmap in Hep as (ep' & -> & Hep);
    destruct (forRange_elem_of _ _ _ _ _ _ _ Hrun Hep)
      as [?%elem_of_nil|(x & part & t & Hx & Hbody & Hpart)]; try done;
    exists x, part, t; (split; [done|]); (split; [done|]);
    (split; [by apply list_elem_of_fmap_2|]).
  - exact (httpproxy_body_labelled _ _ _ _ _ _ Hbody Hpart).
  - exact (ingressroute_body_labelled _ _ _ _ _ _ Hbody Hpart).
  - exact (kong_body_labelled _ _ _ _ _ _ Hbody Hpart).
Qed.

(** The Ambassador adapter sets no label: the endpoint of a Host has none
    under "resource". *)
Lemma ambassador_endpoint_without_resource_label :
  exists ep : Endpoint,
    (AmbassadorHostSource.Endpoints Fixtures.ambassadorSrc
       [Fixtures.hostWithService] Fixtures.ambassadorCluster).1 = Ok [ep]
    /\ DNSName ep = "www.example.org"
    /\ Labels ep !! ResourceLabelKey = None.
Proof.
  eexists. split; [vm_compute; reflexivity|]. split; reflexivity.
Qed.

(** ** Lookups of the load-balancer service *)

Section ContourLoadBalancer.

Import IngressRouteSource.

Variable sc : ingressRouteSource.

Lemma targetsFromContourLoadBalancer_not_found (c : Cluster) :
  Services c !! (lbService_Namespace sc, lbService_Name sc) = None ->
  targetsFromContourLoadBalancer sc c
  = (Ok [],
     [GetService (lbService_Namespace sc) (lbService_Name sc);
      Warn ("service " +:+ lbService_Namespace sc +:+ "/"
            +:+ lbService_Name sc +:+ " not found")]).
Proof.
  intros Hnone. unfold targetsFromContourLoadBalancer, bind, getService.
  by rewrite Hnone.
Qed.

Lemma targetsFromContourLoadBalancer_empty (c : Cluster) :
  (targetsFromContourLoadBalancer sc (withEmptyLoadBalancer sc c)).1 = Ok [].
Proof.
  unfold targetsFromContourLoadBalancer, bind, getService; simpl.
  by rewrite lookup_insert_eq.
Qed.

Lemma targetsFromContourLoadBalancer_total (c : Cluster) :
  exists targets t, targetsFromContourLoadBalancer sc c = (Ok targets, t).
Proof.
  unfold targetsFromContourLoadBalancer, bind, getService; simpl.
  destruct (Services c !! _); simpl; eauto.
Qed.

(** Target resolution of a route, as [endpointsFromIngressRoute] and
    [endpointsFromTemplate] have it. *)
Lemma resolve_same_result (targets : list string) (c : Cluster) :
  Services c !! (lbService_Namespace sc, lbService_Name sc) = None ->
  ((if decide (length targets = 0%nat)
    then targetsFromContourLoadBalancer sc else ret targets) c).1
  = ((if decide (length targets = 0%nat)
      then targetsFromContourLoadBalancer sc else ret targets)
       (withEmptyLoadBalancer sc c)).1.
Proof.
  intros Hnone. case_decide; [|done].
  by rewrite targetsFromContourLoadBalancer_not_found,
    targetsFromContourLoadBalancer_empty.
Qed.

Lemma endpointsFromIngressRoute_same_result (rt : IngressRoute) (c : Cluster) :
  Services c !! (lbService_Namespace sc, lbService_Name sc) = None ->
  (endpointsFromIngressRoute sc rt c).1
  = (endpointsFromIngressRoute sc rt (withEmptyLoadBalancer sc c)).1.
Proof.
  intros Hnone. unfold endpointsFromIngressRoute.
  case_decide; [done|].
  destruct (getTTLFromAnnotations _) as [ttl err].
  rewrite !bind_fst, !warnIfError_result. cbv beta iota.
  rewrite <- resolve_same_result by done.
  destruct (_ c).1; [|done]. by destruct (getProviderSpecificAnnotations _).
Qed.

Lemma ingressroute_endpointsFromTemplate_same_result (tmpl : Template IngressRoute)
    (rt : IngressRoute) (c : Cluster) :
  Services c !! (lbService_Namespace sc, lbService_Name sc) = None ->
  (endpointsFromTemplate sc tmpl rt c).1
  = (endpointsFromTemplate sc tmpl rt (withEmptyLoadBalancer sc c)).1.
Proof.
  intros Hnone. unfold endpointsFromTemplate.
  destruct (tmpl rt); [|done].
  destruct (getTTLFromAnnotations _) as [ttl err].
  rewrite !bind_fst, !warnIfError_result. cbv beta iota.
  rewrite <- resolve_same_result by done.
  destruct (_ c).1; [|done]. by destruct (getProviderSpecificAnnotations _).
Qed.

Lemma ingressroute_Endpoints_body_same_result (rt : IngressRoute) (c : Cluster) :
  Services c !! (lbService_Namespace sc, lbService_Name sc) = None ->
  (Endpoints_body sc rt c).1
  = (Endpoints_body sc rt (withEmptyLoadBalancer sc c)).1.
Proof.
  intros Hnone. unfold Endpoints_body.
  destruct (negb _); [done|]. destruct (otherController _); [done|].
  case_decide; [done|].
  rewrite !bind_fst, <- endpointsFromIngressRoute_same_result by done.
  destruct (endpointsFromIngressRoute sc rt c).1 as [eps|e]; [|done].
  rewrite !bind_fst.
  destruct (fqdnTemplate sc) as [tmpl|]; [|simpl; by case_decide].
  destruct (combineFQDNAnnotation sc || _); [|simpl; by case_decide].
  rewrite !bind_fst, <- ingressroute_endpointsFromTemplate_same_result by done.
  destruct (endpointsFromTemplate sc tmpl rt c).1; [|done].
  simpl; by case_decide.
Qed.

(** A route's turn fails only when its template does. *)
Lemma endpointsFromIngressRoute_total (rt : IngressRoute) (c : Cluster) :
  isOk (endpointsFromIngressRoute sc rt c).1 = true.
Proof.
  unfold endpointsFromIngressRoute.
  case_decide; [done|].
  destruct (getTTLFromAnnotations _) as [ttl err].
  rewrite !bind_fst, !warnIfError_result. cbv beta iota.
  case_decide; [|by destruct (getProviderSpecificAnnotations _)].
  by destruct (targetsFromContourLoadBalancer_total c) as (targets & t & ->).
Qed.

Lemma ingressroute_endpointsFromTemplate_total (tmpl : Template IngressRoute)
    (rt : IngressRoute) (c : Cluster) :
  isOk (tmpl rt) = true ->
  isOk (endpointsFromTemplate sc tmpl rt c).1 = true.
Proof.
  unfold endpointsFromTemplate.
  destruct (tmpl rt); [intros _|done].
  destruct (getTTLFromAnnotations _) as [ttl err].
  rewrite !bind_fst, !warnIfError_result. cbv beta iota.
  case_decide; [|by destruct (getProviderSpecificAnnotations _)].
  by destruct (targetsFromContourLoadBalancer_total c) as (targets & t & ->).
Qed.

Lemma ingressroute_Endpoints_body_total (rt : IngressRoute) (c : Cluster) :
  (forall tmpl, fqdnTemplate sc = Some tmpl -> isOk (tmpl rt) = true) ->
  isOk (Endpoints_body sc rt c).1 = true.
Proof.
  intros Htmpl. unfold Endpoints_body.
  destruct (negb _); [done|]. destruct (otherController _); [done|].
  case_decide; [done|].
  rewrite !bind_fst.
  pose proof (endpointsFromIngressRoute_total rt c) as Hnative.
  destruct (endpointsFromIngressRoute sc rt c).1 as [eps|e]; [|done].
  rewrite !bind_fst.
  destruct (fqdnTemplate sc) as [tmpl|]; [|simpl; by case_decide].
  destruct (combineFQDNAnnotation sc || _); [|simpl; by case_decide].
  rewrite !bind_fst.
  pose proof (ingressroute_endpointsFromTemplate_total tmpl rt c (Htmpl _ eq_refl)) as Ht.
  destruct (endpointsFromTemplate sc tmpl rt c).1 as [teps|e]; [|done].
  simpl. by case_decide.
Qed.

End ContourLoadBalancer.

(** C3, as the adapters have it. IngressRoute: when the load-balancer
    service of the source is not found, the lookup error is logged and the
    targets it would give are none; the pass returns what it returns when
    the service is there without any load-balancer entry, and it fails
    only if a template fails to render. Ambassador Host and Gloo Proxy: a
    service that is not found is the error of the turn and of the pass. *)
Theorem load_balancer_service_not_found :
  (forall (sc : IngressRouteSource.ingressRouteSource) (c : Cluster),
      Services c !! (IngressRouteSource.lbService_Namespace sc,
                     IngressRouteSource.lbService_Name sc) = None ->
      IngressRouteSource.targetsFromContourLoadBalancer sc c
      = (Ok [],
         [GetService (IngressRouteSource.lbService_Namespace sc)
            (IngressRouteSource.lbService_Name sc);
          Warn ("service " +:+ IngressRouteSource.lbService_Namespace sc
                +:+ "/" +:+ IngressRouteSource.lbService_Name sc
                +:+ " not found")])
      /\ forall routes : list IngressRouteSource.IngressRoute,
           (IngressRouteSource.Endpoints sc routes c).1
           = (IngressRouteSource.Endpoints sc routes
                (withEmptyLoadBalancer sc c)).1
           /\ ((forall tmpl rt,
                   IngressRouteSource.fqdnTemplate sc = Some tmpl ->
                   rt ∈ routes -> isOk (tmpl rt) = true) ->
               isOk (IngressRouteSource.Endpoints sc routes c).1 = true))
  /\ (forall (sc : AmbassadorHostSource.ambassadorHostSource)
             (host : AmbassadorHostSource.Host) (c : Cluster)
             (service lbNamespace lbName : string),
         AmbassadorHostSource.Annotations host
           !! AmbassadorHostSource.ambHostAnnotation = Some service ->
         parseAmbLoadBalancerService service = Ok (lbNamespace, lbName) ->
         Services c !! (lbNamespace, lbName) = None ->
         AmbassadorHostSource.Endpoints_body sc host c
         = (Err ("service " +:+ lbNamespace +:+ "/" +:+ lbName +:+ " not found"),
            [GetService lbNamespace lbName])
         /\ forall hosts : list AmbassadorHostSource.Host,
              host ∈ hosts ->
              isOk (AmbassadorHostSource.Endpoints sc hosts c).1 = false)
  /\ (forall (gs : GlooSource.glooSource) (p : GlooSource.Proxy) (c : Cluster),
         Services c !! (GlooSource.namespace gs, GlooSource.Name p) = None ->
         GlooSource.Endpoints_body gs p c
         = (Err ("service " +:+ GlooSource.namespace gs +:+ "/"
                 +:+ GlooSource.Name p +:+ " not found"),
            [GetService (GlooSource.namespace gs) (GlooSource.Name p)])
         /\ forall proxies : list GlooSource.Proxy,
              p ∈ proxies ->
              isOk (GlooSource.Endpoints gs proxies c).1 = false).
Proof.
  split; [|split].
  - intros sc c Hnone.
    split; [by apply targetsFromContourLoadBalancer_not_found|].
    intros routes. split.
    + unfold IngressRouteSource.Endpoints. rewrite !bind_fst.
      rewrite (forRange_same_result _ (IngressRouteSource.Endpoints_body sc)
                 c (withEmptyLoadBalancer sc c)); [done|].
      intros rt _. by apply ingressroute_Endpoints_body_same_result.
    + intros Htmpl. unfold IngressRouteSource.Endpoints. rewrite bind_fst.
      assert (isOk (forRange (IngressRouteSource.Endpoints_body sc) routes [] c).1
              = true) as Hloop.
      { apply forRange_total. intros rt Hrt.
        apply ingressroute_Endpoints_body_total. intros tmpl Htm. by apply Htmpl. }
      by destruct (forRange _ routes [] c).1.
  - intros sc host c service lbNamespace lbName Hann Hparse Hnone.
    assert (AmbassadorHostSource.Endpoints_body sc host c
            = (Err ("service " +:+ lbNamespace +:+ "/" +:+ lbName +:+ " not found"),
               [GetService lbNamespace lbName])) as Hbody.
    { unfold AmbassadorHostSource.Endpoints_body,
        AmbassadorHostSource.targetsFromAmbassadorLoadBalancer.
      rewrite Hann, Hparse. unfold bind, try, ret, fail, getService; simpl.
      by rewrite Hnone. }
    split; [done|]. intros hosts Hhost.
    unfold AmbassadorHostSource.Endpoints. rewrite bind_fst.
    assert (isOk (forRange (AmbassadorHostSource.Endpoints_body sc) hosts [] c).1
            = false) as Hloop.
    { eapply forRange_fails; [done|]. by rewrite Hbody. }
    by destruct (forRange _ hosts [] c).1.
  - intros gs p c Hnone.
    assert (GlooSource.Endpoints_body gs p c
            = (Err ("service " +:+ GlooSource.namespace gs +:+ "/"
                    +:+ GlooSource.Name p +:+ " not found"),
               [GetService (GlooSource.namespace gs) (GlooSource.Name p)]))
      as Hbody.
    { unfold GlooSource.Endpoints_body, GlooSource.proxyTargets.
      unfold bind, try, ret, fail, getService; simpl. by rewrite Hnone. }
    split; [done|]. intros proxies Hp.
    unfold GlooSource.Endpoints.
    eapply forRange_fails; [done|]. by rewrite Hbody.
Qed.

(** In the Ambassador adapter a Host whose service is not found stops the
    pass: the Host after it, which alone gets its endpoint, gets none. *)
Lemma ambassador_missing_service_fails_pass :
  AmbassadorHostSource.Annotations Fixtures.hostWithMissingService
    !! AmbassadorHostSource.ambHostAnnotation = Some "ns1/missing"
  /\ parseAmbLoadBalancerService "ns1/missing" = Ok ("ns1", "missing")
  /\ Services Fixtures.ambassadorCluster !! ("ns1", "missing") = None
  /\ (AmbassadorHostSource.Endpoints Fixtures.ambassadorSrc
        [Fixtures.hostWithMissingService; Fixtures.hostWithService]
        Fixtures.ambassadorCluster).1
     = Err "service ns1/missing not found"
  /\ exists ep : Endpoint,
       (AmbassadorHostSource.Endpoints Fixtures.ambassadorSrc
          [Fixtures.hostWithService] Fixtures.ambassadorCluster).1 = Ok [ep].
Proof.
  repeat split; try (vm_compute; reflexivity).
  eexists. vm_compute. reflexivity.
Qed.

(** ** The adapters against the specification's pipeline *)

Lemma override_or_else {A} (override fallback : list A) :
  (if decide (length override = 0%nat) then fallback else override)
  = if decide (override = []) then fallback else override.
Proof. by destruct override. Qed.

Lemma flat_map_TrimSuffix {B} (f : string -> list B) (hostnames : list string) :
  flat_map (fun hostname => f (strings.TrimSuffix hostname ".")) hostnames
  = flat_map f (map (fun hostname => strings.TrimSuffix hostname ".") hostnames).
Proof. induction hostnames as [|h hs IH]; simpl; [done|]. by rewrite IH. Qed.

Section HTTPProxyRefinement.

Import HTTPProxySource HTTPProxySpec.

Variables (sc : httpProxySource) (hp : HTTPProxy) (c : Cluster).

Lemma endpointsFromHTTPProxy_result :
  Status_CurrentStatus hp = "valid" ->
  (endpointsFromHTTPProxy sc hp c).1 = Ok (native hp ++ fromAnnotation sc hp).
Proof.
  intros Hvalid. unfold endpointsFromHTTPProxy.
  case_decide; [done|].
  unfold native, fromAnnotation, synthesize, targets.
  rewrite override_or_else.
  destruct (getTTLFromAnnotations _) as [ttl err].
  destruct (getProviderSpecificAnnotations _) as [providerSpecific setIdentifier].
  rewrite bind_fst, warnIfError_result. simpl. f_equal.
  destruct (ignoreHostnameAnnotation sc); rewrite ?app_nil_r;
    destruct (Spec_VirtualHost hp) as [virtualHost|]; try done;
    destruct (decide (Fqdn virtualHost = "")), (decide (Fqdn virtualHost <> ""));
    done.
Qed.

Lemma httpproxy_endpointsFromTemplate_result (tmpl : Template HTTPProxy) :
  isOk (tmpl hp) = true ->
  (endpointsFromTemplate tmpl hp c).1 = Ok (fromTemplate tmpl hp).
Proof.
  unfold endpointsFromTemplate, fromTemplate, templateHostnames.
  destruct (tmpl hp) as [rendered|e]; [intros _|done].
  unfold synthesize, targets.
  rewrite override_or_else.
  destruct (getTTLFromAnnotations _) as [ttl err].
  destruct (getProviderSpecificAnnotations _) as [providerSpecific setIdentifier].
  rewrite bind_fst, warnIfError_result. simpl. f_equal.
  apply (flat_map_TrimSuffix
           (fun h => endpointsForHostname h _ ttl providerSpecific setIdentifier)).
Qed.

(** One turn of the loop is the pipeline of the specification: the
    endpoints of the native hostname, then those of the hostname
    annotation, then those of the template when it is used, all
    labelled. *)
Lemma httpproxy_Endpoints_body_result :
  kept sc hp = true ->
  (forall tmpl, fqdnTemplate sc = Some tmpl -> isOk (tmpl hp) = true) ->
  (Endpoints_body sc hp c).1
  = Ok (setResourceLabel hp
          (native hp ++ fromAnnotation sc hp ++ usedTemplate sc hp)).
Proof.
  unfold kept. intros [[Hsel Hctl]%andb_prop Hvalid%bool_decide_eq_true]%andb_prop Htmpl.
  unfold Endpoints_body.
  rewrite Hsel. apply negb_true_iff in Hctl. rewrite Hctl. simpl.
  case_decide; [done|].
  rewrite bind_fst.
  rewrite (wrap_Ok_result _ _ _ _ (endpointsFromHTTPProxy_result Hvalid)).
  rewrite bind_fst, app_assoc. unfold usedTemplate.
  generalize (native hp ++ fromAnnotation sc hp) as eps. intros eps.
  destruct (fqdnTemplate sc) as [tmpl|] eqn:Hfqdn.
  - pose proof (wrap_Ok_result _ "failed to get endpoints from template" _ _
                  (httpproxy_endpointsFromTemplate_result tmpl (Htmpl _ eq_refl)))
      as Htemplate.
    destruct (combineFQDNAnnotation sc) eqn:Hcombine; simpl.
    + rewrite bind_fst, Htemplate. simpl.
      case_decide as Hlen; [|done].
      by apply length_zero_iff_nil in Hlen as ->.
    + destruct eps as [|e eps]; simpl.
      * rewrite bind_fst, Htemplate. simpl.
        case_decide as Hlen; [|done].
        by apply length_zero_iff_nil in Hlen as ->.
      * by rewrite app_nil_r.
  - simpl. rewrite app_nil_r.
    case_decide as Hlen; [|done].
    by apply length_zero_iff_nil in Hlen as ->.
Qed.

End HTTPProxyRefinement.

Section IngressRouteRefinement.

Import IngressRouteSource IngressRouteSpec.

Variables (sc : ingressRouteSource) (rt : IngressRoute) (c : Cluster).

Lemma ingressroute_resolve_result (override : list string) :
  ((if decide (length override = 0%nat)
    then targetsFromContourLoadBalancer sc else ret override) c).1
  = Ok (if decide (override = []) then loadBalancerTargets sc c else override).
Proof.
  destruct override; [|done]. simpl.
  unfold targetsFromContourLoadBalancer, loadBalancerTargets, bind, getService.
  simpl. by destruct (Services c !! _).
Qed.

Lemma endpointsFromIngressRoute_result :
  CurrentStatus rt = "valid" ->
  (endpointsFromIngressRoute sc rt c).1
  = Ok (native sc c rt ++ fromAnnotation sc c rt).
Proof.
  intros Hvalid. unfold endpointsFromIngressRoute.
  case_decide; [done|].
  unfold native, fromAnnotation, synthesize, targets.
  destruct (getTTLFromAnnotations _) as [ttl err].
  destruct (getProviderSpecificAnnotations _) as [providerSpecific setIdentifier].
  rewrite !bind_fst, warnIfError_result, ingressroute_resolve_result.
  simpl. f_equal.
  destruct (ignoreHostnameAnnotation sc); rewrite ?app_nil_r;
    destruct (Spec_VirtualHost rt) as [virtualHost|]; try done;
    destruct (decide (Fqdn virtualHost = "")), (decide (Fqdn virtualHost <> ""));
    done.
Qed.

Lemma ingressroute_endpointsFromTemplate_result (tmpl : Template IngressRoute) :
  isOk (tmpl rt) = true ->
  (endpointsFromTemplate sc tmpl rt c).1 = Ok (fromTemplate sc c tmpl rt).
Proof.
  unfold endpointsFromTemplate, fromTemplate, templateHostnames.
  destruct (tmpl rt) as [rendered|e]; [intros _|done].
  unfold synthesize, targets.
  destruct (getTTLFromAnnotations _) as [ttl err].
  destruct (getProviderSpecificAnnotations _) as [providerSpecific setIdentifier].
  rewrite !bind_fst, warnIfError_result, ingressroute_resolve_result.
  simpl. f_equal.
  apply (flat_map_TrimSuffix
           (fun h => endpointsForHostname h _ ttl providerSpecific setIdentifier)).
Qed.

(** One turn of the loop is the pipeline of the specification. *)
Lemma ingressroute_Endpoints_body_result :
  kept sc rt = true ->
  (forall tmpl, fqdnTemplate sc = Some tmpl -> isOk (tmpl rt) = true) ->
  (Endpoints_body sc rt c).1
  = Ok (setResourceLabel rt
          (native sc c rt ++ fromAnnotation sc c rt ++ usedTemplate sc c rt)).
Proof.
  unfold kept. intros [[Hsel Hctl]%andb_prop Hvalid%bool_decide_eq_true]%andb_prop Htmpl.
  unfold Endpoints_body.
  rewrite Hsel. apply negb_true_iff in Hctl. rewrite Hctl. simpl.
  case_decide; [done|].
  rewrite bind_fst, (endpointsFromIngressRoute_result Hvalid).
  rewrite bind_fst, app_assoc. unfold usedTemplate.
  generalize (native sc c rt ++ fromAnnotation sc c rt) as eps. intros eps.
  destruct (fqdnTemplate sc) as [tmpl|] eqn:Hfqdn.
  - pose proof (ingressroute_endpointsFromTemplate_result tmpl (Htmpl _ eq_refl))
      as Htemplate.
    destruct (combineFQDNAnnotation sc) eqn:Hcombine; simpl.
    + rewrite bind_fst, Htemplate. simpl.
      case_decide as Hlen; [|done].
      by apply length_zero_iff_nil in Hlen as ->.
    + destruct eps as [|e eps]; simpl.
      * rewrite bind_fst, Htemplate. simpl.
        case_decide as Hlen; [|done].
        by apply length_zero_iff_nil in Hlen as ->.
      * by rewrite app_nil_r.
  - simpl. rewrite app_nil_r.
    case_decide as Hlen; [|done].
    by apply length_zero_iff_nil in Hlen as ->.
Qed.

End IngressRouteRefinement.

(** ** Endpoints of a hostname *)

Lemma endpointsForHostname_elem (e : Endpoint) (hostname : string)
    (targets : list string) (ttl : Z) (providerSpecific : list (string * string))
    (setIdentifier : string) :
  e ∈ endpointsForHostname hostname targets ttl providerSpecific setIdentifier ->
  DNSName e = strings.TrimSuffix hostname "."
  /\ Targets e = filter (fun t => suitableType t = RecordType e) targets
  /\ Targets e <> []
  /\ RecordTTL e = ttl
  /\ Labels e = ∅.
Proof.
  unfold endpointsForHostname. simpl. rewrite app_nil_r.
  intros [He|[He|He]%elem_of_app]%elem_of_app;
    match type of He with
    | _ ∈ match ?l with _ => _ end =>
        destruct l as [|t ts] eqn:Hfilter;
        [by apply elem_of_nil in He|]
    end;
    apply list_elem_of_singleton in He as ->; simpl; by rewrite Hfilter.
Qed.

Lemma synthesize_elem (e : Endpoint) (annotations : gmap string string)
    (targets : list string) (hostname : string) :
  e ∈ synthesize annotations targets hostname ->
  DNSName e = strings.TrimSuffix hostname "."
  /\ Targets e = filter (fun t => suitableType t = RecordType e) targets
  /\ RecordTTL e = (getTTLFromAnnotations annotations).1.
Proof.
  intros He. apply endpointsForHostname_elem in He.
  destruct He as (Hname & Htargets & _ & Httl & _). auto.
Qed.

Lemma flat_map_synthesize_elem (e : Endpoint) (annotations : gmap string string)
    (targets hostnames : list string) :
  e ∈ flat_map (synthesize annotations targets) hostnames ->
  exists hostname,
    hostname ∈ hostnames
    /\ DNSName e = strings.TrimSuffix hostname "."
    /\ Targets e = filter (fun t => suitableType t = RecordType e) targets
    /\ RecordTTL e = (getTTLFromAnnotations annotations).1.
Proof.
  intros (hostname & Hin & He)%list_elem_of_In%in_flat_map.
  exists hostname. split; [by apply list_elem_of_In|].
  by apply synthesize_elem, list_elem_of_In.
Qed.

Lemma getTTLFromAnnotations_missing_or_invalid (annotations : gmap string string) :
  ttlMissingOrInvalid annotations ->
  (getTTLFromAnnotations annotations).1 = 0.
Proof.
  unfold ttlMissingOrInvalid, getTTLFromAnnotations.
  destruct (annotations !! ttlAnnotationKey) as [v|]; [|done].
  destruct (parseTTL v) as [ttl|]; [|done].
  destruct (_ && _); [|done]. by intros [?|[err ?]].
Qed.

(** ** The order of the hostnames *)

Section NotKept.

Lemma httpproxy_not_kept sc hp c :
  HTTPProxySpec.kept sc hp = false ->
  HTTPProxySource.Endpoints_body sc hp c = (Ok [], []).
Proof.
  unfold HTTPProxySpec.kept, HTTPProxySource.Endpoints_body.
  destruct (HTTPProxySource.annotationSelector sc _); [|done].
  destruct (otherController _); [done|]. simpl.
  intros Hvalid%bool_decide_eq_false. by case_decide.
Qed.

Lemma ingressroute_not_kept sc rt c :
  IngressRouteSpec.kept sc rt = false ->
  IngressRouteSource.Endpoints_body sc rt c = (Ok [], []).
Proof.
  unfold IngressRouteSpec.kept, IngressRouteSource.Endpoints_body.
  destruct (IngressRouteSource.annotationSelector sc _); [|done].
  destruct (otherController _); [done|]. simpl.
  intros Hvalid%bool_decide_eq_false. by case_decide.
Qed.

Lemma kong_Endpoints_body_result sc ti c :
  KongTCPIngressSource.annotationSelector sc
    (KongTCPIngressSource.Annotations ti) = true ->
  (getTTLFromAnnotations (KongTCPIngressSource.Annotations ti)).2 = None ->
  (KongTCPIngressSource.Endpoints_body sc ti c).1
  = Ok (KongTCPIngressSource.setDualstackLabel ti
          (KongTCPIngressSource.setResourceLabel ti
             (KongTCPIngressSpec.fromAnnotation ti
              ++ KongTCPIngressSpec.native ti))).
Proof.
  intros Hsel Httl.
  unfold KongTCPIngressSource.Endpoints_body,
    KongTCPIngressSource.endpointsFromTCPIngress.
  unfold KongTCPIngressSpec.fromAnnotation, KongTCPIngressSpec.native,
    KongTCPIngressSpec.targets, synthesize.
  destruct (getTTLFromAnnotations _) as [ttl err]. simpl in Httl. subst err.
  destruct (getProviderSpecificAnnotations _) as [providerSpecific setIdentifier].
  rewrite Hsel. simpl. rewrite bind_fst. simpl.
  match goal with
  | |- context [flat_map ?f (KongTCPIngressSource.Spec_Rules ti)] =>
      replace (flat_map f (KongTCPIngressSource.Spec_Rules ti))
        with (flat_map (fun rule =>
                          if decide (KongTCPIngressSource.Host rule = "") then []
                          else endpointsForHostname (KongTCPIngressSource.Host rule)
                                 (targetsFromIngress
                                    (KongTCPIngressSource.Status_LoadBalancer_Ingress ti))
                                 ttl providerSpecific setIdentifier)
                       (KongTCPIngressSource.Spec_Rules ti))
  end.
  - case_decide as Hlen; [|done].
    apply length_zero_iff_nil in Hlen as ->.
    unfold KongTCPIngressSource.setDualstackLabel.
    destruct (_ !! ALBDualstackAnnotationKey); [by case_decide|done].
  - induction (KongTCPIngressSource.Spec_Rules ti) as [|rule rules IH];
      simpl; [done|].
    rewrite IH. by destruct (decide _), (decide _).
Qed.

End NotKept.

(** C8, as the adapters have it. For an HTTPProxy or an IngressRoute that
    passes the filters, the endpoints of its turn are those of the native
    hostname, then those of the hostname annotation, then those of the
    template, when it is the fallback or is combined. For a Kong
    TCPIngress they are those of the hostname annotation, then those of
    the hosts of its rules. *)
Theorem hostname_order_of_endpoints :
  (forall sc hp c,
      HTTPProxySpec.kept sc hp = true ->
      (forall tmpl, HTTPProxySource.fqdnTemplate sc = Some tmpl ->
                    isOk (tmpl hp) = true) ->
      (HTTPProxySource.Endpoints_body sc hp c).1
      = Ok (HTTPProxySource.setResourceLabel hp
              (HTTPProxySpec.native hp
               ++ HTTPProxySpec.fromAnnotation sc hp
               ++ HTTPProxySpec.usedTemplate sc hp))
      /\ (forall e, e ∈ HTTPProxySpec.native hp ->
            exists virtualHost,
              HTTPProxySource.Spec_VirtualHost hp = Some virtualHost
              /\ DNSName e
                 = strings.TrimSuffix (HTTPProxySource.Fqdn virtualHost) ".")
      /\ (forall e, e ∈ HTTPProxySpec.fromAnnotation sc hp ->
            exists hostname,
              hostname ∈ getHostnamesFromAnnotations
                           (HTTPProxySource.Annotations hp)
              /\ DNSName e = strings.TrimSuffix hostname ".")
      /\ (forall e, e ∈ HTTPProxySpec.usedTemplate sc hp ->
            exists tmpl rendered hostname,
              HTTPProxySource.fqdnTemplate sc = Some tmpl
              /\ tmpl hp = Ok rendered
              /\ hostname ∈ templateHostnames rendered
              /\ DNSName e = strings.TrimSuffix hostname "."))
  /\ (forall sc rt c,
         IngressRouteSpec.kept sc rt = true ->
         (forall tmpl, IngressRouteSource.fqdnTemplate sc = Some tmpl ->
                       isOk (tmpl rt) = true) ->
         (IngressRouteSource.Endpoints_body sc rt c).1
         = Ok (IngressRouteSource.setResourceLabel rt
                 (IngressRouteSpec.native sc c rt
                  ++ IngressRouteSpec.fromAnnotation sc c rt
                  ++ IngressRouteSpec.usedTemplate sc c rt))
         /\ (forall e, e ∈ IngressRouteSpec.native sc c rt ->
               exists virtualHost,
                 IngressRouteSource.Spec_VirtualHost rt = Some virtualHost
                 /\ DNSName e
                    = strings.TrimSuffix (IngressRouteSource.Fqdn virtualHost) ".")
         /\ (forall e, e ∈ IngressRouteSpec.fromAnnotation sc c rt ->
               exists hostname,
                 hostname ∈ getHostnamesFromAnnotations
                              (IngressRouteSource.Annotations rt)
                 /\ DNSName e = strings.TrimSuffix hostname ".")
         /\ (forall e, e ∈ IngressRouteSpec.usedTemplate sc c rt ->
               exists tmpl rendered hostname,
                 IngressRouteSource.fqdnTemplate sc = Some tmpl
                 /\ tmpl rt = Ok rendered
                 /\ hostname ∈ templateHostnames rendered
                 /\ DNSName e = strings.TrimSuffix hostname "."))
  /\ (forall sc ti c,
         KongTCPIngressSource.annotationSelector sc
           (KongTCPIngressSource.Annotations ti) = true ->
         (getTTLFromAnnotations (KongTCPIngressSource.Annotations ti)).2 = None ->
         (KongTCPIngressSource.Endpoints_body sc ti c).1
         = Ok (KongTCPIngressSource.setDualstackLabel ti
                 (KongTCPIngressSource.setResourceLabel ti
                    (KongTCPIngressSpec.fromAnnotation ti
                     ++ KongTCPIngressSpec.native ti)))
         /\ (forall e, e ∈ KongTCPIngressSpec.fromAnnotation ti ->
               exists hostname,
                 hostname ∈ getHostnamesFromAnnotations
                              (KongTCPIngressSource.Annotations ti)
                 /\ DNSName e = strings.TrimSuffix hostname ".")
         /\ (forall e, e ∈ KongTCPIngressSpec.native ti ->
               exists rule,
                 rule ∈ KongTCPIngressSource.Spec_Rules ti
                 /\ DNSName e
                    = strings.TrimSuffix (KongTCPIngressSource.Host rule) ".")).
Proof.
  split; [|split].
  - intros sc hp c Hkept Htmpl.
    split; [by apply httpproxy_Endpoints_body_result|].
    split; [|split].
    + unfold HTTPProxySpec.native. intros e He.
      destruct (HTTPProxySource.Spec_VirtualHost hp) as [virtualHost|];
        [|by apply elem_of_nil in He].
      case_decide; [by apply elem_of_nil in He|].
      exists virtualHost. split; [done|]. by apply synthesize_elem in He as [? _].
    + unfold HTTPProxySpec.fromAnnotation. intros e He.
      destruct (HTTPProxySource.ignoreHostnameAnnotation sc);
        [by apply elem_of_nil in He|].
      apply flat_map_synthesize_elem in He as (hostname & ? & ? & _).
      by exists hostname.
    + unfold HTTPProxySpec.usedTemplate, HTTPProxySpec.fromTemplate. intros e He.
      destruct (HTTPProxySource.fqdnTemplate sc) as [tmpl|];
        [|by apply elem_of_nil in He].
      destruct (_ || _); [|by apply elem_of_nil in He].
      destruct (tmpl hp) as [rendered|err] eqn:Hrendered;
        [|by apply elem_of_nil in He].
      apply flat_map_synthesize_elem in He as (hostname & ? & ? & _).
      by exists tmpl, rendered, hostname.
  - intros sc rt c Hkept Htmpl.
    split; [by apply ingressroute_Endpoints_body_result|].
    split; [|split].
    + unfold IngressRouteSpec.native. intros e He.
      destruct (IngressRouteSource.Spec_VirtualHost rt) as [virtualHost|];
        [|by apply elem_of_nil in He].
      case_decide; [by apply elem_of_nil in He|].
      exists virtualHost. split; [done|]. by apply synthesize_elem in He as [? _].
    + unfold IngressRouteSpec.fromAnnotation. intros e He.
      destruct (IngressRouteSource.ignoreHostnameAnnotation sc);
        [by apply elem_of_nil in He|].
      apply flat_map_synthesize_elem in He as (hostname & ? & ? & _).
      by exists hostname.
    + unfold IngressRouteSpec.usedTemplate, IngressRouteSpec.fromTemplate.
      intros e He.
      destruct (IngressRouteSource.fqdnTemplate sc) as [tmpl|];
        [|by apply elem_of_nil in He].
      destruct (_ || _); [|by apply elem_of_nil in He].
      destruct (tmpl rt) as [rendered|err] eqn:Hrendered;
        [|by apply elem_of_nil in He].
      apply flat_map_synthesize_elem in He as (hostname & ? & ? & _).
      by exists tmpl, rendered, hostname.
  - intros sc ti c Hsel Httl.
    split; [by apply kong_Endpoints_body_result|].
    split.
    + unfold KongTCPIngressSpec.fromAnnotation. intros e He.
      apply flat_map_synthesize_elem in He as (hostname & ? & ? & _).
      by exists hostname.
    + unfold KongTCPIngressSpec.native.
      intros e (rule & Hrule & He)%list_elem_of_In%in_flat_map.
      exists rule. split; [by apply list_elem_of_In|].
      case_decide; [done|].
      by apply list_elem_of_In, synthesize_elem in He as [? _].
Qed.

(** The Kong adapter puts the hostname of the annotation before the hosts
    of the rules (test "TCPIngress with hostname annotation and using
    SNI"). *)
Lemma kong_annotation_hostname_first :
  getHostnamesFromAnnotations
    (KongTCPIngressSource.Annotations Fixtures.tcpIngressBoth)
  = ["d.example.com"]
  /\ map KongTCPIngressSource.Host
       (KongTCPIngressSource.Spec_Rules Fixtures.tcpIngressBoth)
     = ["e.example.com"; "f.example.com"]
  /\ exists eps : list Endpoint,
       (KongTCPIngressSource.Endpoints Fixtures.kongSrc
          [Fixtures.tcpIngressBoth] Fixtures.emptyCluster).1 = Ok eps
       /\ map DNSName eps
          = ["d.example.com"; "e.example.com"; "f.example.com"].
Proof.
  split; [vm_compute; reflexivity|]. split; [reflexivity|].
  eexists. split; [vm_compute; reflexivity|reflexivity].
Qed.

(** ** Targets and TTL of the endpoints of a turn *)

Section TurnEndpoints.

Lemma httpproxy_pipeline_elem sc hp e :
  e ∈ HTTPProxySpec.native hp ++ HTTPProxySpec.fromAnnotation sc hp
      ++ HTTPProxySpec.usedTemplate sc hp ->
  Targets e = filter (fun t => suitableType t = RecordType e)
                (HTTPProxySpec.targets hp)
  /\ RecordTTL e = (getTTLFromAnnotations (HTTPProxySource.Annotations hp)).1.
Proof.
  intros [He|[He|He]%elem_of_app]%elem_of_app.
  - unfold HTTPProxySpec.native in He.
    destruct (HTTPProxySource.Spec_VirtualHost hp) as [virtualHost|];
      [|by apply elem_of_nil in He].
    case_decide; [by apply elem_of_nil in He|].
    by apply synthesize_elem in He as (_ & ? & ?).
  - unfold HTTPProxySpec.fromAnnotation in He.
    destruct (HTTPProxySource.ignoreHostnameAnnotation sc);
      [by apply elem_of_nil in He|].
    by apply flat_map_synthesize_elem in He as (? & _ & _ & ? & ?).
  - unfold HTTPProxySpec.usedTemplate, HTTPProxySpec.fromTemplate in He.
    destruct (HTTPProxySource.fqdnTemplate sc) as [tmpl|];
      [|by apply elem_of_nil in He].
    destruct (_ || _); [|by apply elem_of_nil in He].
    destruct (tmpl hp); [|by apply elem_of_nil in He].
    by apply flat_map_synthesize_elem in He as (? & _ & _ & ? & ?).
Qed.

Lemma ingressroute_pipeline_elem sc c rt e :
  e ∈ IngressRouteSpec.native sc c rt ++ IngressRouteSpec.fromAnnotation sc c rt
      ++ IngressRouteSpec.usedTemplate sc c rt ->
  Targets e = filter (fun t => suitableType t = RecordType e)
                (IngressRouteSpec.targets sc c rt)
  /\ RecordTTL e = (getTTLFromAnnotations (IngressRouteSource.Annotations rt)).1.
Proof.
  intros [He|[He|He]%elem_of_app]%elem_of_app.
  - unfold IngressRouteSpec.native in He.
    destruct (IngressRouteSource.Spec_VirtualHost rt) as [virtualHost|];
      [|by apply elem_of_nil in He].
    case_decide; [by apply elem_of_nil in He|].
    by apply synthesize_elem in He as (_ & ? & ?).
  - unfold IngressRouteSpec.fromAnnotation in He.
    destruct (IngressRouteSource.ignoreHostnameAnnotation sc);
      [by apply elem_of_nil in He|].
    by apply flat_map_synthesize_elem in He as (? & _ & _ & ? & ?).
  - unfold IngressRouteSpec.usedTemplate, IngressRouteSpec.fromTemplate in He.
    destruct (IngressRouteSource.fqdnTemplate sc) as [tmpl|];
      [|by apply elem_of_nil in He].
    destruct (_ || _); [|by apply elem_of_nil in He].
    destruct (tmpl rt); [|by apply elem_of_nil in He].
    by apply flat_map_synthesize_elem in He as (? & _ & _ & ? & ?).
Qed.

(** The turn of an HTTPProxy succeeds when its template renders, and its
    endpoints have the resolved targets of their record type and the TTL
    of the annotations. *)
Lemma httpproxy_turn sc hp c :
  (forall tmpl, HTTPProxySource.fqdnTemplate sc = Some tmpl ->
                isOk (tmpl hp) = true) ->
  exists eps,
    (HTTPProxySource.Endpoints_body sc hp c).1 = Ok eps
    /\ forall e, e ∈ eps ->
         Targets e = filter (fun t => suitableType t = RecordType e)
                       (HTTPProxySpec.targets hp)
         /\ RecordTTL e
            = (getTTLFromAnnotations (HTTPProxySource.Annotations hp)).1.
Proof.
  intros Htmpl. destruct (HTTPProxySpec.kept sc hp) eqn:Hkept.
  - eexists. split; [by apply httpproxy_Endpoints_body_result|].
    intros e (e' & -> & He)%list_elem_of_fmap.
    by apply httpproxy_pipeline_elem in He.
  - exists []. rewrite httpproxy_not_kept by done.
    split; [done|]. by intros e ?%elem_of_nil.
Qed.

Lemma ingressroute_turn sc rt c :
  (forall tmpl, IngressRouteSource.fqdnTemplate sc = Some tmpl ->
                isOk (tmpl rt) = true) ->
  exists eps,
    (IngressRouteSource.Endpoints_body sc rt c).1 = Ok eps
    /\ forall e, e ∈ eps ->
         Targets e = filter (fun t => suitableType t = RecordType e)
                       (IngressRouteSpec.targets sc c rt)
         /\ RecordTTL e
            = (getTTLFromAnnotations (IngressRouteSource.Annotations rt)).1.
Proof.
  intros Htmpl. destruct (IngressRouteSpec.kept sc rt) eqn:Hkept.
  - eexists. split; [by apply ingressroute_Endpoints_body_result|].
    intros e (e' & -> & He)%list_elem_of_fmap.
    by apply ingressroute_pipeline_elem in He.
  - exists []. rewrite ingressroute_not_kept by done.
    split; [done|]. by intros e ?%elem_of_nil.
Qed.

(** A pass of the HTTPProxy adapter fails only when a template does. *)
Lemma httpproxy_pass_total sc hps c :
  (forall tmpl hp, HTTPProxySource.fqdnTemplate sc = Some tmpl ->
                   hp ∈ hps -> isOk (tmpl hp) = true) ->
  isOk (HTTPProxySource.Endpoints sc hps c).1 = true.
Proof.
  intros Htmpl. unfold HTTPProxySource.Endpoints. rewrite bind_fst.
  assert (isOk (forRange (HTTPProxySource.Endpoints_body sc) hps [] c).1 = true)
    as Hloop.
  { apply forRange_total. intros hp Hhp.
    destruct (httpproxy_turn sc hp c) as (eps & -> & _); [|done].
    intros tmpl Htm. by apply Htmpl. }
  by destruct (forRange _ hps [] c).1.
Qed.

Lemma ingressroute_pass_total sc rts c :
  (forall tmpl rt, IngressRouteSource.fqdnTemplate sc = Some tmpl ->
                   rt ∈ rts -> isOk (tmpl rt) = true) ->
  isOk (IngressRouteSource.Endpoints sc rts c).1 = true.
Proof.
  intros Htmpl. unfold IngressRouteSource.Endpoints. rewrite bind_fst.
  assert (isOk (forRange (IngressRouteSource.Endpoints_body sc) rts [] c).1 = true)
    as Hloop.
  { apply forRange_total. intros rt Hrt.
    destruct (ingressroute_turn sc rt c) as (eps & -> & _); [|done].
    intros tmpl Htm. by apply Htmpl. }
  by destruct (forRange _ rts [] c).1.
Qed.

End TurnEndpoints.

(** ** The TTL annotation *)

(** In the Kong adapter a TTL annotation that is no TTL is the error of
    the pass. *)
Lemma kong_invalid_ttl_fails_pass :
  KongTCPIngressSource.Annotations Fixtures.tcpIngressBadTTL !! ttlAnnotationKey
  = Some "abc"
  /\ parseTTL "abc" = None
  /\ (KongTCPIngressSource.Endpoints Fixtures.kongSrc
        [Fixtures.tcpIngressBadTTL] Fixtures.emptyCluster).1
     = Err "abc is not a valid TTL value".
Proof.
  repeat split; vm_compute; reflexivity.
Qed.

(** ** The target annotation *)

Section Quiet.

Lemma quiet_ret {A} (a : A) : quiet (ret a).
Proof. intros c. constructor. Qed.

Lemma quiet_fail {A} (e : error) : quiet (@fail A e).
Proof. intros c. constructor. Qed.

Lemma quiet_warnIfError (err : option error) : quiet (warnIfError err).
Proof. intros c. destruct err; repeat constructor. Qed.

Lemma quiet_bind {A B} (m : M A) (k : A -> M B) :
  quiet m -> (forall a, quiet (k a)) -> quiet (x <- m ;; k x).
Proof.
  intros Hm Hk c. unfold bind. specialize (Hm c).
  destruct (m c) as [[a|e] t1]; [|done].
  specialize (Hk a c). destruct (k a c) as [r t2]. simpl in *.
  by apply Forall_app.
Qed.

Lemma quiet_logWarn (msg : string) : quiet (logWarn msg).
Proof. intros c. repeat constructor. Qed.

Lemma quiet_wrap {A} (m : M A) (msg : string) : quiet m -> quiet (wrap m msg).
Proof.
  intros Hm c. unfold wrap. specialize (Hm c).
  by destruct (m c) as [[a|e] t].
Qed.

Import IngressRouteSource.

Variables (sc : ingressRouteSource) (rt : IngressRoute).

Hypothesis Hoverride :
  getTargetsFromTargetAnnotation (Annotations rt) <> [].

Lemma ingressroute_resolve_quiet :
  quiet (if decide (length (getTargetsFromTargetAnnotation (Annotations rt)) = 0%nat)
         then targetsFromContourLoadBalancer sc
         else ret (getTargetsFromTargetAnnotation (Annotations rt))).
Proof.
  case_decide as Hlen; [|apply quiet_ret].
  by apply length_zero_iff_nil in Hlen.
Qed.

Lemma endpointsFromIngressRoute_quiet : quiet (endpointsFromIngressRoute sc rt).
Proof.
  unfold endpointsFromIngressRoute.
  case_decide.
  - apply quiet_bind; [apply quiet_logWarn|]. intros; apply quiet_ret.
  - destruct (getTTLFromAnnotations _) as [ttl err].
    apply quiet_bind; [apply quiet_warnIfError|]. intros _.
    apply quiet_bind; [apply ingressroute_resolve_quiet|]. intros targets.
    destruct (getProviderSpecificAnnotations _). apply quiet_ret.
Qed.

Lemma ingressroute_endpointsFromTemplate_quiet (tmpl : Template IngressRoute) :
  quiet (endpointsFromTemplate sc tmpl rt).
Proof.
  unfold endpointsFromTemplate.
  destruct (tmpl rt); [|apply quiet_fail].
  destruct (getTTLFromAnnotations _) as [ttl err].
  apply quiet_bind; [apply quiet_warnIfError|]. intros _.
  apply quiet_bind; [apply ingressroute_resolve_quiet|]. intros targets.
  destruct (getProviderSpecificAnnotations _). apply quiet_ret.
Qed.

Lemma ingressroute_Endpoints_body_quiet : quiet (Endpoints_body sc rt).
Proof.
  unfold Endpoints_body.
  destruct (negb _); [apply quiet_ret|].
  destruct (otherController _); [apply quiet_ret|].
  case_decide; [apply quiet_ret|].
  apply quiet_bind; [apply endpointsFromIngressRoute_quiet|]. intros eps.
  apply quiet_bind.
  - destruct (fqdnTemplate sc) as [tmpl|]; [|apply quiet_ret].
    destruct (_ || _); [|apply quiet_ret].
    apply quiet_bind; [apply ingressroute_endpointsFromTemplate_quiet|].
    intros; apply quiet_ret.
  - intros eps'. case_decide; apply quiet_ret.
Qed.

End Quiet.

Lemma getTargetsFromTargetAnnotation_override (annotations : gmap string string) :
  getTargetsFromTargetAnnotation annotations <> [] ->
  exists v,
    annotations !! targetAnnotationKey = Some v
    /\ getTargetsFromTargetAnnotation annotations = strings.Split v ",".
Proof.
  unfold getTargetsFromTargetAnnotation.
  destruct (annotations !! targetAnnotationKey) as [v|]; [|done].
  case_decide; [done|]. intros _. by exists v.
Qed.

(** ** The template and the other hostnames *)

Lemma setResourceLabel_or_nothing (label : list Endpoint -> list Endpoint)
    (eps : list Endpoint) (c : Cluster) :
  label [] = [] ->
  ((if decide (length eps = 0%nat) then ret [] else ret (label eps)) c).1
  = Ok (label eps).
Proof.
  intros Hnil. case_decide as Hlen; [|done].
  apply length_zero_iff_nil in Hlen as ->. by rewrite Hnil.
Qed.

(** C2: for an HTTPProxy or an IngressRoute that passes the filters, of a
    source with a template. When the native hostname and the hostname
    annotation give endpoints and the combine flag is off, the turn
    returns these and the template adds none. When they give none, the
    turn returns the endpoints of the template. When the combine flag is
    on, it returns theirs and then those of the template. With the native
    hostname "foo.bar", targets, the flag off and a template, the one
    hostname is "foo.bar". *)
Theorem template_combination :
  (forall sc hp c tmpl eps,
      HTTPProxySpec.kept sc hp = true ->
      HTTPProxySource.fqdnTemplate sc = Some tmpl ->
      (HTTPProxySource.endpointsFromHTTPProxy sc hp c).1 = Ok eps ->
      (HTTPProxySource.combineFQDNAnnotation sc = false -> eps <> [] ->
       (HTTPProxySource.Endpoints_body sc hp c).1
       = Ok (HTTPProxySource.setResourceLabel hp eps))
      /\ forall teps,
           (HTTPProxySource.endpointsFromTemplate tmpl hp c).1 = Ok teps ->
           (eps = [] ->
            (HTTPProxySource.Endpoints_body sc hp c).1
            = Ok (HTTPProxySource.setResourceLabel hp teps))
           /\ (HTTPProxySource.combineFQDNAnnotation sc = true ->
               (HTTPProxySource.Endpoints_body sc hp c).1
               = Ok (HTTPProxySource.setResourceLabel hp (eps ++ teps))))
  /\ (forall sc rt c tmpl eps,
         IngressRouteSpec.kept sc rt = true ->
         IngressRouteSource.fqdnTemplate sc = Some tmpl ->
         (IngressRouteSource.endpointsFromIngressRoute sc rt c).1 = Ok eps ->
         (IngressRouteSource.combineFQDNAnnotation sc = false -> eps <> [] ->
          (IngressRouteSource.Endpoints_body sc rt c).1
          = Ok (IngressRouteSource.setResourceLabel rt eps))
         /\ forall teps,
              (IngressRouteSource.endpointsFromTemplate sc tmpl rt c).1 = Ok teps ->
              (eps = [] ->
               (IngressRouteSource.Endpoints_body sc rt c).1
               = Ok (IngressRouteSource.setResourceLabel rt teps))
              /\ (IngressRouteSource.combineFQDNAnnotation sc = true ->
                  (IngressRouteSource.Endpoints_body sc rt c).1
                  = Ok (IngressRouteSource.setResourceLabel rt (eps ++ teps))))
  /\ (HTTPProxySource.combineFQDNAnnotation Fixtures.httpProxySrcWithTemplate
      = false
      /\ HTTPProxySource.fqdnTemplate Fixtures.httpProxySrcWithTemplate
         = Some Fixtures.nameTemplate
      /\ exists eps,
           (HTTPProxySource.Endpoints Fixtures.httpProxySrcWithTemplate
              [Fixtures.fooBar] Fixtures.emptyCluster).1 = Ok eps
           /\ map DNSName eps = ["foo.bar"]).
Proof.
  split; [|split].
  - intros sc hp c tmpl eps Hkept Hfqdn Heps.
    unfold HTTPProxySpec.kept in Hkept.
    apply andb_prop in Hkept as [[Hsel Hctl]%andb_prop Hvalid%bool_decide_eq_true].
    apply negb_true_iff in Hctl.
    assert ((HTTPProxySource.Endpoints_body sc hp c).1
               = ((x <- (match HTTPProxySource.fqdnTemplate sc with
                         | Some tmpl =>
                             if HTTPProxySource.combineFQDNAnnotation sc
                                || bool_decide (length eps = 0%nat)
                             then
                               tmplEndpoints <-
                                 wrap (HTTPProxySource.endpointsFromTemplate tmpl hp)
                                   "failed to get endpoints from template" ;;
                               ret (if HTTPProxySource.combineFQDNAnnotation sc
                                    then eps ++ tmplEndpoints
                                    else tmplEndpoints)
                             else ret eps
                         | None => ret eps
                         end) ;;
                   if decide (length x = 0%nat) then ret []
                   else ret (HTTPProxySource.setResourceLabel hp x)) c).1)
      as Hbody.
    { unfold HTTPProxySource.Endpoints_body.
      rewrite Hsel, Hctl. simpl. case_decide; [done|].
      by rewrite bind_fst, (wrap_Ok_result _ _ _ _ Heps). }
    rewrite Hbody, Hfqdn, bind_fst. clear Hbody.
    split.
    + intros -> Hne. simpl.
      rewrite bool_decide_eq_false_2
        by (intros Hlen; by apply length_zero_iff_nil in Hlen).
      simpl. by apply (setResourceLabel_or_nothing
                         (HTTPProxySource.setResourceLabel hp)).
    + intros teps Hteps.
      apply (wrap_Ok_result _ "failed to get endpoints from template") in Hteps.
      split.
      * intros ->. rewrite bool_decide_eq_true_2, orb_true_r by done.
        rewrite bind_fst, Hteps. simpl.
        destruct (HTTPProxySource.combineFQDNAnnotation sc); simpl;
          by apply (setResourceLabel_or_nothing
                      (HTTPProxySource.setResourceLabel hp)).
      * intros ->. simpl. rewrite bind_fst, Hteps. simpl.
        by apply (setResourceLabel_or_nothing
                    (HTTPProxySource.setResourceLabel hp)).
  - intros sc rt c tmpl eps Hkept Hfqdn Heps.
    unfold IngressRouteSpec.kept in Hkept.
    apply andb_prop in Hkept as [[Hsel Hctl]%andb_prop Hvalid%bool_decide_eq_true].
    apply negb_true_iff in Hctl.
    assert ((IngressRouteSource.Endpoints_body sc rt c).1
               = ((x <- (match IngressRouteSource.fqdnTemplate sc with
                         | Some tmpl =>
                             if IngressRouteSource.combineFQDNAnnotation sc
                                || bool_decide (length eps = 0%nat)
                             then
                               tmplEndpoints <-
                                 IngressRouteSource.endpointsFromTemplate sc tmpl rt ;;
                               ret (if IngressRouteSource.combineFQDNAnnotation sc
                                    then eps ++ tmplEndpoints
                                    else tmplEndpoints)
                             else ret eps
                         | None => ret eps
                         end) ;;
                   if decide (length x = 0%nat) then ret []
                   else ret (IngressRouteSource.setResourceLabel rt x)) c).1)
      as Hbody.
    { unfold IngressRouteSource.Endpoints_body.
      rewrite Hsel, Hctl. simpl. case_decide; [done|].
      by rewrite bind_fst, Heps. }
    rewrite Hbody, Hfqdn, bind_fst. clear Hbody.
    split.
    + intros -> Hne. simpl.
      rewrite bool_decide_eq_false_2
        by (intros Hlen; by apply length_zero_iff_nil in Hlen).
      simpl. by apply (setResourceLabel_or_nothing
                         (IngressRouteSource.setResourceLabel rt)).
    + intros teps Hteps.
      split.
      * intros ->. rewrite bool_decide_eq_true_2, orb_true_r by done.
        rewrite bind_fst, Hteps. simpl.
        destruct (IngressRouteSource.combineFQDNAnnotation sc); simpl;
          by apply (setResourceLabel_or_nothing
                      (IngressRouteSource.setResourceLabel rt)).
      * intros ->. simpl. rewrite bind_fst, Hteps. simpl.
        by apply (setResourceLabel_or_nothing
                    (IngressRouteSource.setResourceLabel rt)).
  - split; [reflexivity|]. split; [reflexivity|].
    eexists. split; [vm_compute; reflexivity|reflexivity].
Qed.

(** * The properties on the resources of the tests *)

(** A Host without the annotation, between two others. *)
Lemma ambassador_host_without_annotation_witness :
  AmbassadorHostSource.Endpoints_body Fixtures.ambassadorSrc
    Fixtures.hostWithoutAnnotation Fixtures.ambassadorCluster = (Ok [], [])
  /\ AmbassadorHostSource.Endpoints Fixtures.ambassadorSrc
       ([Fixtures.hostWithService]
        ++ Fixtures.hostWithoutAnnotation :: [Fixtures.hostWithService])
       Fixtures.ambassadorCluster
     = AmbassadorHostSource.Endpoints Fixtures.ambassadorSrc
         ([Fixtures.hostWithService] ++ [Fixtures.hostWithService])
         Fixtures.ambassadorCluster.
Proof.
  destruct (ambassador_host_without_annotation_ignored Fixtures.ambassadorSrc
              Fixtures.hostWithoutAnnotation Fixtures.ambassadorCluster)
    as [Hbody Hpass]; [reflexivity|].
  split; [exact Hbody|apply Hpass].
Defined.

(** An HTTPProxy and an IngressRoute with the status "invalid". *)
Lemma contour_resource_not_valid_witness :
  HTTPProxySource.Endpoints_body Fixtures.httpProxySrc
    Fixtures.httpProxyInvalid Fixtures.emptyCluster = (Ok [], [])
  /\ IngressRouteSource.Endpoints_body Fixtures.ingressRouteSrc
       Fixtures.routeInvalid Fixtures.contourCluster = (Ok [], []).
Proof.
  split.
  - apply (proj1 contour_resource_not_valid_skipped). vm_compute. discriminate.
  - apply (proj2 contour_resource_not_valid_skipped). vm_compute. discriminate.
Defined.

(** A pass of each of the four adapters that sort. *)
Lemma targets_sorted_witness :
  (exists eps,
      (HTTPProxySource.Endpoints Fixtures.httpProxySrc
         [Fixtures.httpProxyTwoAddresses] Fixtures.emptyCluster).1 = Ok eps
      /\ map Targets eps = [["127.0.0.1"; "8.8.8.8"]]
      /\ Forall (fun ep => StronglySorted String.le (Targets ep)) eps)
  /\ (exists eps,
         (IngressRouteSource.Endpoints Fixtures.ingressRouteSrc
            [Fixtures.routeFooBar] Fixtures.contourCluster).1 = Ok eps
         /\ Forall (fun ep => StronglySorted String.le (Targets ep)) eps)
  /\ (exists eps,
         (AmbassadorHostSource.Endpoints Fixtures.ambassadorSrc
            [Fixtures.hostWithService] Fixtures.ambassadorCluster).1 = Ok eps
         /\ Forall (fun ep => StronglySorted String.le (Targets ep)) eps)
  /\ (exists eps,
         (KongTCPIngressSource.Endpoints Fixtures.kongSrc
            [Fixtures.tcpIngressBoth] Fixtures.emptyCluster).1 = Ok eps
         /\ Forall (fun ep => StronglySorted String.le (Targets ep)) eps).
Proof.
  destruct targets_sorted_after_pass as (Hhttpproxy & Hroute & Hhost & Hkong).
  split; [|split; [|split]].
  - destruct (HTTPProxySource.Endpoints Fixtures.httpProxySrc
                [Fixtures.httpProxyTwoAddresses] Fixtures.emptyCluster)
      as [[eps|e] tr] eqn:Hrun; [|vm_compute in Hrun; discriminate].
    exists eps. split; [reflexivity|]. split.
    + vm_compute in Hrun. injection Hrun as <- _. reflexivity.
    + apply Forall_forall. exact (Hhttpproxy _ _ _ _ _ Hrun).
  - destruct (IngressRouteSource.Endpoints Fixtures.ingressRouteSrc
                [Fixtures.routeFooBar] Fixtures.contourCluster)
      as [[eps|e] tr] eqn:Hrun; [|vm_compute in Hrun; discriminate].
    exists eps. split; [reflexivity|].
    apply Forall_forall. exact (Hroute _ _ _ _ _ Hrun).
  - destruct (AmbassadorHostSource.Endpoints Fixtures.ambassadorSrc
                [Fixtures.hostWithService] Fixtures.ambassadorCluster)
      as [[eps|e] tr] eqn:Hrun; [|vm_compute in Hrun; discriminate].
    exists eps. split; [reflexivity|].
    apply Forall_forall. exact (Hhost _ _ _ _ _ Hrun).
  - destruct (KongTCPIngressSource.Endpoints Fixtures.kongSrc
                [Fixtures.tcpIngressBoth] Fixtures.emptyCluster)
      as [[eps|e] tr] eqn:Hrun; [|vm_compute in Hrun; discriminate].
    exists eps. split; [reflexivity|].
    apply Forall_forall. exact (Hkong _ _ _ _ _ Hrun).
Defined.

(** The label of the endpoint of "fake3", of a route and of the Kong
    TCPIngress. *)
Lemma resource_label_witness :
  (exists ep,
      (HTTPProxySource.Endpoints Fixtures.httpProxySrc [Fixtures.fake3]
         Fixtures.emptyCluster).1 = Ok [ep]
      /\ Labels ep !! ResourceLabelKey = Some "HTTPProxy/testing/fake3")
  /\ (exists ep,
         (IngressRouteSource.Endpoints Fixtures.ingressRouteSrc
            [Fixtures.routeWithTarget] Fixtures.contourCluster).1 = Ok [ep]
         /\ Labels ep !! ResourceLabelKey = Some "ingressroute/testing/fake3")
  /\ (exists ep eps,
         (KongTCPIngressSource.Endpoints Fixtures.kongSrc
            [Fixtures.tcpIngressBoth] Fixtures.emptyCluster).1 = Ok (ep :: eps)
         /\ Labels ep !! ResourceLabelKey = Some "tcpingress/kong/tcp-ingress-both").
Proof.
  destruct resource_label_after_pass as (Hhttpproxy & Hroute & Hkong).
  split; [|split].
  - destruct (HTTPProxySource.Endpoints Fixtures.httpProxySrc [Fixtures.fake3]
                Fixtures.emptyCluster) as [[eps|e] tr] eqn:Hrun;
      [|vm_compute in Hrun; discriminate].
    destruct eps as [|ep [|ep' eps]];
      [vm_compute in Hrun; discriminate| |vm_compute in Hrun; discriminate].
    exists ep. split; [reflexivity|].
    destruct (Hhttpproxy _ _ _ _ _ Hrun ep ltac:(left))
      as (hp & part & t & Hhp & _ & _ & ->).
    apply list_elem_of_singleton in Hhp as ->. reflexivity.
  - destruct (IngressRouteSource.Endpoints Fixtures.ingressRouteSrc
                [Fixtures.routeWithTarget] Fixtures.contourCluster)
      as [[eps|e] tr] eqn:Hrun; [|vm_compute in Hrun; discriminate].
    destruct eps as [|ep [|ep' eps]];
      [vm_compute in Hrun; discriminate| |vm_compute in Hrun; discriminate].
    exists ep. split; [reflexivity|].
    destruct (Hroute _ _ _ _ _ Hrun ep ltac:(left))
      as (rt & part & t & Hrt & _ & _ & ->).
    apply list_elem_of_singleton in Hrt as ->. reflexivity.
  - destruct (KongTCPIngressSource.Endpoints Fixtures.kongSrc
                [Fixtures.tcpIngressBoth] Fixtures.emptyCluster)
      as [[eps|e] tr] eqn:Hrun; [|vm_compute in Hrun; discriminate].
    destruct eps as [|ep eps]; [vm_compute in Hrun; discriminate|].
    exists ep, eps. split; [reflexivity|].
    destruct (Hkong _ _ _ _ _ Hrun ep ltac:(left))
      as (ti & part & t & Hti & _ & _ & ->).
    apply list_elem_of_singleton in Hti as ->. reflexivity.
Defined.

(** The order of the endpoints of "foo.bar" for a source with a template,
    of a route for a source that combines, and of the Kong TCPIngress. *)
Lemma hostname_order_witness :
  (HTTPProxySource.Endpoints_body Fixtures.httpProxySrcWithTemplate
     Fixtures.fooBar Fixtures.emptyCluster).1
  = Ok (HTTPProxySource.setResourceLabel Fixtures.fooBar
          (HTTPProxySpec.native Fixtures.fooBar
           ++ HTTPProxySpec.fromAnnotation Fixtures.httpProxySrcWithTemplate
                Fixtures.fooBar
           ++ HTTPProxySpec.usedTemplate Fixtures.httpProxySrcWithTemplate
                Fixtures.fooBar))
  /\ (IngressRouteSource.Endpoints_body Fixtures.ingressRouteSrcWithTemplate
        Fixtures.routeFooBar Fixtures.contourCluster).1
     = Ok (IngressRouteSource.setResourceLabel Fixtures.routeFooBar
             (IngressRouteSpec.native Fixtures.ingressRouteSrcWithTemplate
                Fixtures.contourCluster Fixtures.routeFooBar
              ++ IngressRouteSpec.fromAnnotation Fixtures.ingressRouteSrcWithTemplate
                   Fixtures.contourCluster Fixtures.routeFooBar
              ++ IngressRouteSpec.usedTemplate Fixtures.ingressRouteSrcWithTemplate
                   Fixtures.contourCluster Fixtures.routeFooBar))
  /\ map DNSName
       (IngressRouteSpec.native Fixtures.ingressRouteSrcWithTemplate
          Fixtures.contourCluster Fixtures.routeFooBar
        ++ IngressRouteSpec.fromAnnotation Fixtures.ingressRouteSrcWithTemplate
             Fixtures.contourCluster Fixtures.routeFooBar
        ++ IngressRouteSpec.usedTemplate Fixtures.ingressRouteSrcWithTemplate
             Fixtures.contourCluster Fixtures.routeFooBar)
     = ["foo.bar"; "route.ext-dns.test.com"]
  /\ (KongTCPIngressSource.Endpoints_body Fixtures.kongSrc
        Fixtures.tcpIngressBoth Fixtures.emptyCluster).1
     = Ok (KongTCPIngressSource.setDualstackLabel Fixtures.tcpIngressBoth
             (KongTCPIngressSource.setResourceLabel Fixtures.tcpIngressBoth
                (KongTCPIngressSpec.fromAnnotation Fixtures.tcpIngressBoth
                 ++ KongTCPIngressSpec.native Fixtures.tcpIngressBoth))).
Proof.
  destruct hostname_order_of_endpoints as (Hhttpproxy & Hroute & Hkong).
  split; [|split; [|split]].
  - apply Hhttpproxy; [reflexivity|]. intros tmpl [= <-]. reflexivity.
  - apply Hroute; [reflexivity|]. intros tmpl [= <-]. reflexivity.
  - vm_compute. reflexivity.
  - apply Hkong; [reflexivity|vm_compute; reflexivity].
Defined.

(** A source whose load-balancer service is not in the cluster, the Host
    whose service is missing, and the Gloo proxy without its service. *)
Lemma load_balancer_service_not_found_witness :
  IngressRouteSource.targetsFromContourLoadBalancer Fixtures.ingressRouteSrc
    Fixtures.emptyCluster
  = (Ok [],
     [GetService "heptio-contour" "contour";
      Warn "service heptio-contour/contour not found"])
  /\ isOk (IngressRouteSource.Endpoints Fixtures.ingressRouteSrc
             [Fixtures.routeFooBar; Fixtures.routeWithTarget]
             Fixtures.emptyCluster).1 = true
  /\ map DNSName
       match (IngressRouteSource.Endpoints Fixtures.ingressRouteSrc
                [Fixtures.routeFooBar; Fixtures.routeWithTarget]
                Fixtures.emptyCluster).1 with
       | Ok eps => eps
       | Err _ => []
       end
     = ["example3.org"]
  /\ AmbassadorHostSource.Endpoints_body Fixtures.ambassadorSrc
       Fixtures.hostWithMissingService Fixtures.ambassadorCluster
     = (Err "service ns1/missing not found", [GetService "ns1" "missing"])
  /\ GlooSource.Endpoints_body Fixtures.glooSrc Fixtures.acceptedProxy
       Fixtures.emptyCluster
     = (Err "service gloo-system/internal not found",
        [GetService "gloo-system" "internal"]).
Proof.
  destruct load_balancer_service_not_found as (Hroute & Hhost & Hgloo).
  destruct (Hroute Fixtures.ingressRouteSrc Fixtures.emptyCluster)
    as [Htargets Hpass]; [vm_compute; reflexivity|].
  split; [exact Htargets|]. split; [|split; [|split]].
  - apply (Hpass [Fixtures.routeFooBar; Fixtures.routeWithTarget]).
    intros tmpl rt [=].
  - vm_compute. reflexivity.
  - apply (Hhost Fixtures.ambassadorSrc Fixtures.hostWithMissingService
             Fixtures.ambassadorCluster "ns1/missing" "ns1" "missing");
      vm_compute; reflexivity.
  - apply (Hgloo Fixtures.glooSrc Fixtures.acceptedProxy Fixtures.emptyCluster).
    vm_compute. reflexivity.
Defined.

(** "foo.bar" for a source with a template and the combine flag off, and
    for a source that combines. *)
Lemma template_combination_witness :
  (HTTPProxySource.Endpoints_body Fixtures.httpProxySrcWithTemplate
     Fixtures.fooBar Fixtures.emptyCluster).1
  = Ok (HTTPProxySource.setResourceLabel Fixtures.fooBar
          (synthesize ∅ ["8.8.8.8"] "foo.bar"))
  /\ (IngressRouteSource.Endpoints_body Fixtures.ingressRouteSrcWithTemplate
        Fixtures.routeFooBar Fixtures.contourCluster).1
     = Ok (IngressRouteSource.setResourceLabel Fixtures.routeFooBar
             (synthesize ∅ ["8.8.8.8"] "foo.bar"
              ++ synthesize ∅ ["8.8.8.8"] "route.ext-dns.test.com")).
Proof.
  destruct template_combination as (Hhttpproxy & Hroute & _).
  split.
  - apply (proj1 (Hhttpproxy Fixtures.httpProxySrcWithTemplate Fixtures.fooBar
                    Fixtures.emptyCluster Fixtures.nameTemplate
                    (synthesize ∅ ["8.8.8.8"] "foo.bar")
                    ltac:(reflexivity) ltac:(reflexivity)
                    ltac:(vm_compute; reflexivity)));
      [reflexivity|vm_compute; discriminate].
  - apply (proj2 (Hroute Fixtures.ingressRouteSrcWithTemplate Fixtures.routeFooBar
                    Fixtures.contourCluster Fixtures.routeTemplate
                    (synthesize ∅ ["8.8.8.8"] "foo.bar")
                    ltac:(reflexivity) ltac:(reflexivity)
                    ltac:(vm_compute; reflexivity)));
      [vm_compute; reflexivity|reflexivity].
Defined.

(** * Further properties of the adapters *)

(** ** Splitting at a separator *)

Section SplitAt.

Variable sep : ascii.

Lemma Count_append (s1 s2 : string) :
  strings.Count (s1 +:+ s2) sep
  = (strings.Count s1 sep + strings.Count s2 sep)%nat.
Proof.
  induction s1 as [|c s1 IH]; simpl; [done|]. rewrite IH. lia.
Qed.

Lemma Split_without_sep (s : string) :
  strings.Count s sep = 0%nat -> strings.Split s sep = [s].
Proof.
  induction s as [|c s IH]; simpl; [done|].
  destruct (Ascii.eqb c sep); simpl; [done|].
  intros Hs. by rewrite IH.
Qed.

Lemma Split_at_sep (before after : string) :
  strings.Count before sep = 0%nat ->
  strings.Split (before +:+ String sep after) sep
  = before :: strings.Split after sep.
Proof.
  induction before as [|c before IH]; simpl.
  - by rewrite Ascii.eqb_refl.
  - destruct (Ascii.eqb c sep); simpl; [done|].
    intros Hs. by rewrite IH.
Qed.

Lemma Cut_without_sep (s : string) :
  strings.Count s sep = 0%nat -> strings.Cut s sep = None.
Proof.
  induction s as [|c s IH]; simpl; [done|].
  destruct (Ascii.eqb c sep); simpl; [done|].
  intros Hs. by rewrite IH.
Qed.

Lemma Cut_at_sep (before after : string) :
  strings.Count before sep = 0%nat ->
  strings.Cut (before +:+ String sep after) sep = Some (before, after).
Proof.
  induction before as [|c before IH]; simpl.
  - by rewrite Ascii.eqb_refl.
  - destruct (Ascii.eqb c sep); simpl; [done|].
    intros Hs. by rewrite IH.
Qed.

Lemma Cut_Some (s before after : string) :
  strings.Cut s sep = Some (before, after) ->
  s = before +:+ String sep after /\ strings.Count before sep = 0%nat.
Proof.
  revert before. induction s as [|c s IH]; intros before; simpl; [done|].
  destruct (Ascii.eqb c sep) eqn:Hc.
  - intros [= <- <-]. apply Ascii.eqb_eq in Hc as ->. done.
  - destruct (strings.Cut s sep) as [[b a]|]; [|done].
    intros [= <- <-]. destruct (IH b eq_refl) as [-> Hb].
    simpl. by rewrite Hc.
Qed.

Lemma Split_one (s piece : string) :
  strings.Split s sep = [piece] ->
  s = piece /\ strings.Count s sep = 0%nat.
Proof.
  intros Hsplit. pose proof (Split_length s sep) as Hlen.
  rewrite Hsplit in Hlen. simpl in Hlen.
  assert (strings.Count s sep = 0%nat) as Hcount by lia.
  split; [|done]. rewrite Split_without_sep in Hsplit by done.
  by injection Hsplit.
Qed.

Lemma Split_two (s before after : string) :
  strings.Split s sep = [before; after] ->
  s = before +:+ String sep after
  /\ strings.Count before sep = 0%nat /\ strings.Count after sep = 0%nat.
Proof.
  revert before. induction s as [|c s IH]; intros before; simpl; [done|].
  destruct (Ascii.eqb c sep) eqn:Hc.
  - intros [= <- Hafter]. apply Ascii.eqb_eq in Hc as ->.
    by apply Split_one in Hafter as [-> ?].
  - destruct (strings.Split s sep) as [|w ws] eqn:Hs; [done|].
    intros [= <- ->]. destruct (IH w eq_refl) as (-> & Hw & Ha).
    simpl. by rewrite Hc.
Qed.

End SplitAt.

(** ** Service references *)

(** X1: the Ambassador reference parser reads back what was written in
    either syntax: "namespace/name" for a namespace and a name without a
    "/" (either may hold dots), "name.namespace" for a name without a dot
    (so "svc.foo.bar" is the service "svc" of the namespace "foo.bar"),
    and a string without "/" and "." as a name of the default
    namespace. *)
Theorem parseAmbLoadBalancerService_reads_back :
  (forall namespace name : string,
      strings.Count namespace "/" = 0%nat ->
      strings.Count name "/" = 0%nat ->
      parseAmbLoadBalancerService (namespace +:+ "/" +:+ name)
      = Ok (namespace, name))
  /\ (forall name namespace : string,
         strings.Count name "/" = 0%nat ->
         strings.Count name "." = 0%nat ->
         strings.Count namespace "/" = 0%nat ->
         parseAmbLoadBalancerService (name +:+ "." +:+ namespace)
         = Ok (namespace, name))
  /\ (forall name : string,
         strings.Count name "/" = 0%nat ->
         strings.Count name "." = 0%nat ->
         parseAmbLoadBalancerService name = Ok (NamespaceDefault, name)).
Proof.
  split; [|split].
  - intros namespace name Hns Hname. unfold parseAmbLoadBalancerService.
    change (namespace +:+ "/" +:+ name) with (namespace +:+ String "/" name).
    by rewrite Split_at_sep, (Split_without_sep _ name).
  - intros name namespace Hname Hdot Hns. unfold parseAmbLoadBalancerService.
    change (name +:+ "." +:+ namespace) with (name +:+ String "." namespace).
    rewrite Split_without_sep.
    + simpl. unfold strings.SplitN2. by rewrite Cut_at_sep.
    + rewrite Count_append. simpl. lia.
  - intros name Hname Hdot. unfold parseAmbLoadBalancerService.
    rewrite Split_without_sep by done. simpl.
    unfold strings.SplitN2. by rewrite Cut_without_sep.
Qed.

(** X2: what the Ambassador reference parser accepts is of one of its
    three forms: the reference is "namespace/name" with one "/", or it has
    no "/" and is "name.namespace" split at its first dot, or it has
    neither and is a name of the default namespace. *)
Theorem parseAmbLoadBalancerService_accepts (service namespace name : string) :
  parseAmbLoadBalancerService service = Ok (namespace, name) ->
  (service = namespace +:+ "/" +:+ name
   /\ strings.Count namespace "/" = 0%nat
   /\ strings.Count name "/" = 0%nat)
  \/ (service = name +:+ "." +:+ namespace
      /\ strings.Count service "/" = 0%nat
      /\ strings.Count name "." = 0%nat)
  \/ (service = name
      /\ namespace = NamespaceDefault
      /\ strings.Count service "/" = 0%nat
      /\ strings.Count service "." = 0%nat).
Proof.
  unfold parseAmbLoadBalancerService.
  pose proof (Split_length service "/") as Hlen.
  case_decide as Hone.
  - assert (strings.Count service "/" = 0%nat) as Hslash by lia.
    unfold strings.SplitN2.
    destruct (strings.Cut service ".") as [[before after]|] eqn:Hcut.
    + intros [= <- <-]. right; left.
      by apply Cut_Some in Hcut as [-> ?].
    + intros [= <- <-]. right; right. repeat split; [done|].
      clear -Hcut. induction service as [|c s IH]; simpl in *; [done|].
      destruct (Ascii.eqb c "."); [done|].
      destruct (strings.Cut s ".") as [[? ?]|]; [done|]. by rewrite IH.
  - destruct (strings.Split service "/") as [|a [|b [|? ?]]] eqn:Hsplit;
      try done.
    intros [= <- <-]. left. by apply Split_two in Hsplit.
Qed.

(** X3: the Contour reference parser accepts exactly the references with
    one "/" (a bare name has no default namespace), reads "namespace/name"
    back, and what it returns, joined by "/", is the reference. *)
Theorem parseContourLoadBalancerService_spec :
  (forall service : string,
      isOk (IngressRouteSource.parseContourLoadBalancerService service) = true
      <-> strings.Count service "/" = 1%nat)
  /\ (forall namespace name : string,
         strings.Count namespace "/" = 0%nat ->
         strings.Count name "/" = 0%nat ->
         IngressRouteSource.parseContourLoadBalancerService
           (namespace +:+ "/" +:+ name) = Ok (namespace, name))
  /\ (forall service namespace name : string,
         IngressRouteSource.parseContourLoadBalancerService service
         = Ok (namespace, name) ->
         service = namespace +:+ "/" +:+ name).
Proof.
  split; [|split].
  - intros service. unfold IngressRouteSource.parseContourLoadBalancerService.
    pose proof (Split_length service "/") as Hlen.
    destruct (strings.Split service "/") as [|a [|b [|? ?]]];
      simpl in *; split; intros; try done; lia.
  - intros namespace name Hns Hname.
    unfold IngressRouteSource.parseContourLoadBalancerService.
    change (namespace +:+ "/" +:+ name) with (namespace +:+ String "/" name).
    by rewrite Split_at_sep, (Split_without_sep _ name).
  - intros service namespace name.
    unfold IngressRouteSource.parseContourLoadBalancerService.
    destruct (strings.Split service "/") as [|a [|b [|? ?]]] eqn:Hsplit;
      try done.
    intros [= <- <-]. by apply Split_two in Hsplit as [-> _].
Qed.

(** ** Passes over several resources *)

Section ForRangeCompose.

Context {A B : Type} (body : A -> M (list B)) (c : Cluster).

Lemma forRange_acc_result (xs : list A) (acc : list B) :
  (forRange body xs acc c).1
  = match (forRange body xs [] c).1 with
    | Ok res => Ok (acc ++ res)
    | Err e => Err e
    end.
Proof.
  revert acc. induction xs as [|x xs IH]; intros acc; simpl.
  - by rewrite app_nil_r.
  - rewrite !bind_fst. destruct (body x c).1 as [new|e]; [|done].
    rewrite (IH (acc ++ new)), (IH new).
    destruct (forRange body xs [] c).1; [|done]. by rewrite app_assoc.
Qed.

Lemma forRange_app_result (xs1 xs2 : list A) (acc : list B) :
  (forRange body (xs1 ++ xs2) acc c).1
  = match (forRange body xs1 acc c).1 with
    | Ok res => (forRange body xs2 res c).1
    | Err e => Err e
    end.
Proof.
  revert acc. induction xs1 as [|x xs1 IH]; intros acc; simpl; [done|].
  rewrite !bind_fst. destruct (body x c).1 as [new|e]; [|done]. apply IH.
Qed.

(** A turn that appends nothing does not change what the pass returns. *)
Lemma forRange_skip_result (x : A) (xs1 xs2 : list A) (acc : list B) :
  (body x c).1 = Ok [] ->
  (forRange body (xs1 ++ x :: xs2) acc c).1
  = (forRange body (xs1 ++ xs2) acc c).1.
Proof.
  intros Hx. rewrite !forRange_app_result.
  destruct (forRange body xs1 acc c).1 as [res|e]; [|done].
  simpl. by rewrite bind_fst, Hx, app_nil_r.
Qed.

End ForRangeCompose.

Section PassCompose.

Lemma sorted_pass_compose {A} (body : A -> M (list Endpoint)) (c : Cluster)
    (xs1 xs2 : list A) :
  ((endpoints <- forRange body (xs1 ++ xs2) [] ;;
    ret (map sortTargets endpoints)) c).1
  = appendResults
      ((endpoints <- forRange body xs1 [] ;; ret (map sortTargets endpoints)) c).1
      ((endpoints <- forRange body xs2 [] ;; ret (map sortTargets endpoints)) c).1.
Proof.
  rewrite !bind_fst, forRange_app_result.
  destruct (forRange body xs1 [] c).1 as [eps1|e]; [|done].
  rewrite forRange_acc_result.
  destruct (forRange body xs2 [] c).1 as [eps2|e]; [|done].
  simpl. by rewrite map_app.
Qed.

End PassCompose.

(** X4: a pass over two lists of resources, one after the other, returns
    the endpoints of the pass over the first and then those of the pass
    over the second (the endpoints follow the order of the resources), or
    the first error. For each of the five adapters. *)
Theorem pass_over_append :
  (forall sc hps1 hps2 c,
      (HTTPProxySource.Endpoints sc (hps1 ++ hps2) c).1
      = appendResults (HTTPProxySource.Endpoints sc hps1 c).1
          (HTTPProxySource.Endpoints sc hps2 c).1)
  /\ (forall sc rts1 rts2 c,
         (IngressRouteSource.Endpoints sc (rts1 ++ rts2) c).1
         = appendResults (IngressRouteSource.Endpoints sc rts1 c).1
             (IngressRouteSource.Endpoints sc rts2 c).1)
  /\ (forall sc hosts1 hosts2 c,
         (AmbassadorHostSource.Endpoints sc (hosts1 ++ hosts2) c).1
         = appendResults (AmbassadorHostSource.Endpoints sc hosts1 c).1
             (AmbassadorHostSource.Endpoints sc hosts2 c).1)
  /\ (forall gs proxies1 proxies2 c,
         (GlooSource.Endpoints gs (proxies1 ++ proxies2) c).1
         = appendResults (GlooSource.Endpoints gs proxies1 c).1
             (GlooSource.Endpoints gs proxies2 c).1)
  /\ (forall sc tis1 tis2 c,
         (KongTCPIngressSource.Endpoints sc (tis1 ++ tis2) c).1
         = appendResults (KongTCPIngressSource.Endpoints sc tis1 c).1
             (KongTCPIngressSource.Endpoints sc tis2 c).1).
Proof.
  split; [|split; [|split; [|split]]];
    try (intros; apply sorted_pass_compose).
  intros gs proxies1 proxies2 c. unfold GlooSource.Endpoints.
  rewrite forRange_app_result.
  destruct (forRange _ proxies1 [] c).1 as [eps1|e]; [|done].
  rewrite forRange_acc_result. simpl.
  by destruct (forRange _ proxies2 [] c).1.
Qed.

(** ** Resources the filters leave out *)

(** X5: an HTTPProxy, an IngressRoute or a Kong TCPIngress whose
    annotations the selector of the source does not match adds no endpoint
    and leaves no trace, and the pass returns what it returns without
    it. *)
Theorem annotation_filter_skips :
  (forall sc hp c,
      HTTPProxySource.annotationSelector sc (HTTPProxySource.Annotations hp)
      = false ->
      HTTPProxySource.Endpoints_body sc hp c = (Ok [], [])
      /\ forall hps1 hps2,
           HTTPProxySource.Endpoints sc (hps1 ++ hp :: hps2) c
           = HTTPProxySource.Endpoints sc (hps1 ++ hps2) c)
  /\ (forall sc rt c,
         IngressRouteSource.annotationSelector sc
           (IngressRouteSource.Annotations rt) = false ->
         IngressRouteSource.Endpoints_body sc rt c = (Ok [], [])
         /\ forall rts1 rts2,
              IngressRouteSource.Endpoints sc (rts1 ++ rt :: rts2) c
              = IngressRouteSource.Endpoints sc (rts1 ++ rts2) c)
  /\ (forall sc ti c,
         KongTCPIngressSource.annotationSelector sc
           (KongTCPIngressSource.Annotations ti) = false ->
         KongTCPIngressSource.Endpoints_body sc ti c = (Ok [], [])
         /\ forall tis1 tis2,
              KongTCPIngressSource.Endpoints sc (tis1 ++ ti :: tis2) c
              = KongTCPIngressSource.Endpoints sc (tis1 ++ tis2) c).
Proof.
  split; [|split].
  - intros sc hp c Hsel.
    assert (HTTPProxySource.Endpoints_body sc hp c = (Ok [], [])) as Hbody
      by (unfold HTTPProxySource.Endpoints_body; by rewrite Hsel).
    split; [done|]. intros hps1 hps2.
    unfold HTTPProxySource.Endpoints, bind.
    by rewrite (forRange_skip _ _ _ _ _ _ Hbody).
  - intros sc rt c Hsel.
    assert (IngressRouteSource.Endpoints_body sc rt c = (Ok [], [])) as Hbody
      by (unfold IngressRouteSource.Endpoints_body; by rewrite Hsel).
    split; [done|]. intros rts1 rts2.
    unfold IngressRouteSource.Endpoints, bind.
    by rewrite (forRange_skip _ _ _ _ _ _ Hbody).
  - intros sc ti c Hsel.
    assert (KongTCPIngressSource.Endpoints_body sc ti c = (Ok [], [])) as Hbody
      by (unfold KongTCPIngressSource.Endpoints_body; by rewrite Hsel).
    split; [done|]. intros tis1 tis2.
    unfold KongTCPIngressSource.Endpoints, bind.
    by rewrite (forRange_skip _ _ _ _ _ _ Hbody).
Qed.

(** X6: an HTTPProxy or an IngressRoute whose controller annotation names
    another controller adds no endpoint, whatever its hostnames, targets
    and the template of the source, and the pass returns what it returns
    without it. *)
Theorem other_controller_skips :
  (forall sc hp c controller,
      HTTPProxySource.Annotations hp !! controllerAnnotationKey
      = Some controller ->
      controller <> controllerAnnotationValue ->
      HTTPProxySource.Endpoints_body sc hp c = (Ok [], [])
      /\ forall hps1 hps2,
           HTTPProxySource.Endpoints sc (hps1 ++ hp :: hps2) c
           = HTTPProxySource.Endpoints sc (hps1 ++ hps2) c)
  /\ (forall sc rt c controller,
         IngressRouteSource.Annotations rt !! controllerAnnotationKey
         = Some controller ->
         controller <> controllerAnnotationValue ->
         IngressRouteSource.Endpoints_body sc rt c = (Ok [], [])
         /\ forall rts1 rts2,
              IngressRouteSource.Endpoints sc (rts1 ++ rt :: rts2) c
              = IngressRouteSource.Endpoints sc (rts1 ++ rts2) c).
Proof.
  split.
  - intros sc hp c controller Hsome Hother.
    assert (HTTPProxySource.Endpoints_body sc hp c = (Ok [], [])) as Hbody.
    { unfold HTTPProxySource.Endpoints_body, otherController.
      rewrite Hsome, bool_decide_eq_true_2 by done. by destruct (negb _). }
    split; [done|]. intros hps1 hps2.
    unfold HTTPProxySource.Endpoints, bind.
    by rewrite (forRange_skip _ _ _ _ _ _ Hbody).
  - intros sc rt c controller Hsome Hother.
    assert (IngressRouteSource.Endpoints_body sc rt c = (Ok [], [])) as Hbody.
    { unfold IngressRouteSource.Endpoints_body, otherController.
      rewrite Hsome, bool_decide_eq_true_2 by done. by destruct (negb _). }
    split; [done|]. intros rts1 rts2.
    unfold IngressRouteSource.Endpoints, bind.
    by rewrite (forRange_skip _ _ _ _ _ _ Hbody).
Qed.

(** ** A template that fails to render *)

Lemma pass_fails_with_turn {A} (body : A -> M (list Endpoint)) (c : Cluster)
    (x : A) (xs : list A) :
  x ∈ xs ->
  isOk (body x c).1 = false ->
  isOk ((endpoints <- forRange body xs [] ;;
         ret (map sortTargets endpoints)) c).1 = false.
Proof.
  intros Hx Hfail. rewrite bind_fst.
  pose proof (forRange_fails body c x xs [] Hx Hfail) as Hloop.
  by destruct (forRange body xs [] c).1.
Qed.

(** X7: when the template of the source is used for an HTTPProxy or an
    IngressRoute that passes the filters (the combine flag is set, or the
    native hostname and the hostname annotation give no endpoint) and it
    fails to render, the error, with the resource named in it, is the
    error of the turn, and every pass over the resource fails. *)
Theorem template_failure_fails_pass :
  (forall sc hp c tmpl err,
      HTTPProxySpec.kept sc hp = true ->
      HTTPProxySource.fqdnTemplate sc = Some tmpl ->
      tmpl hp = Err err ->
      HTTPProxySource.combineFQDNAnnotation sc = true
      \/ HTTPProxySpec.native hp ++ HTTPProxySpec.fromAnnotation sc hp = [] ->
      (HTTPProxySource.Endpoints_body sc hp c).1
      = Err ("failed to get endpoints from template: "
             +:+ "failed to apply template on HTTPProxy "
             +:+ HTTPProxySource.Namespace hp +:+ "/"
             +:+ HTTPProxySource.Name hp +:+ ": " +:+ err)
      /\ forall hps, hp ∈ hps ->
           isOk (HTTPProxySource.Endpoints sc hps c).1 = false)
  /\ (forall sc rt c tmpl err,
         IngressRouteSpec.kept sc rt = true ->
         IngressRouteSource.fqdnTemplate sc = Some tmpl ->
         tmpl rt = Err err ->
         IngressRouteSource.combineFQDNAnnotation sc = true
         \/ IngressRouteSpec.native sc c rt
            ++ IngressRouteSpec.fromAnnotation sc c rt = [] ->
         (IngressRouteSource.Endpoints_body sc rt c).1
         = Err ("failed to apply template on ingressroute "
                +:+ IngressRouteSource.Namespace rt +:+ "/"
                +:+ IngressRouteSource.Name rt +:+ ": " +:+ err)
         /\ forall rts, rt ∈ rts ->
              isOk (IngressRouteSource.Endpoints sc rts c).1 = false).
Proof.
  split.
  - intros sc hp c tmpl err Hkept Hfqdn Herr Hused.
    assert ((HTTPProxySource.Endpoints_body sc hp c).1
            = Err ("failed to get endpoints from template: "
                   +:+ "failed to apply template on HTTPProxy "
                   +:+ HTTPProxySource.Namespace hp +:+ "/"
                   +:+ HTTPProxySource.Name hp +:+ ": " +:+ err)) as Hbody.
    { unfold HTTPProxySpec.kept in Hkept.
      apply andb_prop in Hkept
          as [[Hsel Hctl]%andb_prop Hvalid%bool_decide_eq_true].
      apply negb_true_iff in Hctl.
      unfold HTTPProxySource.Endpoints_body.
      rewrite Hsel, Hctl. simpl. case_decide; [done|].
      rewrite bind_fst,
        (wrap_Ok_result _ _ _ _ (endpointsFromHTTPProxy_result sc hp c Hvalid)).
      rewrite bind_fst, Hfqdn.
      assert (HTTPProxySource.combineFQDNAnnotation sc
              || bool_decide
                   (length (HTTPProxySpec.native hp
                            ++ HTTPProxySpec.fromAnnotation sc hp) = 0%nat)
              = true) as ->.
      { destruct Hused as [->| ->]; [done|]. apply orb_true_r. }
      rewrite bind_fst.
      unfold wrap, HTTPProxySource.endpointsFromTemplate, fail.
      by rewrite Herr. }
    split; [done|]. intros hps Hhp.
    eapply pass_fails_with_turn; [done|]. by rewrite Hbody.
  - intros sc rt c tmpl err Hkept Hfqdn Herr Hused.
    assert ((IngressRouteSource.Endpoints_body sc rt c).1
            = Err ("failed to apply template on ingressroute "
                   +:+ IngressRouteSource.Namespace rt +:+ "/"
                   +:+ IngressRouteSource.Name rt +:+ ": " +:+ err)) as Hbody.
    { unfold IngressRouteSpec.kept in Hkept.
      apply andb_prop in Hkept
          as [[Hsel Hctl]%andb_prop Hvalid%bool_decide_eq_true].
      apply negb_true_iff in Hctl.
      unfold IngressRouteSource.Endpoints_body.
      rewrite Hsel, Hctl. simpl. case_decide; [done|].
      rewrite bind_fst, (endpointsFromIngressRoute_result sc rt c Hvalid).
      rewrite bind_fst, Hfqdn.
      assert (IngressRouteSource.combineFQDNAnnotation sc
              || bool_decide
                   (length (IngressRouteSpec.native sc c rt
                            ++ IngressRouteSpec.fromAnnotation sc c rt) = 0%nat)
              = true) as ->.
      { destruct Hused as [->| ->]; [done|]. apply orb_true_r. }
      rewrite bind_fst.
      unfold IngressRouteSource.endpointsFromTemplate, fail.
      by rewrite Herr. }
    split; [done|]. intros rts Hrt.
    eapply pass_fails_with_turn; [done|]. by rewrite Hbody.
Qed.

(** ** Ambassador Hosts *)

Lemma endpointsForHostname_metadata (e : Endpoint) (hostname : string)
    (targets : list string) (ttl : Z) (providerSpecific : list (string * string))
    (setIdentifier : string) :
  e ∈ endpointsForHostname hostname targets ttl providerSpecific setIdentifier ->
  ProviderSpecific e = providerSpecific
  /\ SetIdentifier e = setIdentifier
  /\ Labels e = ∅.
Proof.
  unfold endpointsForHostname. simpl. rewrite app_nil_r.
  intros [He|[He|He]%elem_of_app]%elem_of_app;
    match type of He with
    | _ ∈ match ?l with _ => _ end =>
        destruct l as [|t ts]; [by apply elem_of_nil in He|]
    end;
    by apply list_elem_of_singleton in He as ->.
Qed.

Lemma parseAmbLoadBalancerService_malformed (service : string) :
  (1 < strings.Count service "/")%nat ->
  parseAmbLoadBalancerService service
  = Err ("invalid external-dns service: " +:+ service).
Proof.
  intros Hcount. unfold parseAmbLoadBalancerService.
  pose proof (Split_length service "/") as Hlen.
  case_decide; [lia|].
  destruct (strings.Split service "/") as [|? [|? [|? ?]]]; simpl in *;
    try done; lia.
Qed.

(** X8: a Host whose service annotation holds more than one "/" stops
    the pass with the error of the parser, before any service is looked
    up for it. *)
Theorem ambassador_malformed_reference_fails_pass
    (sc : AmbassadorHostSource.ambassadorHostSource)
    (host : AmbassadorHostSource.Host) (c : Cluster) (service : string) :
  AmbassadorHostSource.Annotations host
    !! AmbassadorHostSource.ambHostAnnotation = Some service ->
  (1 < strings.Count service "/")%nat ->
  AmbassadorHostSource.Endpoints_body sc host c
  = (Err ("invalid external-dns service: " +:+ service), [])
  /\ forall hosts, host ∈ hosts ->
       isOk (AmbassadorHostSource.Endpoints sc hosts c).1 = false.
Proof.
  intros Hann Hcount.
  assert (AmbassadorHostSource.Endpoints_body sc host c
          = (Err ("invalid external-dns service: " +:+ service), [])) as Hbody.
  { unfold AmbassadorHostSource.Endpoints_body,
      AmbassadorHostSource.targetsFromAmbassadorLoadBalancer.
    by rewrite Hann, (parseAmbLoadBalancerService_malformed _ Hcount). }
  split; [done|]. intros hosts Hhost.
  eapply pass_fails_with_turn; [done|]. by rewrite Hbody.
Qed.

(** X9: a Host with the annotation of a service that is found, but
    without a spec or with an empty hostname, adds no endpoint: its
    service is looked up all the same, it is no error, and the pass
    returns the endpoints it returns without that Host. *)
Theorem ambassador_host_without_hostname
    (sc : AmbassadorHostSource.ambassadorHostSource)
    (host : AmbassadorHostSource.Host) (c : Cluster)
    (service lbNamespace lbName : string) (svc : Service) :
  AmbassadorHostSource.Annotations host
    !! AmbassadorHostSource.ambHostAnnotation = Some service ->
  parseAmbLoadBalancerService service = Ok (lbNamespace, lbName) ->
  Services c !! (lbNamespace, lbName) = Some svc ->
  (getTTLFromAnnotations (AmbassadorHostSource.Annotations host)).2 = None ->
  match AmbassadorHostSource.Spec host with
  | Some spec => AmbassadorHostSource.Spec_Hostname spec = ""
  | None => True
  end ->
  AmbassadorHostSource.Endpoints_body sc host c
  = (Ok [], [GetService lbNamespace lbName])
  /\ forall hosts1 hosts2,
       (AmbassadorHostSource.Endpoints sc (hosts1 ++ host :: hosts2) c).1
       = (AmbassadorHostSource.Endpoints sc (hosts1 ++ hosts2) c).1.
Proof.
  intros Hann Hparse Hsvc Httl Hspec.
  assert (AmbassadorHostSource.Endpoints_body sc host c
          = (Ok [], [GetService lbNamespace lbName])) as Hbody.
  { unfold AmbassadorHostSource.Endpoints_body,
      AmbassadorHostSource.targetsFromAmbassadorLoadBalancer,
      AmbassadorHostSource.endpointsFromHost.
    rewrite Hann, Hparse.
    destruct (getTTLFromAnnotations _) as [ttl err]. simpl in Httl. subst err.
    unfold bind, try, ret, getService. simpl. rewrite Hsvc. simpl.
    destruct (AmbassadorHostSource.Spec host) as [spec|]; [|done].
    by destruct (decide (AmbassadorHostSource.Spec_Hostname spec <> ""))
      as [Hne|_]. }
  split; [done|]. intros hosts1 hosts2.
  unfold AmbassadorHostSource.Endpoints. rewrite !bind_fst.
  rewrite forRange_skip_result; [done|]. by rewrite Hbody.
Qed.

(** X10: the endpoints of a pass of the Ambassador adapter carry no
    provider-specific property, no set identifier and no label, whatever
    the annotations of the Hosts. *)
Theorem ambassador_endpoints_bare
    (sc : AmbassadorHostSource.ambassadorHostSource)
    (hosts : list AmbassadorHostSource.Host) (c : Cluster)
    (eps : list Endpoint) (tr : list event) :
  AmbassadorHostSource.Endpoints sc hosts c = (Ok eps, tr) ->
  forall e, e ∈ eps ->
    ProviderSpecific e = [] /\ SetIdentifier e = "" /\ Labels e = ∅.
Proof.
  intros Hrun e He.
  apply sorted_pass_result in Hrun as (endpoints & Hrun & ->).
  apply list_elem_of_fmap in He as (e' & -> & He).
  destruct (forRange_elem_of _ _ _ _ _ _ _ Hrun He)
    as [?%elem_of_nil|(host & part & t & _ & Hbody & Hpart)]; [done|].
  simpl.
  unfold AmbassadorHostSource.Endpoints_body in Hbody.
  destruct (_ !! AmbassadorHostSource.ambHostAnnotation) as [service|];
    [|injection Hbody as <- _; by apply elem_of_nil in Hpart].
  apply bind_Ok in Hbody as (targets & t1 & t2 & _ & Hbody & _).
  apply bind_Ok in Hbody as (hostEndpoints & t3 & t4 & Hhost & Hlast & _).
  case_decide; injection Hlast as <- _; [by apply elem_of_nil in Hpart|].
  unfold AmbassadorHostSource.endpointsFromHost in Hhost.
  destruct (getTTLFromAnnotations _) as [ttl [err|]]; [done|].
  destruct (AmbassadorHostSource.Spec host) as [spec|];
    [|injection Hhost as <- _; by apply elem_of_nil in Hpart].
  case_decide; injection Hhost as <- _; [|by apply elem_of_nil in Hpart].
  by apply endpointsForHostname_metadata in Hpart.
Qed.

(** ** Kong TCPIngresses *)

Lemma targetsFromIngress_elem (t : string) (ingress : list LoadBalancerIngress) :
  t ∈ targetsFromIngress ingress
  <-> t <> "" /\ exists lb, lb ∈ ingress /\ (t = IP lb \/ t = Hostname lb).
Proof.
  unfold targetsFromIngress. rewrite list_elem_of_In, in_flat_map. split.
  - intros (lb & Hlb & Ht). apply list_elem_of_In in Hlb.
    apply in_app_or in Ht as [Ht|Ht]; case_decide; try done;
      apply list_elem_of_In, list_elem_of_singleton in Ht as ->;
      (split; [done|]); exists lb; auto.
  - intros (Hne & lb & Hlb & Ht). exists lb.
    split; [by apply list_elem_of_In|]. apply in_or_app.
    destruct Ht as [->| ->]; [left|right]; rewrite decide_False by done;
      by left.
Qed.

Lemma synthesize_full (e : Endpoint) (annotations : gmap string string)
    (targets : list string) (hostname : string) :
  e ∈ synthesize annotations targets hostname ->
  Targets e = filter (fun t => suitableType t = RecordType e) targets
  /\ Targets e <> []
  /\ Labels e = ∅.
Proof.
  intros He. apply endpointsForHostname_elem in He.
  destruct He as (_ & ? & ? & _ & ?). auto.
Qed.

Section KongTurn.

Import KongTCPIngressSource.

Variables (sc : kongTCPIngressSource) (ti : TCPIngress) (c : Cluster).

Lemma kong_pipeline_elem (e : Endpoint) :
  e ∈ KongTCPIngressSpec.fromAnnotation ti ++ KongTCPIngressSpec.native ti ->
  Targets e = filter (fun t => suitableType t = RecordType e)
                (targetsFromIngress (Status_LoadBalancer_Ingress ti))
  /\ Targets e <> []
  /\ Labels e = ∅.
Proof.
  intros [He|He]%elem_of_app.
  - unfold KongTCPIngressSpec.fromAnnotation in He.
    apply list_elem_of_In, in_flat_map in He as (hostname & _ & He).
    by apply list_elem_of_In, synthesize_full in He.
  - unfold KongTCPIngressSpec.native in He.
    apply list_elem_of_In, in_flat_map in He as (rule & _ & He).
    case_decide; [done|].
    by apply list_elem_of_In, synthesize_full in He.
Qed.

(** The endpoints of a turn are those of the annotation and of the rules,
    labelled. *)
Lemma kong_turn_endpoints (part : list Endpoint) (t : list event) :
  Endpoints_body sc ti c = (Ok part, t) ->
  part = []
  \/ part = setDualstackLabel ti
              (setResourceLabel ti
                 (KongTCPIngressSpec.fromAnnotation ti
                  ++ KongTCPIngressSpec.native ti)).
Proof.
  intros Hbody.
  destruct (annotationSelector sc (Annotations ti)) eqn:Hsel.
  - destruct (getTTLFromAnnotations (Annotations ti)) as [ttl [err|]] eqn:Httl.
    + unfold Endpoints_body, endpointsFromTCPIngress in Hbody.
      by rewrite Hsel, Httl in Hbody.
    + right.
      pose proof (kong_Endpoints_body_result sc ti c Hsel) as Hresult.
      rewrite Httl, Hbody in Hresult. specialize (Hresult eq_refl).
      by injection Hresult.
  - left. unfold Endpoints_body in Hbody. rewrite Hsel in Hbody.
    by injection Hbody.
Qed.

End KongTurn.

(** X11: the endpoints of a Kong TCPIngress carry the label "dualstack"
    with the value "true" when the TCPIngress has the dual-stack annotation
    with its expected value, and do not carry the label otherwise (a
    missing annotation or another value). *)
Theorem kong_dualstack_label
    (sc : KongTCPIngressSource.kongTCPIngressSource)
    (ti : KongTCPIngressSource.TCPIngress) (c : Cluster)
    (part : list Endpoint) (t : list event) :
  KongTCPIngressSource.Endpoints_body sc ti c = (Ok part, t) ->
  forall e, e ∈ part ->
    Labels e !! DualstackLabelKey
    = if decide (KongTCPIngressSource.Annotations ti !! ALBDualstackAnnotationKey
                 = Some ALBDualstackAnnotationValue)
      then Some "true" else None.
Proof.
  intros Hbody e He.
  apply kong_turn_endpoints in Hbody as [->| ->];
    [by apply elem_of_nil in He|].
  unfold KongTCPIngressSource.setDualstackLabel in He.
  assert (forall e', e' ∈ KongTCPIngressSource.setResourceLabel ti
                            (KongTCPIngressSpec.fromAnnotation ti
                             ++ KongTCPIngressSpec.native ti) ->
                     Labels e' !! DualstackLabelKey = None) as Hnone.
  { intros e' (e0 & -> & He0)%list_elem_of_fmap.
    apply kong_pipeline_elem in He0 as (_ & _ & Hlabels).
    simpl. rewrite Hlabels. by rewrite lookup_insert_ne. }
  destruct (KongTCPIngressSource.Annotations ti !! ALBDualstackAnnotationKey)
    as [val|] eqn:Hval.
  - destruct (decide (val = ALBDualstackAnnotationValue)) as [->|Hother].
    + rewrite decide_True by done.
      apply list_elem_of_fmap in He as (e' & -> & _). apply setLabel_lookup.
    + rewrite decide_False by congruence. by apply Hnone.
  - rewrite decide_False by done. by apply Hnone.
Qed.

(** X12: every target of an endpoint of a Kong TCPIngress is a non-empty
    IP or hostname of the load-balancer status of that TCPIngress; no
    annotation and no service gives targets. *)
Theorem kong_targets_from_status
    (sc : KongTCPIngressSource.kongTCPIngressSource)
    (ti : KongTCPIngressSource.TCPIngress) (c : Cluster)
    (part : list Endpoint) (t : list event) :
  KongTCPIngressSource.Endpoints_body sc ti c = (Ok part, t) ->
  t = []
  /\ forall e target, e ∈ part -> target ∈ Targets e ->
       target <> ""
       /\ exists lb,
            lb ∈ KongTCPIngressSource.Status_LoadBalancer_Ingress ti
            /\ (target = IP lb \/ target = Hostname lb).
Proof.
  intros Hbody. split.
  - unfold KongTCPIngressSource.Endpoints_body,
      KongTCPIngressSource.endpointsFromTCPIngress in Hbody.
    destruct (negb _); [by injection Hbody|].
    destruct (getTTLFromAnnotations _) as [ttl [err|]]; [done|].
    destruct (getProviderSpecificAnnotations _).
    unfold bind, ret in Hbody. simpl in Hbody.
    case_decide; by injection Hbody.
  - intros e target He Htarget.
    apply kong_turn_endpoints in Hbody as [->| ->];
      [by apply elem_of_nil in He|].
    apply targetsFromIngress_elem.
    assert (exists e', Targets e = Targets e'
                       /\ e' ∈ KongTCPIngressSpec.fromAnnotation ti
                               ++ KongTCPIngressSpec.native ti)
      as (e' & Heq & He').
    { unfold KongTCPIngressSource.setDualstackLabel in He.
      destruct (_ !! ALBDualstackAnnotationKey); [case_decide|].
      - apply list_elem_of_fmap in He as (e1 & -> & He).
        apply list_elem_of_fmap in He as (e2 & -> & He). by exists e2.
      - apply list_elem_of_fmap in He as (e2 & -> & He). by exists e2.
      - apply list_elem_of_fmap in He as (e2 & -> & He). by exists e2. }
    rewrite Heq in Htarget.
    apply kong_pipeline_elem in He' as (Htargets & _).
    rewrite Htargets in Htarget.
    by apply list_elem_of_filter in Htarget as [_ ?].
Qed.

(** ** Targets without the target annotation *)

Lemma flat_map_synthesize_full (e : Endpoint) (annotations : gmap string string)
    (targets hostnames : list string) :
  e ∈ flat_map (synthesize annotations targets) hostnames ->
  Targets e <> [].
Proof.
  intros (hostname & _ & He)%list_elem_of_In%in_flat_map.
  by apply list_elem_of_In, synthesize_full in He as (_ & ? & _).
Qed.

Lemma httpproxy_pipeline_targets sc hp e :
  e ∈ HTTPProxySpec.native hp ++ HTTPProxySpec.fromAnnotation sc hp
      ++ HTTPProxySpec.usedTemplate sc hp ->
  Targets e <> [].
Proof.
  intros [He|[He|He]%elem_of_app]%elem_of_app.
  - unfold HTTPProxySpec.native in He.
    destruct (HTTPProxySource.Spec_VirtualHost hp) as [virtualHost|];
      [|by apply elem_of_nil in He].
    case_decide; [by apply elem_of_nil in He|].
    by apply synthesize_full in He as (_ & ? & _).
  - unfold HTTPProxySpec.fromAnnotation in He.
    destruct (HTTPProxySource.ignoreHostnameAnnotation sc);
      [by apply elem_of_nil in He|].
    by apply flat_map_synthesize_full in He.
  - unfold HTTPProxySpec.usedTemplate, HTTPProxySpec.fromTemplate in He.
    destruct (HTTPProxySource.fqdnTemplate sc) as [tmpl|];
      [|by apply elem_of_nil in He].
    destruct (_ || _); [|by apply elem_of_nil in He].
    destruct (tmpl hp); [|by apply elem_of_nil in He].
    by apply flat_map_synthesize_full in He.
Qed.

Lemma ingressroute_pipeline_targets sc c rt e :
  e ∈ IngressRouteSpec.native sc c rt ++ IngressRouteSpec.fromAnnotation sc c rt
      ++ IngressRouteSpec.usedTemplate sc c rt ->
  Targets e <> [].
Proof.
  intros [He|[He|He]%elem_of_app]%elem_of_app.
  - unfold IngressRouteSpec.native in He.
    destruct (IngressRouteSource.Spec_VirtualHost rt) as [virtualHost|];
      [|by apply elem_of_nil in He].
    case_decide; [by apply elem_of_nil in He|].
    by apply synthesize_full in He as (_ & ? & _).
  - unfold IngressRouteSpec.fromAnnotation in He.
    destruct (IngressRouteSource.ignoreHostnameAnnotation sc);
      [by apply elem_of_nil in He|].
    by apply flat_map_synthesize_full in He.
  - unfold IngressRouteSpec.usedTemplate, IngressRouteSpec.fromTemplate in He.
    destruct (IngressRouteSource.fqdnTemplate sc) as [tmpl|];
      [|by apply elem_of_nil in He].
    destruct (_ || _); [|by apply elem_of_nil in He].
    destruct (tmpl rt); [|by apply elem_of_nil in He].
    by apply flat_map_synthesize_full in He.
Qed.

(** A list of endpoints none of which can have a target is empty. *)
Lemma no_target_no_endpoint (eps : list Endpoint) :
  (forall e, e ∈ eps -> Targets e <> [] /\ Targets e = []) -> eps = [].
Proof.
  destruct eps as [|e eps]; [done|]. intros Hall.
  by destruct (Hall e ltac:(left)).
Qed.

(** X13: without targets in the target annotation (missing or empty), the
    targets of the endpoints of an HTTPProxy are non-empty IPs and
    hostnames of its own load-balancer status, those of an IngressRoute
    non-empty IPs and hostnames of the status of the load-balancer service
    of the source; when that status has no entry (or the service is not
    found) the resource gives no endpoint, without an error. *)
Theorem load_balancer_targets_without_annotation :
  (forall sc hp c,
      getTargetsFromTargetAnnotation (HTTPProxySource.Annotations hp) = [] ->
      (forall tmpl, HTTPProxySource.fqdnTemplate sc = Some tmpl ->
                    isOk (tmpl hp) = true) ->
      exists eps,
        (HTTPProxySource.Endpoints_body sc hp c).1 = Ok eps
        /\ (forall e target, e ∈ eps -> target ∈ Targets e ->
              target <> ""
              /\ exists lb,
                   lb ∈ HTTPProxySource.Status_LoadBalancer_Ingress hp
                   /\ (target = IP lb \/ target = Hostname lb))
        /\ (HTTPProxySource.Status_LoadBalancer_Ingress hp = [] -> eps = []))
  /\ (forall sc rt c,
         getTargetsFromTargetAnnotation (IngressRouteSource.Annotations rt) = [] ->
         (forall tmpl, IngressRouteSource.fqdnTemplate sc = Some tmpl ->
                       isOk (tmpl rt) = true) ->
         exists eps,
           (IngressRouteSource.Endpoints_body sc rt c).1 = Ok eps
           /\ (forall e target, e ∈ eps -> target ∈ Targets e ->
                 target <> ""
                 /\ exists svc lb,
                      Services c !! (IngressRouteSource.lbService_Namespace sc,
                                     IngressRouteSource.lbService_Name sc)
                      = Some svc
                      /\ lb ∈ Service_Status_LoadBalancer_Ingress svc
                      /\ (target = IP lb \/ target = Hostname lb))
           /\ ((forall svc,
                   Services c !! (IngressRouteSource.lbService_Namespace sc,
                                  IngressRouteSource.lbService_Name sc)
                   = Some svc ->
                   Service_Status_LoadBalancer_Ingress svc = []) ->
               eps = [])).
Proof.
  split.
  - intros sc hp c Hann Htmpl.
    assert (HTTPProxySpec.targets hp
            = targetsFromIngress (HTTPProxySource.Status_LoadBalancer_Ingress hp))
      as Htargets.
    { unfold HTTPProxySpec.targets. rewrite Hann. by rewrite decide_True. }
    destruct (HTTPProxySpec.kept sc hp) eqn:Hkept.
    + eexists. split; [by apply httpproxy_Endpoints_body_result|]. split.
      * intros e target (e' & -> & He)%list_elem_of_fmap Htarget.
        simpl in Htarget.
        apply httpproxy_pipeline_elem in He as [Heq _].
        rewrite Heq, Htargets in Htarget.
        apply list_elem_of_filter in Htarget as [_ Htarget].
        by apply targetsFromIngress_elem.
      * intros Hnil.
        rewrite (no_target_no_endpoint
                   (HTTPProxySpec.native hp ++ HTTPProxySpec.fromAnnotation sc hp
                    ++ HTTPProxySpec.usedTemplate sc hp)); [done|].
        intros e He. split; [by eapply httpproxy_pipeline_targets|].
        apply httpproxy_pipeline_elem in He as [-> _].
        by rewrite Htargets, Hnil.
    + exists []. rewrite httpproxy_not_kept by done.
      split; [done|]. split; [|done]. by intros e target ?%elem_of_nil.
  - intros sc rt c Hann Htmpl.
    assert (IngressRouteSpec.targets sc c rt
            = IngressRouteSpec.loadBalancerTargets sc c) as Htargets.
    { unfold IngressRouteSpec.targets. rewrite Hann. by rewrite decide_True. }
    destruct (IngressRouteSpec.kept sc rt) eqn:Hkept.
    + eexists. split; [by apply ingressroute_Endpoints_body_result|]. split.
      * intros e target (e' & -> & He)%list_elem_of_fmap Htarget.
        simpl in Htarget.
        apply ingressroute_pipeline_elem in He as [Heq _].
        rewrite Heq, Htargets in Htarget.
        apply list_elem_of_filter in Htarget as [_ Htarget].
        unfold IngressRouteSpec.loadBalancerTargets in Htarget.
        destruct (Services c !! _) as [svc|] eqn:Hsvc;
          [|by apply elem_of_nil in Htarget].
        apply targetsFromIngress_elem in Htarget as (? & lb & ? & ?).
        split; [done|]. by exists svc, lb.
      * intros Hnil.
        rewrite (no_target_no_endpoint
                   (IngressRouteSpec.native sc c rt
                    ++ IngressRouteSpec.fromAnnotation sc c rt
                    ++ IngressRouteSpec.usedTemplate sc c rt)); [done|].
        intros e He. split; [by eapply ingressroute_pipeline_targets|].
        apply ingressroute_pipeline_elem in He as [-> _].
        rewrite Htargets. unfold IngressRouteSpec.loadBalancerTargets.
        destruct (Services c !! _) as [svc|]; [|done].
        by rewrite (Hnil svc eq_refl).
    + exists []. rewrite ingressroute_not_kept by done.
      split; [done|]. split; [|done]. by intros e target ?%elem_of_nil.
Qed.

(** ** The flag that ignores the hostname annotation *)

(** X14: with the flag that ignores the hostname annotation set, every
    endpoint that endpointsFromHTTPProxy or endpointsFromIngressRoute
    returns is named after the non-empty FQDN of the virtual host of the
    resource (its trailing dot stripped): the hostname annotation gives
    none, and a resource without a virtual host gives none at all. *)
Theorem ignored_hostname_annotation :
  (forall sc hp c eps t,
      HTTPProxySource.ignoreHostnameAnnotation sc = true ->
      HTTPProxySource.endpointsFromHTTPProxy sc hp c = (Ok eps, t) ->
      forall e, e ∈ eps ->
        exists virtualHost,
          HTTPProxySource.Spec_VirtualHost hp = Some virtualHost
          /\ HTTPProxySource.Fqdn virtualHost <> ""
          /\ DNSName e
             = strings.TrimSuffix (HTTPProxySource.Fqdn virtualHost) ".")
  /\ (forall sc rt c eps t,
         IngressRouteSource.ignoreHostnameAnnotation sc = true ->
         IngressRouteSource.endpointsFromIngressRoute sc rt c = (Ok eps, t) ->
         forall e, e ∈ eps ->
           exists virtualHost,
             IngressRouteSource.Spec_VirtualHost rt = Some virtualHost
             /\ IngressRouteSource.Fqdn virtualHost <> ""
             /\ DNSName e
                = strings.TrimSuffix (IngressRouteSource.Fqdn virtualHost) ".").
Proof.
  split.
  - intros sc hp c eps t Hflag Hrun e He.
    destruct (decide (HTTPProxySource.Status_CurrentStatus hp = "valid"))
      as [Hvalid|Hinvalid].
    + pose proof (endpointsFromHTTPProxy_result sc hp c Hvalid) as Hresult.
      rewrite Hrun in Hresult. injection Hresult as ->.
      unfold HTTPProxySpec.fromAnnotation in He.
      rewrite Hflag, app_nil_r in He. unfold HTTPProxySpec.native in He.
      destruct (HTTPProxySource.Spec_VirtualHost hp) as [virtualHost|];
        [|by apply elem_of_nil in He].
      case_decide; [by apply elem_of_nil in He|].
      apply synthesize_elem in He as (? & _). by exists virtualHost.
    + unfold HTTPProxySource.endpointsFromHTTPProxy in Hrun.
      rewrite decide_True in Hrun by done.
      injection Hrun as <- _. by apply elem_of_nil in He.
  - intros sc rt c eps t Hflag Hrun e He.
    destruct (decide (IngressRouteSource.CurrentStatus rt = "valid"))
      as [Hvalid|Hinvalid].
    + pose proof (endpointsFromIngressRoute_result sc rt c Hvalid) as Hresult.
      rewrite Hrun in Hresult. injection Hresult as ->.
      unfold IngressRouteSpec.fromAnnotation in He.
      rewrite Hflag, app_nil_r in He. unfold IngressRouteSpec.native in He.
      destruct (IngressRouteSource.Spec_VirtualHost rt) as [virtualHost|];
        [|by apply elem_of_nil in He].
      case_decide; [by apply elem_of_nil in He|].
      apply synthesize_elem in He as (? & _). by exists virtualHost.
    + unfold IngressRouteSource.endpointsFromIngressRoute in Hrun.
      rewrite decide_True in Hrun by done.
      injection Hrun as <- _. by apply elem_of_nil in He.
Qed.

(** ** Gloo Proxies *)

Section GlooAnnotations.

Import GlooSource.

Variable c : Cluster.

(** What the loop over the sources of a virtual host went through when it
    ran to its end: one lookup for each source that is a virtual service,
    in order, and annotations that were there before or are those of one
    of these virtual services. *)
Lemma annotationsFromSources_Ok (sources : list VirtualHostMetadataSource)
    (acc annotations : gmap string string) (t : list event) :
  annotationsFromSources sources acc c = (Ok annotations, t) ->
  t = map (fun src => GetVirtualService (Source_Namespace src) (Source_Name src))
        (filter (fun src => Kind src = "*v1.VirtualService") sources)
  /\ forall key value, annotations !! key = Some value ->
       acc !! key = Some value
       \/ exists src a,
            src ∈ sources
            /\ Kind src = "*v1.VirtualService"
            /\ VirtualServices c !! (Source_Namespace src, Source_Name src)
               = Some a
            /\ a !! key = Some value.
Proof.
  revert acc t. induction sources as [|src sources IH]; intros acc t; simpl.
  - intros [= <- <-]. split; [done|]. auto.
  - rewrite filter_cons. case_decide as Hkind.
    + unfold bind at 1, getVirtualService. simpl.
      destruct (VirtualServices c !! _) as [a|] eqn:Ha; simpl; [|done].
      unfold bind, ret. simpl.
      destruct (annotationsFromSources sources (a ∪ acc) c) as [r t2] eqn:Hrest.
      intros [= -> <-].
      apply IH in Hrest as [-> Hfrom]. split; [done|].
      intros key value Hkv.
      destruct (Hfrom _ _ Hkv) as [Hu|(src' & a' & ? & ? & ? & ?)].
      * apply lookup_union_Some_raw in Hu as [Hu|[_ Hu]]; [right|by left].
        exists src, a. split; [by left|done].
      * right. exists src', a'. split; [by right|done].
    + intros Hrest. apply IH in Hrest as [-> Hfrom]. split; [done|].
      intros key value Hkv.
      destruct (Hfrom _ _ Hkv) as [Hu|(src' & a' & ? & ? & ? & ?)];
        [by left|].
      right. exists src', a'. split; [by right|done].
Qed.

Lemma annotationsFromSources_app (sources1 sources2 : list VirtualHostMetadataSource)
    (acc : gmap string string) :
  (annotationsFromSources (sources1 ++ sources2) acc c).1
  = match (annotationsFromSources sources1 acc c).1 with
    | Ok annotations => (annotationsFromSources sources2 annotations c).1
    | Err e => Err e
    end.
Proof.
  revert acc. induction sources1 as [|src sources1 IH]; intros acc; simpl;
    [done|].
  case_decide; [|apply IH].
  rewrite !bind_fst. unfold getVirtualService. simpl.
  destruct (VirtualServices c !! _) as [a|]; simpl; [|done].
  rewrite !bind_fst. simpl. apply IH.
Qed.

(** A virtual service that is not found stops the loop. *)
Lemma annotationsFromSources_missing (sources : list VirtualHostMetadataSource)
    (acc : gmap string string) (src : VirtualHostMetadataSource) :
  src ∈ sources ->
  Kind src = "*v1.VirtualService" ->
  VirtualServices c !! (Source_Namespace src, Source_Name src) = None ->
  isOk (annotationsFromSources sources acc c).1 = false.
Proof.
  intros Hsrc Hkind Hnone. revert acc.
  induction sources as [|src' sources IH]; intros acc;
    [by apply elem_of_nil in Hsrc|].
  simpl. apply elem_of_cons in Hsrc as [<-|Hsrc].
  - rewrite decide_True by done. rewrite bind_fst.
    unfold getVirtualService. simpl. by rewrite Hnone.
  - case_decide; [|by apply IH].
    rewrite bind_fst. unfold getVirtualService. simpl.
    destruct (VirtualServices c !! (Source_Namespace src', Source_Name src'))
      as [a|]; rewrite bind_fst; simpl; [by apply IH|done].
Qed.

(** Without targets a Proxy has no endpoint. *)
Lemma endpointsFromProxy_no_targets (gs : glooSource) (proxy : Proxy)
    (eps : list Endpoint) (t : list event) :
  endpointsFromProxy gs proxy [] c = (Ok eps, t) -> eps = [].
Proof.
  intros Hrun. apply no_target_no_endpoint. intros e He.
  unfold endpointsFromProxy in Hrun.
  destruct (forRange_elem_of _ _ _ _ _ _ _ Hrun He)
    as [?%elem_of_nil|(listener & part & t1 & _ & Hlistener & Hpart)]; [done|].
  destruct (forRange_elem_of _ _ _ _ _ _ _ Hlistener Hpart)
    as [?%elem_of_nil|(vhost & part' & t2 & _ & Hvhost & Hpart')]; [done|].
  apply bind_Ok in Hvhost as (annotations & t3 & t4 & _ & Hvhost & _).
  destruct (getTTLFromAnnotations _) as [ttl [err|]]; [done|].
  destruct (getProviderSpecificAnnotations _) as [providerSpecific setIdentifier].
  injection Hvhost as <- _.
  apply list_elem_of_In, in_flat_map in Hpart' as (domain & _ & Hdomain).
  apply list_elem_of_In, endpointsForHostname_elem in Hdomain
      as (_ & Heq & Hne & _).
  done.
Qed.

End GlooAnnotations.

(** X15: the annotations of a virtual host of a Gloo Proxy come from its
    sources of kind "*v1.VirtualService" only: these are looked up one
    after the other, in the order of the sources, no other source is
    looked up, and every annotation returned is an annotation of one of
    these virtual services. *)
Theorem gloo_annotations_from_virtual_services
    (gs : GlooSource.glooSource) (vhost : GlooSource.VirtualHost)
    (c : Cluster) (annotations : gmap string string) (t : list event) :
  GlooSource.annotationsFromVirtualHost gs vhost c = (Ok annotations, t) ->
  t = map (fun src => GetVirtualService (GlooSource.Source_Namespace src)
                        (GlooSource.Source_Name src))
        (filter (fun src => GlooSource.Kind src = "*v1.VirtualService")
           (GlooSource.Metadata_Source vhost))
  /\ forall key value, annotations !! key = Some value ->
       exists src a,
         src ∈ GlooSource.Metadata_Source vhost
         /\ GlooSource.Kind src = "*v1.VirtualService"
         /\ VirtualServices c !! (GlooSource.Source_Namespace src,
                                  GlooSource.Source_Name src) = Some a
         /\ a !! key = Some value.
Proof.
  intros Hrun. unfold GlooSource.annotationsFromVirtualHost in Hrun.
  apply annotationsFromSources_Ok in Hrun as [-> Hfrom]. split; [done|].
  intros key value Hkv. by destruct (Hfrom _ _ Hkv) as [?|?].
Qed.

(** X16: a virtual service named by a virtual host of a Proxy and not
    found stops the pass of the Gloo adapter with an error: no endpoint is
    returned, for any Proxy. *)
Theorem gloo_missing_virtual_service_fails_pass
    (gs : GlooSource.glooSource) (proxies : list GlooSource.Proxy)
    (c : Cluster) (p : GlooSource.Proxy) (listener : GlooSource.Listener)
    (vhost : GlooSource.VirtualHost)
    (src : GlooSource.VirtualHostMetadataSource) :
  p ∈ proxies ->
  listener ∈ GlooSource.Spec_Listeners p ->
  vhost ∈ GlooSource.HTTPListener_VirtualHosts listener ->
  src ∈ GlooSource.Metadata_Source vhost ->
  GlooSource.Kind src = "*v1.VirtualService" ->
  VirtualServices c !! (GlooSource.Source_Namespace src,
                        GlooSource.Source_Name src) = None ->
  isOk (GlooSource.Endpoints gs proxies c).1 = false.
Proof.
  intros Hp Hlistener Hvhost Hsrc Hkind Hnone.
  unfold GlooSource.Endpoints. apply (forRange_fails _ _ p); [done|].
  unfold GlooSource.Endpoints_body. rewrite bind_fst.
  destruct (GlooSource.proxyTargets gs _ c).1 as [targets|e]; [|done].
  unfold GlooSource.endpointsFromProxy.
  apply (forRange_fails _ _ listener); [done|].
  apply (forRange_fails _ _ vhost); [done|].
  rewrite bind_fst. unfold GlooSource.annotationsFromVirtualHost.
  pose proof (annotationsFromSources_missing c _ ∅ src Hsrc Hkind Hnone)
    as Hfail.
  by destruct (GlooSource.annotationsFromSources _ ∅ c).1.
Qed.

(** X17: the annotations of a virtual service named later among the
    sources of a virtual host overwrite those of the virtual services
    named before it: with one more virtual service at the end of the
    sources, every annotation it has is returned with its value, and the
    keys it does not have keep what the earlier sources gave. *)
Theorem gloo_later_virtual_service_overwrites
    (gs : GlooSource.glooSource) (domains : list string)
    (sources : list GlooSource.VirtualHostMetadataSource)
    (src : GlooSource.VirtualHostMetadataSource) (c : Cluster)
    (earlier a : gmap string string) :
  (GlooSource.annotationsFromVirtualHost gs
     {| GlooSource.Domains := domains;
        GlooSource.Metadata_Source := sources |} c).1 = Ok earlier ->
  GlooSource.Kind src = "*v1.VirtualService" ->
  VirtualServices c !! (GlooSource.Source_Namespace src,
                        GlooSource.Source_Name src) = Some a ->
  exists annotations,
    (GlooSource.annotationsFromVirtualHost gs
       {| GlooSource.Domains := domains;
          GlooSource.Metadata_Source := sources ++ [src] |} c).1
    = Ok annotations
    /\ (forall key value, a !! key = Some value ->
          annotations !! key = Some value)
    /\ (forall key, a !! key = None -> annotations !! key = earlier !! key).
Proof.
  unfold GlooSource.annotationsFromVirtualHost. simpl.
  intros Hearlier Hkind Ha. exists (a ∪ earlier). split; [|split].
  - rewrite annotationsFromSources_app, Hearlier. simpl.
    rewrite decide_True by done. rewrite bind_fst.
    unfold getVirtualService. simpl. by rewrite Ha.
  - intros key value Hkv. by apply lookup_union_Some_l.
  - intros key Hnone. by apply lookup_union_r.
Qed.

(** X18: when the service of a Proxy is found and is not of type
    LoadBalancer, the Gloo adapter logs a warning and resolves no target,
    and the Proxy adds no endpoint to the pass, whatever its domains. *)
Theorem gloo_service_type_not_supported
    (gs : GlooSource.glooSource) (p : GlooSource.Proxy) (c : Cluster)
    (svc : Service) :
  Services c !! (GlooSource.namespace gs, GlooSource.Name p) = Some svc ->
  Service_Spec_Type svc <> ServiceTypeLoadBalancer ->
  GlooSource.proxyTargets gs (GlooSource.Name p) c
  = (Ok [], [GetService (GlooSource.namespace gs) (GlooSource.Name p);
             Warn "Gloo: Proxy service type not supported"])
  /\ forall eps, (GlooSource.Endpoints_body gs p c).1 = Ok eps -> eps = [].
Proof.
  intros Hsvc Htype.
  assert (GlooSource.proxyTargets gs (GlooSource.Name p) c
          = (Ok [], [GetService (GlooSource.namespace gs) (GlooSource.Name p);
                     Warn "Gloo: Proxy service type not supported"]))
    as Htargets.
  { unfold GlooSource.proxyTargets, bind, getService. simpl.
    rewrite Hsvc. simpl. by rewrite decide_False. }
  split; [done|]. intros eps.
  unfold GlooSource.Endpoints_body. rewrite bind_fst, Htargets. simpl.
  destruct (GlooSource.endpointsFromProxy gs p [] c) as [r t] eqn:Hrun.
  simpl. intros ->. by eapply endpointsFromProxy_no_targets.
Qed.

(** ** What a pass looks up *)

Section Traces.

Context (P : event -> Prop).

Lemma traces_ret {A} (a : A) : traces P (ret a).
Proof. intros c. constructor. Qed.

Lemma traces_fail {A} (e : error) : traces P (@fail A e).
Proof. intros c. constructor. Qed.

Lemma traces_try {A} (r : result A) : traces P (try r).
Proof. destruct r; [apply traces_ret|apply traces_fail]. Qed.

(** The continuation is only run on what the first computation can
    return. *)
Lemma traces_bind {A B} (m : M A) (k : A -> M B) :
  traces P m ->
  (forall a, (exists c t, m c = (Ok a, t)) -> traces P (k a)) ->
  traces P (x <- m ;; k x).
Proof.
  intros Hm Hk c. unfold bind. specialize (Hm c).
  destruct (m c) as [[a|e] t1] eqn:Hrun; [|done].
  specialize (Hk a ltac:(by exists c, t1) c).
  destruct (k a c) as [r t2]. simpl in *. by apply Forall_app.
Qed.

Lemma traces_wrap {A} (m : M A) (msg : string) :
  traces P m -> traces P (wrap m msg).
Proof.
  intros Hm c. unfold wrap. specialize (Hm c).
  by destruct (m c) as [[a|e] t].
Qed.

Lemma traces_logWarn (msg : string) : P (Warn msg) -> traces P (logWarn msg).
Proof. intros Hmsg c. by repeat constructor. Qed.

Lemma traces_warnIfError (err : option error) :
  (forall msg, P (Warn msg)) -> traces P (warnIfError err).
Proof. intros Hwarn. destruct err; [by apply traces_logWarn|apply traces_ret]. Qed.

Lemma traces_getService (namespace name : string) :
  P (GetService namespace name) -> traces P (getService namespace name).
Proof. intros Hget c. by repeat constructor. Qed.

Lemma traces_getVirtualService (namespace name : string) :
  P (GetVirtualService namespace name) ->
  traces P (getVirtualService namespace name).
Proof. intros Hget c. by repeat constructor. Qed.

Lemma traces_forRange {A B} (body : A -> M (list B)) (xs : list A)
    (acc : list B) :
  (forall x, x ∈ xs -> traces P (body x)) -> traces P (forRange body xs acc).
Proof.
  revert acc. induction xs as [|x xs IH]; intros acc Hbody; simpl;
    [apply traces_ret|].
  apply traces_bind; [apply Hbody; by left|]. intros new _.
  apply IH. intros y Hy. apply Hbody. by right.
Qed.

Lemma traces_annotationsFromSources
    (sources : list GlooSource.VirtualHostMetadataSource)
    (acc : gmap string string) :
  (forall src, src ∈ sources ->
               GlooSource.Kind src = "*v1.VirtualService" ->
               P (GetVirtualService (GlooSource.Source_Namespace src)
                    (GlooSource.Source_Name src))) ->
  traces P (GlooSource.annotationsFromSources sources acc).
Proof.
  revert acc. induction sources as [|src sources IH]; intros acc Hget; simpl;
    [apply traces_ret|].
  assert (forall acc', traces P (GlooSource.annotationsFromSources sources acc'))
    as Hrest by (intros acc'; apply IH; intros; apply Hget; [by right|done]).
  case_decide; [|done].
  apply traces_bind;
    [apply traces_getVirtualService, Hget; [by left|done]|]. intros svc _.
  apply traces_bind; [apply traces_try|]. done.
Qed.

End Traces.

Lemma traces_mono {A} (P Q : event -> Prop) (m : M A) :
  (forall ev, P ev -> Q ev) -> traces P m -> traces Q m.
Proof. intros HPQ Hm c. eapply Forall_impl; [apply Hm|done]. Qed.

Ltac trace_step :=
  match goal with
  | |- traces _ (ret _) => apply traces_ret
  | |- traces _ (fail _) => apply traces_fail
  | |- traces _ (try _) => apply traces_try
  | |- traces _ (wrap _ _) => apply traces_wrap
  | |- traces _ (bind _ _) => apply traces_bind; [|intros ? _]
  | |- traces _ (logWarn _) => apply traces_logWarn
  | |- traces _ (warnIfError _) => apply traces_warnIfError; intros ?
  | |- traces _ (getService _ _) => apply traces_getService
  | |- traces _ (forRange _ _ _) => apply traces_forRange; intros ? ?
  | |- traces _ (let _ := _ in _) => cbv zeta
  | |- traces _ (match ?x with _ => _ end) => destruct x
  end.

(** X19: what a pass reads beside the resources it is given. The
    HTTPProxy adapter looks no service up (its trace holds warnings only);
    the IngressRoute adapter looks up no service but the load-balancer
    service of the source; the Kong TCPIngress adapter looks nothing up
    and logs no warning; the Ambassador Host adapter logs no warning and
    looks up only the services that the annotations of its Hosts name; the
    Gloo adapter looks up, among the services, only those of the namespace
    of the source that carry the name of a Proxy, and its only warning is
    that of a service type that is not supported. *)
Theorem adapters_lookups :
  (forall sc hps, traces isWarn (HTTPProxySource.Endpoints sc hps))
  /\ (forall sc rts,
         traces (fun ev =>
                   isWarn ev
                   \/ ev = GetService (IngressRouteSource.lbService_Namespace sc)
                             (IngressRouteSource.lbService_Name sc))
           (IngressRouteSource.Endpoints sc rts))
  /\ (forall sc tis, traces (fun _ => False)
                       (KongTCPIngressSource.Endpoints sc tis))
  /\ (forall sc hosts,
         traces (fun ev =>
                   exists host service namespace name,
                     host ∈ hosts
                     /\ AmbassadorHostSource.Annotations host
                          !! AmbassadorHostSource.ambHostAnnotation
                        = Some service
                     /\ parseAmbLoadBalancerService service
                        = Ok (namespace, name)
                     /\ ev = GetService namespace name)
           (AmbassadorHostSource.Endpoints sc hosts))
  /\ (forall gs proxies,
         traces (fun ev =>
                   (exists p, p ∈ proxies
                              /\ ev = GetService (GlooSource.namespace gs)
                                        (GlooSource.Name p))
                   \/ (exists namespace name,
                         ev = GetVirtualService namespace name)
                   \/ ev = Warn "Gloo: Proxy service type not supported")
           (GlooSource.Endpoints gs proxies)).
Proof.
  split; [|split; [|split; [|split]]].
  - intros sc hps.
    unfold HTTPProxySource.Endpoints, HTTPProxySource.Endpoints_body,
      HTTPProxySource.endpointsFromHTTPProxy,
      HTTPProxySource.endpointsFromTemplate.
    repeat trace_step; done.
  - intros sc rts.
    unfold IngressRouteSource.Endpoints, IngressRouteSource.Endpoints_body,
      IngressRouteSource.endpointsFromIngressRoute,
      IngressRouteSource.endpointsFromTemplate,
      IngressRouteSource.targetsFromContourLoadBalancer.
    repeat trace_step; first [by left|by right].
  - intros sc tis.
    unfold KongTCPIngressSource.Endpoints, KongTCPIngressSource.Endpoints_body,
      KongTCPIngressSource.endpointsFromTCPIngress.
    repeat trace_step.
  - intros sc hosts.
    unfold AmbassadorHostSource.Endpoints. trace_step; [|trace_step].
    apply traces_forRange. intros host Hhost.
    unfold AmbassadorHostSource.Endpoints_body.
    destruct (_ !! AmbassadorHostSource.ambHostAnnotation) as [service|] eqn:Hann;
      [|trace_step].
    apply traces_bind.
    + unfold AmbassadorHostSource.targetsFromAmbassadorLoadBalancer.
      apply traces_bind; [trace_step|].
      intros [namespace name] (c & t & Hparse).
      unfold try in Hparse.
      destruct (parseAmbLoadBalancerService service) as [lb|e] eqn:Hlb;
        [|done].
      injection Hparse as -> _.
      apply traces_bind; [|intros; repeat trace_step].
      apply traces_getService. by exists host, service, namespace, name.
    + intros targets _. unfold AmbassadorHostSource.endpointsFromHost.
      repeat trace_step.
  - intros gs proxies. unfold GlooSource.Endpoints.
    apply traces_forRange. intros p Hp.
    unfold GlooSource.Endpoints_body, GlooSource.proxyTargets,
      GlooSource.endpointsFromProxy, GlooSource.annotationsFromVirtualHost.
    repeat trace_step.
    + left. by exists p.
    + by right; right.
    + apply traces_annotationsFromSources. intros src _ _.
      right; left. by eexists _, _.
Qed.

(** ** Where the endpoints of a pass come from *)

Lemma sortTargets_elem (target : string) (ep : Endpoint) :
  target ∈ Targets (sortTargets ep) <-> target ∈ Targets ep.
Proof. simpl. by rewrite merge_sort_Permutation. Qed.

Lemma try_Ok {A} (r : result A) (c : Cluster) (a : A) (t : list event) :
  try r c = (Ok a, t) -> r = Ok a.
Proof. destruct r; [by intros [= ->]|done]. Qed.

Lemma getService_Ok (namespace name : string) (c : Cluster)
    (r : result Service) (t : list event) (svc : Service) :
  getService namespace name c = (Ok r, t) ->
  r = Ok svc ->
  Services c !! (namespace, name) = Some svc.
Proof.
  unfold getService. intros [= <- _].
  by destruct (Services c !! _); intros [= ->].
Qed.

(** X20: every endpoint of a pass of the Ambassador adapter comes from a
    Host that carries the service annotation: the reference parses, the
    service it names is found, the endpoint is named after the non-empty
    hostname of the spec of the Host, has the TTL of its annotations, and
    each of its targets is a non-empty IP or hostname of the load-balancer
    status of that service, whatever the type of the service and whatever
    other annotation the Host carries. *)
Theorem ambassador_endpoint_provenance
    (sc : AmbassadorHostSource.ambassadorHostSource)
    (hosts : list AmbassadorHostSource.Host) (c : Cluster)
    (eps : list Endpoint) (tr : list event) :
  AmbassadorHostSource.Endpoints sc hosts c = (Ok eps, tr) ->
  forall e, e ∈ eps ->
    exists host service lbNamespace lbName svc spec,
      host ∈ hosts
      /\ AmbassadorHostSource.Annotations host
           !! AmbassadorHostSource.ambHostAnnotation = Some service
      /\ parseAmbLoadBalancerService service = Ok (lbNamespace, lbName)
      /\ Services c !! (lbNamespace, lbName) = Some svc
      /\ AmbassadorHostSource.Spec host = Some spec
      /\ AmbassadorHostSource.Spec_Hostname spec <> ""
      /\ DNSName e
         = strings.TrimSuffix (AmbassadorHostSource.Spec_Hostname spec) "."
      /\ RecordTTL e
         = (getTTLFromAnnotations (AmbassadorHostSource.Annotations host)).1
      /\ forall target, target ∈ Targets e ->
           target <> ""
           /\ exists lb,
                lb ∈ Service_Status_LoadBalancer_Ingress svc
                /\ (target = IP lb \/ target = Hostname lb).
Proof.
  intros Hrun e He.
  apply sorted_pass_result in Hrun as (endpoints & Hrun & ->).
  apply list_elem_of_fmap in He as (e' & -> & He).
  destruct (forRange_elem_of _ _ _ _ _ _ _ Hrun He)
    as [?%elem_of_nil|(host & part & t & Hhost & Hbody & Hpart)]; [done|].
  unfold AmbassadorHostSource.Endpoints_body in Hbody.
  destruct (_ !! AmbassadorHostSource.ambHostAnnotation) as [service|] eqn:Hann;
    [|injection Hbody as <- _; by apply elem_of_nil in Hpart].
  apply bind_Ok in Hbody as (targets & t1 & t2 & Htargets & Hbody & _).
  apply bind_Ok in Hbody as (hostEndpoints & t3 & t4 & Hends & Hlast & _).
  case_decide; injection Hlast as <- _; [by apply elem_of_nil in Hpart|].
  unfold AmbassadorHostSource.targetsFromAmbassadorLoadBalancer in Htargets.
  apply bind_Ok in Htargets as ([lbNamespace lbName] & t5 & t6 & Hparse & Htargets & _).
  apply try_Ok in Hparse.
  apply bind_Ok in Htargets as (found & t7 & t8 & Hget & Htargets & _).
  apply bind_Ok in Htargets as (svc & t9 & t10 & Hfound & Htargets & _).
  apply try_Ok in Hfound. injection Htargets as <- _.
  pose proof (getService_Ok _ _ _ _ _ _ Hget Hfound) as Hsvc. simpl in Hsvc.
  unfold AmbassadorHostSource.endpointsFromHost in Hends.
  destruct (getTTLFromAnnotations _) as [ttl [err|]] eqn:Hannotated; [done|].
  destruct (AmbassadorHostSource.Spec host) as [spec|] eqn:Hspec;
    [|injection Hends as <- _; by apply elem_of_nil in Hpart].
  case_decide; injection Hends as <- _; [|by apply elem_of_nil in Hpart].
  apply endpointsForHostname_elem in Hpart as (Hname & Heq & _ & Httl & _).
  exists host, service, lbNamespace, lbName, svc, spec.
  rewrite Hannotated.
  repeat (split; [done|]).
  intros target Htarget. apply (proj1 (sortTargets_elem _ _)) in Htarget.
  rewrite Heq in Htarget. apply list_elem_of_filter in Htarget as [_ Htarget].
  by apply targetsFromIngress_elem.
Qed.

(** X21: every endpoint of a pass of the Gloo adapter comes from a domain
    of a virtual host of a listener of one of the Proxies: the service of
    the namespace of the source that carries the name of the Proxy is
    found and is of type LoadBalancer, the targets of the endpoint are the
    addresses of its status that suit the record type, in the order of the
    status, and the endpoint carries no label. *)
Theorem gloo_endpoint_provenance
    (gs : GlooSource.glooSource) (proxies : list GlooSource.Proxy)
    (c : Cluster) (eps : list Endpoint) (tr : list event) :
  GlooSource.Endpoints gs proxies c = (Ok eps, tr) ->
  forall e, e ∈ eps ->
    exists p listener vhost domain svc,
      p ∈ proxies
      /\ listener ∈ GlooSource.Spec_Listeners p
      /\ vhost ∈ GlooSource.HTTPListener_VirtualHosts listener
      /\ domain ∈ GlooSource.Domains vhost
      /\ DNSName e = strings.TrimSuffix (strings.TrimSuffix domain ".") "."
      /\ Services c !! (GlooSource.namespace gs, GlooSource.Name p) = Some svc
      /\ Service_Spec_Type svc = ServiceTypeLoadBalancer
      /\ Targets e
         = filter (fun t => suitableType t = RecordType e)
             (targetsFromIngress (Service_Status_LoadBalancer_Ingress svc))
      /\ Labels e = ∅.
Proof.
  intros Hrun e He. unfold GlooSource.Endpoints in Hrun.
  destruct (forRange_elem_of _ _ _ _ _ _ _ Hrun He)
    as [?%elem_of_nil|(p & part & t & Hp & Hbody & Hpart)]; [done|].
  unfold GlooSource.Endpoints_body in Hbody.
  apply bind_Ok in Hbody as (targets & t1 & t2 & Htargets & Hbody & _).
  unfold GlooSource.endpointsFromProxy in Hbody.
  destruct (forRange_elem_of _ _ _ _ _ _ _ Hbody Hpart)
    as [?%elem_of_nil|(listener & part1 & t3 & Hlistener & Hbody1 & Hpart1)];
    [done|].
  destruct (forRange_elem_of _ _ _ _ _ _ _ Hbody1 Hpart1)
    as [?%elem_of_nil|(vhost & part2 & t4 & Hvhost & Hbody2 & Hpart2)];
    [done|].
  apply bind_Ok in Hbody2 as (annotations & t5 & t6 & _ & Hbody2 & _).
  destruct (getTTLFromAnnotations _) as [ttl [err|]]; [done|].
  destruct (getProviderSpecificAnnotations _) as [providerSpecific setIdentifier].
  injection Hbody2 as <- _.
  apply list_elem_of_In, in_flat_map in Hpart2 as (domain & Hdomain & Hpart2).
  apply list_elem_of_In in Hdomain.
  apply list_elem_of_In, endpointsForHostname_elem in Hpart2
      as (Hname & Heq & Hne & _ & Hlabels).
  unfold GlooSource.proxyTargets in Htargets.
  apply bind_Ok in Htargets as (found & t7 & t8 & Hget & Htargets & _).
  apply bind_Ok in Htargets as (svc & t9 & t10 & Hfound & Htargets & _).
  apply try_Ok in Hfound.
  pose proof (getService_Ok _ _ _ _ _ _ Hget Hfound) as Hsvc.
  exists p, listener, vhost, domain, svc.
  repeat (split; [done|]).
  case_decide as Htype.
  - injection Htargets as <- _. done.
  - apply bind_Ok in Htargets as (? & ? & ? & _ & Hret & _).
    injection Hret as <- _. by rewrite Heq in Hne.
Qed.

(** ** The errors of a pass *)

Section PassErrors.

Context {A : Type} (body : A -> M (list Endpoint)) (c : Cluster).

(** The error of a loop is the error of one of its turns. *)
Lemma forRange_Err (xs : list A) (acc : list Endpoint) (e : error) :
  (forRange body xs acc c).1 = Err e ->
  exists x, x ∈ xs /\ (body x c).1 = Err e.
Proof.
  revert acc. induction xs as [|x xs IH]; intros acc; simpl; [done|].
  rewrite bind_fst. destruct (body x c).1 as [new|e'] eqn:Hx.
  - intros (y & Hy & Hbody)%IH. exists y. split; [by right|done].
  - intros [= ->]. exists x. split; [by left|done].
Qed.

Lemma sorted_pass_Err (xs : list A) (e : error) :
  ((endpoints <- forRange body xs [] ;; ret (map sortTargets endpoints)) c).1
  = Err e ->
  exists x, x ∈ xs /\ (body x c).1 = Err e.
Proof.
  rewrite bind_fst.
  destruct (forRange body xs [] c).1 as [eps|e'] eqn:Hloop; [done|].
  intros [= ->]. by apply forRange_Err in Hloop.
Qed.

End PassErrors.

Lemma httpproxy_turn_Err sc hp c e :
  (HTTPProxySource.Endpoints_body sc hp c).1 = Err e ->
  exists tmpl err,
    HTTPProxySpec.kept sc hp = true
    /\ HTTPProxySource.fqdnTemplate sc = Some tmpl
    /\ tmpl hp = Err err
    /\ e = "failed to get endpoints from template: "
           +:+ "failed to apply template on HTTPProxy "
           +:+ HTTPProxySource.Namespace hp +:+ "/"
           +:+ HTTPProxySource.Name hp +:+ ": " +:+ err.
Proof.
  intros Hbody.
  destruct (HTTPProxySpec.kept sc hp) eqn:Hkept;
    [|by rewrite httpproxy_not_kept in Hbody].
  destruct (HTTPProxySource.fqdnTemplate sc) as [tmpl|] eqn:Hfqdn.
  - destruct (tmpl hp) as [rendered|err] eqn:Hrender.
    + rewrite httpproxy_Endpoints_body_result in Hbody; [done..|].
      intros tmpl' Htmpl. assert (tmpl' = tmpl) as -> by congruence.
      by rewrite Hrender.
    + exists tmpl, err. repeat (split; [done|]).
      unfold HTTPProxySpec.kept in Hkept.
      apply andb_prop in Hkept
          as [[Hsel Hctl]%andb_prop Hvalid%bool_decide_eq_true].
      apply negb_true_iff in Hctl.
      unfold HTTPProxySource.Endpoints_body in Hbody.
      rewrite Hsel, Hctl in Hbody. simpl in Hbody.
      rewrite decide_False in Hbody by (by intros ?).
      rewrite bind_fst,
        (wrap_Ok_result _ _ _ _ (endpointsFromHTTPProxy_result sc hp c Hvalid))
        in Hbody.
      rewrite bind_fst, Hfqdn in Hbody.
      destruct (_ || _).
      * rewrite bind_fst in Hbody.
        unfold wrap, HTTPProxySource.endpointsFromTemplate, fail in Hbody.
        rewrite Hrender in Hbody. simpl in Hbody. by injection Hbody as <-.
      * simpl in Hbody. by case_decide.
  - rewrite httpproxy_Endpoints_body_result in Hbody; [done..|].
    intros tmpl' Htmpl. congruence.
Qed.

Lemma ingressroute_turn_Err sc rt c e :
  (IngressRouteSource.Endpoints_body sc rt c).1 = Err e ->
  exists tmpl err,
    IngressRouteSpec.kept sc rt = true
    /\ IngressRouteSource.fqdnTemplate sc = Some tmpl
    /\ tmpl rt = Err err
    /\ e = "failed to apply template on ingressroute "
           +:+ IngressRouteSource.Namespace rt +:+ "/"
           +:+ IngressRouteSource.Name rt +:+ ": " +:+ err.
Proof.
  intros Hbody.
  destruct (IngressRouteSpec.kept sc rt) eqn:Hkept;
    [|by rewrite ingressroute_not_kept in Hbody].
  destruct (IngressRouteSource.fqdnTemplate sc) as [tmpl|] eqn:Hfqdn.
  - destruct (tmpl rt) as [rendered|err] eqn:Hrender.
    + rewrite ingressroute_Endpoints_body_result in Hbody; [done..|].
      intros tmpl' Htmpl. assert (tmpl' = tmpl) as -> by congruence.
      by rewrite Hrender.
    + exists tmpl, err. repeat (split; [done|]).
      unfold IngressRouteSpec.kept in Hkept.
      apply andb_prop in Hkept
          as [[Hsel Hctl]%andb_prop Hvalid%bool_decide_eq_true].
      apply negb_true_iff in Hctl.
      unfold IngressRouteSource.Endpoints_body in Hbody.
      rewrite Hsel, Hctl in Hbody. simpl in Hbody.
      rewrite decide_False in Hbody by (by intros ?).
      rewrite bind_fst, (endpointsFromIngressRoute_result sc rt c Hvalid)
        in Hbody.
      rewrite bind_fst, Hfqdn in Hbody.
      destruct (_ || _).
      * rewrite bind_fst in Hbody.
        unfold IngressRouteSource.endpointsFromTemplate, fail in Hbody.
        rewrite Hrender in Hbody. simpl in Hbody. by injection Hbody as <-.
      * simpl in Hbody. by case_decide.
  - rewrite ingressroute_Endpoints_body_result in Hbody; [done..|].
    intros tmpl' Htmpl. congruence.
Qed.

(** X22: a pass of the HTTPProxy or of the IngressRoute adapter returns
    an error only when the List of the lister fails, and then that error
    as it is, before anything else is done, or when the template of the
    source fails to render on a listed resource that passes the filters;
    the error then names the resource. *)
Theorem contour_pass_errors :
  (forall sc listed c e,
      (HTTPProxySource.EndpointsFromLister sc listed c).1 = Err e ->
      listed = Err e
      \/ exists hps hp tmpl err,
           listed = Ok hps
           /\ hp ∈ hps
           /\ HTTPProxySpec.kept sc hp = true
           /\ HTTPProxySource.fqdnTemplate sc = Some tmpl
           /\ tmpl hp = Err err
           /\ e = "failed to get endpoints from template: "
                  +:+ "failed to apply template on HTTPProxy "
                  +:+ HTTPProxySource.Namespace hp +:+ "/"
                  +:+ HTTPProxySource.Name hp +:+ ": " +:+ err)
  /\ (forall sc c e,
         HTTPProxySource.EndpointsFromLister sc (Err e) c = (Err e, []))
  /\ (forall sc listed c e,
         (IngressRouteSource.EndpointsFromLister sc listed c).1 = Err e ->
         listed = Err e
         \/ exists rts rt tmpl err,
              listed = Ok rts
              /\ rt ∈ rts
              /\ IngressRouteSpec.kept sc rt = true
              /\ IngressRouteSource.fqdnTemplate sc = Some tmpl
              /\ tmpl rt = Err err
              /\ e = "failed to apply template on ingressroute "
                     +:+ IngressRouteSource.Namespace rt +:+ "/"
                     +:+ IngressRouteSource.Name rt +:+ ": " +:+ err)
  /\ (forall sc c e,
         IngressRouteSource.EndpointsFromLister sc (Err e) c = (Err e, [])).
Proof.
  split; [|split; [done|split; [|done]]].
  - intros sc [hps|e'] c e; unfold HTTPProxySource.EndpointsFromLister;
      rewrite bind_fst; simpl; [|intros [= ->]; by left].
    intros (hp & Hhp & Hbody)%sorted_pass_Err. right.
    apply httpproxy_turn_Err in Hbody as (tmpl & err & ?).
    by exists hps, hp, tmpl, err.
  - intros sc [rts|e'] c e; unfold IngressRouteSource.EndpointsFromLister;
      rewrite bind_fst; simpl; [|intros [= ->]; by left].
    intros (rt & Hrt & Hbody)%sorted_pass_Err. right.
    apply ingressroute_turn_Err in Hbody as (tmpl & err & ?).
    by exists rts, rt, tmpl, err.
Qed.

(** X23: a pass of the Kong TCPIngress adapter returns an error only
    when the List of the lister fails, and then that error as it is, or
    for a listed TCPIngress that the selector matches, and then the error
    of its TTL annotation. *)
Theorem kong_pass_errors
    (sc : KongTCPIngressSource.kongTCPIngressSource)
    (listed : result (list KongTCPIngressSource.TCPIngress)) (c : Cluster)
    (e : error) :
  (KongTCPIngressSource.EndpointsFromLister sc listed c).1 = Err e ->
  listed = Err e
  \/ exists tis ti,
       listed = Ok tis
       /\ ti ∈ tis
       /\ KongTCPIngressSource.annotationSelector sc
            (KongTCPIngressSource.Annotations ti) = true
       /\ (getTTLFromAnnotations (KongTCPIngressSource.Annotations ti)).2
          = Some e.
Proof.
  unfold KongTCPIngressSource.EndpointsFromLister. rewrite bind_fst.
  destruct listed as [tis|e']; simpl; [|intros [= ->]; by left].
  intros (ti & Hti & Hbody)%sorted_pass_Err. right.
  exists tis, ti. split; [done|]. split; [done|].
  destruct (KongTCPIngressSource.annotationSelector sc _) eqn:Hsel.
  - destruct (getTTLFromAnnotations (KongTCPIngressSource.Annotations ti))
      as [ttl [err|]] eqn:Httl.
    + unfold KongTCPIngressSource.Endpoints_body,
        KongTCPIngressSource.endpointsFromTCPIngress in Hbody.
      rewrite Hsel, Httl in Hbody. simpl in Hbody. by injection Hbody as ->.
    + rewrite kong_Endpoints_body_result in Hbody; [done..|].
      by rewrite Httl.
  - unfold KongTCPIngressSource.Endpoints_body in Hbody.
    by rewrite Hsel in Hbody.
Qed.

(** X24: a pass of the Ambassador Host adapter returns an error only
    when the List of the lister fails, and then that error as it is, or
    for a listed Host that carries the service annotation, and then the
    error of the parser of the reference, the error that the lookup of the
    service it names returned, or the error of the TTL annotation of the
    Host. *)
Theorem ambassador_pass_errors
    (sc : AmbassadorHostSource.ambassadorHostSource)
    (listed : result (list AmbassadorHostSource.Host)) (c : Cluster)
    (e : error) :
  (AmbassadorHostSource.EndpointsFromLister sc listed c).1 = Err e ->
  listed = Err e
  \/ exists hosts host service,
       listed = Ok hosts
       /\ host ∈ hosts
       /\ AmbassadorHostSource.Annotations host
            !! AmbassadorHostSource.ambHostAnnotation = Some service
       /\ (parseAmbLoadBalancerService service = Err e
           \/ (exists lbNamespace lbName,
                 parseAmbLoadBalancerService service
                 = Ok (lbNamespace, lbName)
                 /\ (getService lbNamespace lbName c).1 = Ok (Err e))
           \/ (getTTLFromAnnotations
                 (AmbassadorHostSource.Annotations host)).2 = Some e).
Proof.
  unfold AmbassadorHostSource.EndpointsFromLister. rewrite bind_fst.
  destruct listed as [hosts|e']; simpl; [|intros [= ->]; by left].
  intros (host & Hhost & Hbody)%sorted_pass_Err. right.
  unfold AmbassadorHostSource.Endpoints_body in Hbody.
  destruct (_ !! AmbassadorHostSource.ambHostAnnotation) as [service|] eqn:Hann;
    [|done].
  exists hosts, host, service. repeat (split; [done|]).
  rewrite bind_fst in Hbody.
  unfold AmbassadorHostSource.targetsFromAmbassadorLoadBalancer in Hbody.
  rewrite bind_fst in Hbody.
  destruct (parseAmbLoadBalancerService service) as [[lbNamespace lbName]|e']
    eqn:Hparse; simpl in Hbody; [|left; by injection Hbody as ->].
  right. rewrite bind_fst in Hbody.
  destruct (getService lbNamespace lbName c).1 as [[svc|e']|e'] eqn:Hget;
    [|left|by unfold getService in Hget].
  - right. rewrite bind_fst in Hbody. simpl in Hbody.
    rewrite bind_fst in Hbody.
    unfold AmbassadorHostSource.endpointsFromHost in Hbody.
    destruct (getTTLFromAnnotations _) as [ttl [err|]];
      [by injection Hbody as ->|].
    destruct (AmbassadorHostSource.Spec host) as [spec|];
      [destruct (decide (AmbassadorHostSource.Spec_Hostname spec <> ""))|];
      simpl in Hbody; first [done|by case_decide].
  - rewrite bind_fst in Hbody. simpl in Hbody. injection Hbody as ->.
    by exists lbNamespace, lbName.
Qed.

Lemma annotationsFromSources_Err (c : Cluster)
    (sources : list GlooSource.VirtualHostMetadataSource)
    (acc : gmap string string) (e : error) :
  (GlooSource.annotationsFromSources sources acc c).1 = Err e ->
  exists src,
    src ∈ sources
    /\ GlooSource.Kind src = "*v1.VirtualService"
    /\ (getVirtualService (GlooSource.Source_Namespace src)
          (GlooSource.Source_Name src) c).1 = Ok (Err e).
Proof.
  revert acc. induction sources as [|src sources IH]; intros acc; simpl;
    [done|].
  assert (forall acc',
             (GlooSource.annotationsFromSources sources acc' c).1 = Err e ->
             exists src',
               src' ∈ src :: sources
               /\ GlooSource.Kind src' = "*v1.VirtualService"
               /\ (getVirtualService (GlooSource.Source_Namespace src')
                     (GlooSource.Source_Name src') c).1 = Ok (Err e))
    as Hrest.
  { intros acc' (src' & ? & ?)%IH. exists src'. split; [by right|done]. }
  case_decide as Hkind; [|apply Hrest].
  rewrite bind_fst.
  destruct (getVirtualService _ _ c).1 as [[a|e']|e'] eqn:Hget;
    [| |by unfold getVirtualService in Hget].
  - rewrite bind_fst. simpl. apply Hrest.
  - rewrite bind_fst. simpl. intros [= ->]. exists src.
    split; [by left|done].
Qed.

(** X25: a pass of the Gloo adapter returns an error only when the
    List of the lister fails, and then that error as it is, or for a
    listed Proxy, and then the error that the lookup of the service of its
    name returned, the error that the lookup of a virtual service named
    by one of its virtual hosts returned, or the error of the TTL
    annotation gathered for one of its virtual hosts. *)
Theorem gloo_pass_errors
    (gs : GlooSource.glooSource) (listed : result (list GlooSource.Proxy))
    (c : Cluster) (e : error) :
  (GlooSource.EndpointsFromLister gs listed c).1 = Err e ->
  listed = Err e
  \/ exists proxies p,
       listed = Ok proxies
       /\ p ∈ proxies
       /\ ((getService (GlooSource.namespace gs) (GlooSource.Name p) c).1
           = Ok (Err e)
           \/ exists listener vhost,
                listener ∈ GlooSource.Spec_Listeners p
                /\ vhost ∈ GlooSource.HTTPListener_VirtualHosts listener
                /\ ((exists src,
                        src ∈ GlooSource.Metadata_Source vhost
                        /\ GlooSource.Kind src = "*v1.VirtualService"
                        /\ (getVirtualService (GlooSource.Source_Namespace src)
                              (GlooSource.Source_Name src) c).1 = Ok (Err e))
                    \/ exists annotations,
                         (GlooSource.annotationsFromVirtualHost gs vhost c).1
                         = Ok annotations
                         /\ (getTTLFromAnnotations annotations).2 = Some e)).
Proof.
  unfold GlooSource.EndpointsFromLister. rewrite bind_fst.
  destruct listed as [proxies|e']; simpl; [|intros [= ->]; by left].
  unfold GlooSource.Endpoints.
  intros (p & Hp & Hbody)%forRange_Err. right.
  exists proxies, p. split; [done|]. split; [done|].
  unfold GlooSource.Endpoints_body in Hbody. rewrite bind_fst in Hbody.
  unfold GlooSource.proxyTargets in Hbody at 1.
  rewrite bind_fst in Hbody.
  destruct (getService _ _ c).1 as [[svc|e']|e'] eqn:Hget;
    [right|left|by unfold getService in Hget].
  - rewrite bind_fst in Hbody. simpl in Hbody.
    assert (exists targets,
               (GlooSource.endpointsFromProxy gs p targets c).1 = Err e)
      as [targets Hends].
    { destruct (decide (Service_Spec_Type svc = ServiceTypeLoadBalancer));
        simpl in Hbody; by eexists. }
    unfold GlooSource.endpointsFromProxy in Hends.
    apply forRange_Err in Hends as (listener & Hlistener & Hends).
    apply forRange_Err in Hends as (vhost & Hvhost & Hends).
    exists listener, vhost. repeat (split; [done|]).
    rewrite bind_fst in Hends.
    destruct (GlooSource.annotationsFromVirtualHost gs vhost c).1
      as [annotations|e'] eqn:Hann.
    + right. exists annotations. split; [done|].
      destruct (getTTLFromAnnotations annotations) as [ttl [err|]];
        [by injection Hends as ->|].
      by destruct (getProviderSpecificAnnotations annotations).
    + left. injection Hends as ->.
      by apply annotationsFromSources_Err in Hann.
  - rewrite bind_fst in Hbody. simpl in Hbody. by injection Hbody as ->.
Qed.

(** * The further properties on resources of the tests *)

(** The three syntaxes of a reference. *)
Lemma parseAmbLoadBalancerService_reads_back_witness :
  parseAmbLoadBalancerService ("kube-system" +:+ "/" +:+ "svc.local")
  = Ok ("kube-system", "svc.local")
  /\ parseAmbLoadBalancerService ("svc" +:+ "." +:+ "foo.bar")
     = Ok ("foo.bar", "svc")
  /\ parseAmbLoadBalancerService "svc" = Ok (NamespaceDefault, "svc").
Proof.
  destruct parseAmbLoadBalancerService_reads_back as (Hslash & Hdot & Hbare).
  split; [|split].
  - apply Hslash; reflexivity.
  - apply Hdot; reflexivity.
  - apply Hbare; reflexivity.
Defined.

(** The reference "svc.foo.bar" is of the second form. *)
Lemma parseAmbLoadBalancerService_accepts_witness :
  ("svc.foo.bar" = "foo.bar" +:+ "/" +:+ "svc"
   /\ strings.Count "foo.bar" "/" = 0%nat
   /\ strings.Count "svc" "/" = 0%nat)
  \/ ("svc.foo.bar" = "svc" +:+ "." +:+ "foo.bar"
      /\ strings.Count "svc.foo.bar" "/" = 0%nat
      /\ strings.Count "svc" "." = 0%nat)
  \/ ("svc.foo.bar" = "svc"
      /\ "foo.bar" = NamespaceDefault
      /\ strings.Count "svc.foo.bar" "/" = 0%nat
      /\ strings.Count "svc.foo.bar" "." = 0%nat).
Proof.
  apply (parseAmbLoadBalancerService_accepts "svc.foo.bar" "foo.bar" "svc").
  reflexivity.
Defined.

(** The reference "heptio-contour/contour". *)
Lemma parseContourLoadBalancerService_witness :
  isOk (IngressRouteSource.parseContourLoadBalancerService
          "heptio-contour/contour") = true
  /\ IngressRouteSource.parseContourLoadBalancerService
       ("heptio-contour" +:+ "/" +:+ "contour")
     = Ok ("heptio-contour", "contour")
  /\ "heptio-contour/contour" = "heptio-contour" +:+ "/" +:+ "contour".
Proof.
  destruct parseContourLoadBalancerService_spec as (Hok & Hback & Hjoin).
  split; [|split].
  - apply Hok. reflexivity.
  - apply Hback; reflexivity.
  - apply Hjoin. reflexivity.
Defined.

(** Resources of the class "tinydns", or without a class, under a filter
    on another class. *)
Lemma annotation_filter_skips_witness :
  (HTTPProxySource.Endpoints_body Fixtures.httpProxySrcFiltered
     Fixtures.httpProxyTinydnsClass Fixtures.emptyCluster = (Ok [], [])
   /\ HTTPProxySource.Endpoints Fixtures.httpProxySrcFiltered
        ([Fixtures.httpProxyContourClass]
         ++ Fixtures.httpProxyTinydnsClass :: [Fixtures.httpProxyContourClass])
        Fixtures.emptyCluster
      = HTTPProxySource.Endpoints Fixtures.httpProxySrcFiltered
          ([Fixtures.httpProxyContourClass] ++ [Fixtures.httpProxyContourClass])
          Fixtures.emptyCluster)
  /\ (IngressRouteSource.Endpoints_body Fixtures.ingressRouteSrcFiltered
        Fixtures.routeTinydnsClass Fixtures.contourCluster = (Ok [], [])
      /\ IngressRouteSource.Endpoints Fixtures.ingressRouteSrcFiltered
           ([Fixtures.routeContourClass]
            ++ Fixtures.routeTinydnsClass :: [Fixtures.routeContourClass])
           Fixtures.contourCluster
         = IngressRouteSource.Endpoints Fixtures.ingressRouteSrcFiltered
             ([Fixtures.routeContourClass] ++ [Fixtures.routeContourClass])
             Fixtures.contourCluster)
  /\ (KongTCPIngressSource.Endpoints_body Fixtures.kongSrcFiltered
        Fixtures.tcpIngressBadTTL Fixtures.emptyCluster = (Ok [], [])
      /\ KongTCPIngressSource.Endpoints Fixtures.kongSrcFiltered
           ([Fixtures.tcpIngressBoth]
            ++ Fixtures.tcpIngressBadTTL :: [Fixtures.tcpIngressBoth])
           Fixtures.emptyCluster
         = KongTCPIngressSource.Endpoints Fixtures.kongSrcFiltered
             ([Fixtures.tcpIngressBoth] ++ [Fixtures.tcpIngressBoth])
             Fixtures.emptyCluster).
Proof.
  destruct annotation_filter_skips as (Hproxy & Hroute & Hkong).
  split; [|split].
  - destruct (Hproxy Fixtures.httpProxySrcFiltered Fixtures.httpProxyTinydnsClass
                Fixtures.emptyCluster) as [Hbody Hpass]; [reflexivity|].
    split; [exact Hbody|apply Hpass].
  - destruct (Hroute Fixtures.ingressRouteSrcFiltered Fixtures.routeTinydnsClass
                Fixtures.contourCluster) as [Hbody Hpass]; [reflexivity|].
    split; [exact Hbody|apply Hpass].
  - destruct (Hkong Fixtures.kongSrcFiltered Fixtures.tcpIngressBadTTL
                Fixtures.emptyCluster) as [Hbody Hpass]; [reflexivity|].
    split; [exact Hbody|apply Hpass].
Defined.

(** Resources of the controller "some-other-tool". *)
Lemma other_controller_skips_witness :
  (HTTPProxySource.Endpoints_body Fixtures.httpProxySrcWithTemplate
     Fixtures.httpProxyOtherController Fixtures.emptyCluster = (Ok [], [])
   /\ HTTPProxySource.Endpoints Fixtures.httpProxySrcWithTemplate
        ([Fixtures.fooBar] ++ Fixtures.httpProxyOtherController :: [Fixtures.fake3])
        Fixtures.emptyCluster
      = HTTPProxySource.Endpoints Fixtures.httpProxySrcWithTemplate
          ([Fixtures.fooBar] ++ [Fixtures.fake3]) Fixtures.emptyCluster)
  /\ (IngressRouteSource.Endpoints_body Fixtures.ingressRouteSrcWithTemplate
        Fixtures.routeOtherController Fixtures.contourCluster = (Ok [], [])
      /\ IngressRouteSource.Endpoints Fixtures.ingressRouteSrcWithTemplate
           ([Fixtures.routeFooBar]
            ++ Fixtures.routeOtherController :: [Fixtures.routeWithTarget])
           Fixtures.contourCluster
         = IngressRouteSource.Endpoints Fixtures.ingressRouteSrcWithTemplate
             ([Fixtures.routeFooBar] ++ [Fixtures.routeWithTarget])
             Fixtures.contourCluster).
Proof.
  destruct other_controller_skips as (Hproxy & Hroute).
  split.
  - destruct (Hproxy Fixtures.httpProxySrcWithTemplate
                Fixtures.httpProxyOtherController Fixtures.emptyCluster
                "some-other-tool") as [Hbody Hpass];
      [reflexivity|discriminate|].
    split; [exact Hbody|apply Hpass].
  - destruct (Hroute Fixtures.ingressRouteSrcWithTemplate
                Fixtures.routeOtherController Fixtures.contourCluster
                "some-other-tool") as [Hbody Hpass];
      [reflexivity|discriminate|].
    split; [exact Hbody|apply Hpass].
Defined.

(** A template that fails, appended for an HTTPProxy and the fallback of
    an IngressRoute without a hostname. *)
Lemma template_failure_fails_pass_witness :
  ((HTTPProxySource.Endpoints_body Fixtures.httpProxySrcBrokenTemplate
      Fixtures.fooBar Fixtures.emptyCluster).1
   = Err "failed to get endpoints from template: failed to apply template on HTTPProxy testing/proxy: no such field"
   /\ isOk (HTTPProxySource.Endpoints Fixtures.httpProxySrcBrokenTemplate
              [Fixtures.httpProxyInvalid; Fixtures.fooBar]
              Fixtures.emptyCluster).1 = false)
  /\ ((IngressRouteSource.Endpoints_body Fixtures.ingressRouteSrcBrokenTemplate
         Fixtures.routeWithoutHost Fixtures.contourCluster).1
      = Err "failed to apply template on ingressroute testing/fake1: no such field"
      /\ isOk (IngressRouteSource.Endpoints Fixtures.ingressRouteSrcBrokenTemplate
                 [Fixtures.routeInvalid; Fixtures.routeWithoutHost]
                 Fixtures.contourCluster).1 = false).
Proof.
  destruct template_failure_fails_pass as (Hproxy & Hroute).
  split.
  - destruct (Hproxy Fixtures.httpProxySrcBrokenTemplate Fixtures.fooBar
                Fixtures.emptyCluster Fixtures.brokenTemplate "no such field")
      as [Hbody Hpass]; [reflexivity|reflexivity|reflexivity|left; reflexivity|].
    split; [exact Hbody|]. apply Hpass. right. left.
  - destruct (Hroute Fixtures.ingressRouteSrcBrokenTemplate
                Fixtures.routeWithoutHost Fixtures.contourCluster
                Fixtures.brokenRouteTemplate "no such field")
      as [Hbody Hpass];
      [reflexivity|reflexivity|reflexivity|right; vm_compute; reflexivity|].
    split; [exact Hbody|]. apply Hpass. right. left.
Defined.

(** The reference "a/b/c". *)
Lemma ambassador_malformed_reference_witness :
  AmbassadorHostSource.Endpoints_body Fixtures.ambassadorSrc
    Fixtures.hostMalformed Fixtures.ambassadorCluster
  = (Err "invalid external-dns service: a/b/c", [])
  /\ isOk (AmbassadorHostSource.Endpoints Fixtures.ambassadorSrc
             [Fixtures.hostWithService; Fixtures.hostMalformed]
             Fixtures.ambassadorCluster).1 = false.
Proof.
  destruct (ambassador_malformed_reference_fails_pass Fixtures.ambassadorSrc
              Fixtures.hostMalformed Fixtures.ambassadorCluster "a/b/c")
    as [Hbody Hpass]; [reflexivity|vm_compute; lia|].
  split; [exact Hbody|]. apply Hpass. right. left.
Defined.

(** A Host with an empty hostname, between two others. *)
Lemma ambassador_host_without_hostname_witness :
  AmbassadorHostSource.Endpoints_body Fixtures.ambassadorSrc
    Fixtures.hostWithoutHostname Fixtures.ambassadorCluster
  = (Ok [], [GetService "ambassador" "ambassador"])
  /\ (AmbassadorHostSource.Endpoints Fixtures.ambassadorSrc
        ([Fixtures.hostWithService]
         ++ Fixtures.hostWithoutHostname :: [Fixtures.hostWithService])
        Fixtures.ambassadorCluster).1
     = (AmbassadorHostSource.Endpoints Fixtures.ambassadorSrc
          ([Fixtures.hostWithService] ++ [Fixtures.hostWithService])
          Fixtures.ambassadorCluster).1.
Proof.
  destruct (ambassador_host_without_hostname Fixtures.ambassadorSrc
              Fixtures.hostWithoutHostname Fixtures.ambassadorCluster
              "ambassador/ambassador" "ambassador" "ambassador"
              {| Service_Spec_Type := ServiceTypeLoadBalancer;
                 Service_Status_LoadBalancer_Ingress := [Fixtures.lbIP "1.1.1.1"] |})
    as [Hbody Hpass]; [reflexivity..|].
  split; [exact Hbody|apply Hpass].
Defined.

(** A Host with a set identifier and a provider-specific annotation. *)
Lemma ambassador_endpoints_bare_witness :
  exists eps,
    (AmbassadorHostSource.Endpoints Fixtures.ambassadorSrc
       [Fixtures.hostWithMetadata] Fixtures.ambassadorCluster).1 = Ok eps
    /\ length eps = 1%nat
    /\ Forall (fun e => ProviderSpecific e = [] /\ SetIdentifier e = ""
                        /\ Labels e = ∅) eps.
Proof.
  destruct (AmbassadorHostSource.Endpoints Fixtures.ambassadorSrc
              [Fixtures.hostWithMetadata] Fixtures.ambassadorCluster)
    as [[eps|e] tr] eqn:Hrun; [|vm_compute in Hrun; discriminate].
  exists eps. split; [reflexivity|]. split.
  - vm_compute in Hrun. injection Hrun as <- _. reflexivity.
  - apply Forall_forall. exact (ambassador_endpoints_bare _ _ _ _ _ Hrun).
Defined.

(** The TCPIngress with the dual-stack annotation. *)
Lemma kong_dualstack_label_witness :
  exists part t,
    KongTCPIngressSource.Endpoints_body Fixtures.kongSrc
      Fixtures.tcpIngressDualstack Fixtures.emptyCluster = (Ok part, t)
    /\ length part = 3%nat
    /\ Forall (fun e => Labels e !! DualstackLabelKey = Some "true") part.
Proof.
  destruct (KongTCPIngressSource.Endpoints_body Fixtures.kongSrc
              Fixtures.tcpIngressDualstack Fixtures.emptyCluster)
    as [[part|e] t] eqn:Hrun; [|vm_compute in Hrun; discriminate].
  exists part, t. split; [reflexivity|]. split.
  - vm_compute in Hrun. injection Hrun as <- _. reflexivity.
  - apply Forall_forall. intros e He.
    exact (kong_dualstack_label _ _ _ _ _ Hrun e He).
Defined.

(** The TCPIngress "tcp-ingress-both". *)
Lemma kong_targets_from_status_witness :
  exists part t,
    KongTCPIngressSource.Endpoints_body Fixtures.kongSrc
      Fixtures.tcpIngressBoth Fixtures.emptyCluster = (Ok part, t)
    /\ length part = 3%nat
    /\ t = []
    /\ forall e target, e ∈ part -> target ∈ Targets e ->
         target <> ""
         /\ exists lb,
              lb ∈ KongTCPIngressSource.Status_LoadBalancer_Ingress
                     Fixtures.tcpIngressBoth
              /\ (target = IP lb \/ target = Hostname lb).
Proof.
  destruct (KongTCPIngressSource.Endpoints_body Fixtures.kongSrc
              Fixtures.tcpIngressBoth Fixtures.emptyCluster)
    as [[part|e] t] eqn:Hrun; [|vm_compute in Hrun; discriminate].
  exists part, t. split; [reflexivity|]. split.
  - vm_compute in Hrun. injection Hrun as <- _. reflexivity.
  - exact (kong_targets_from_status _ _ _ _ _ Hrun).
Defined.

(** An HTTPProxy and an IngressRoute without the target annotation. *)
Lemma load_balancer_targets_witness :
  (exists eps,
      (HTTPProxySource.Endpoints_body Fixtures.httpProxySrc Fixtures.fooBar
         Fixtures.emptyCluster).1 = Ok eps
      /\ map Targets eps = [["8.8.8.8"]]
      /\ forall e target, e ∈ eps -> target ∈ Targets e ->
           target <> ""
           /\ exists lb,
                lb ∈ HTTPProxySource.Status_LoadBalancer_Ingress Fixtures.fooBar
                /\ (target = IP lb \/ target = Hostname lb))
  /\ (exists eps,
         (IngressRouteSource.Endpoints_body Fixtures.ingressRouteSrc
            Fixtures.routeFooBar Fixtures.contourCluster).1 = Ok eps
         /\ map Targets eps = [["8.8.8.8"]]
         /\ forall e target, e ∈ eps -> target ∈ Targets e ->
              target <> ""
              /\ exists svc lb,
                   Services Fixtures.contourCluster
                     !! (IngressRouteSource.lbService_Namespace
                           Fixtures.ingressRouteSrc,
                         IngressRouteSource.lbService_Name
                           Fixtures.ingressRouteSrc) = Some svc
                   /\ lb ∈ Service_Status_LoadBalancer_Ingress svc
                   /\ (target = IP lb \/ target = Hostname lb)).
Proof.
  destruct load_balancer_targets_without_annotation as (Hproxy & Hroute).
  split.
  - destruct (Hproxy Fixtures.httpProxySrc Fixtures.fooBar Fixtures.emptyCluster)
      as (eps & Hrun & Htargets & _); [reflexivity|discriminate|].
    exists eps. split; [exact Hrun|]. split; [|exact Htargets].
    vm_compute in Hrun. injection Hrun as <-. reflexivity.
  - destruct (Hroute Fixtures.ingressRouteSrc Fixtures.routeFooBar
                Fixtures.contourCluster)
      as (eps & Hrun & Htargets & _); [reflexivity|discriminate|].
    exists eps. split; [exact Hrun|]. split; [|exact Htargets].
    vm_compute in Hrun. injection Hrun as <-. reflexivity.
Defined.

(** Resources with a hostname annotation, for sources that ignore
    it. *)
Lemma ignored_hostname_annotation_witness :
  (exists eps t,
      HTTPProxySource.endpointsFromHTTPProxy Fixtures.httpProxySrcIgnoring
        Fixtures.httpProxyWithHostname Fixtures.emptyCluster = (Ok eps, t)
      /\ map DNSName eps = ["example.org"]
      /\ forall e, e ∈ eps ->
           exists virtualHost,
             HTTPProxySource.Spec_VirtualHost Fixtures.httpProxyWithHostname
             = Some virtualHost
             /\ HTTPProxySource.Fqdn virtualHost <> ""
             /\ DNSName e
                = strings.TrimSuffix (HTTPProxySource.Fqdn virtualHost) ".")
  /\ (exists eps t,
         IngressRouteSource.endpointsFromIngressRoute
           Fixtures.ingressRouteSrcIgnoring Fixtures.routeWithHostname
           Fixtures.contourCluster = (Ok eps, t)
         /\ map DNSName eps = ["example.org"]
         /\ forall e, e ∈ eps ->
              exists virtualHost,
                IngressRouteSource.Spec_VirtualHost Fixtures.routeWithHostname
                = Some virtualHost
                /\ IngressRouteSource.Fqdn virtualHost <> ""
                /\ DNSName e
                   = strings.TrimSuffix (IngressRouteSource.Fqdn virtualHost) ".").
Proof.
  destruct ignored_hostname_annotation as (Hproxy & Hroute).
  split.
  - destruct (HTTPProxySource.endpointsFromHTTPProxy
                Fixtures.httpProxySrcIgnoring Fixtures.httpProxyWithHostname
                Fixtures.emptyCluster)
      as [[eps|e] t] eqn:Hrun; [|vm_compute in Hrun; discriminate].
    exists eps, t. split; [reflexivity|]. split.
    + vm_compute in Hrun. injection Hrun as <- _. reflexivity.
    + exact (Hproxy Fixtures.httpProxySrcIgnoring _ _ _ _ eq_refl Hrun).
  - destruct (IngressRouteSource.endpointsFromIngressRoute
                Fixtures.ingressRouteSrcIgnoring Fixtures.routeWithHostname
                Fixtures.contourCluster)
      as [[eps|e] t] eqn:Hrun; [|vm_compute in Hrun; discriminate].
    exists eps, t. split; [reflexivity|]. split.
    + vm_compute in Hrun. injection Hrun as <- _. reflexivity.
    + exact (Hroute Fixtures.ingressRouteSrcIgnoring _ _ _ _ eq_refl Hrun).
Defined.

(** A virtual host with two virtual services and a source of another
    kind between them. *)
Lemma gloo_annotations_witness :
  exists annotations t,
    GlooSource.annotationsFromVirtualHost Fixtures.glooSrc
      Fixtures.vhostTwoServices Fixtures.glooClusterWithVirtualServices
    = (Ok annotations, t)
    /\ t = [GetVirtualService "gloo-system" "first";
            GetVirtualService "gloo-system" "second"]
    /\ forall key value, annotations !! key = Some value ->
         exists src a,
           src ∈ GlooSource.Metadata_Source Fixtures.vhostTwoServices
           /\ GlooSource.Kind src = "*v1.VirtualService"
           /\ VirtualServices Fixtures.glooClusterWithVirtualServices
                !! (GlooSource.Source_Namespace src,
                    GlooSource.Source_Name src) = Some a
           /\ a !! key = Some value.
Proof.
  destruct (GlooSource.annotationsFromVirtualHost Fixtures.glooSrc
              Fixtures.vhostTwoServices Fixtures.glooClusterWithVirtualServices)
    as [[annotations|e] t] eqn:Hrun; [|vm_compute in Hrun; discriminate].
  destruct (gloo_annotations_from_virtual_services _ _ _ _ _ Hrun)
    as [Htrace Hfrom].
  exists annotations, t. split; [reflexivity|]. split; [|exact Hfrom].
  rewrite Htrace. reflexivity.
Defined.

(** A Proxy whose virtual host names a virtual service that does not
    exist, after one that is fine. *)
Lemma gloo_missing_virtual_service_witness :
  isOk (GlooSource.Endpoints Fixtures.glooSrc
          [Fixtures.acceptedProxy; Fixtures.proxyMissingService]
          Fixtures.glooCluster).1 = false.
Proof.
  apply (gloo_missing_virtual_service_fails_pass Fixtures.glooSrc _
           Fixtures.glooCluster Fixtures.proxyMissingService
           Fixtures.listenerMissingService Fixtures.vhostMissingService
           (Fixtures.virtualServiceSource "missing")).
  - right. left.
  - left.
  - left.
  - left.
  - reflexivity.
  - reflexivity.
Defined.

(** The TTL of the second virtual service replaces that of the first,
    whose set identifier stays. *)
Lemma gloo_later_virtual_service_witness :
  exists annotations,
    (GlooSource.annotationsFromVirtualHost Fixtures.glooSrc
       {| GlooSource.Domains := ["b.test"];
          GlooSource.Metadata_Source :=
            [Fixtures.virtualServiceSource "first"]
            ++ [Fixtures.virtualServiceSource "second"] |}
       Fixtures.glooClusterWithVirtualServices).1 = Ok annotations
    /\ annotations !! ttlAnnotationKey = Some "800"
    /\ annotations !! setIdentifierKey = Some "identifier".
Proof.
  destruct (gloo_later_virtual_service_overwrites Fixtures.glooSrc ["b.test"]
              [Fixtures.virtualServiceSource "first"]
              (Fixtures.virtualServiceSource "second")
              Fixtures.glooClusterWithVirtualServices
              Fixtures.firstAnnotations Fixtures.secondAnnotations)
    as (annotations & Hrun & Hlater & Hkept); [reflexivity..|].
  exists annotations. split; [exact Hrun|]. split.
  - apply Hlater. reflexivity.
  - rewrite Hkept; reflexivity.
Defined.

(** The service of the Proxy is of type NodePort. *)
Lemma gloo_service_type_witness :
  GlooSource.proxyTargets Fixtures.glooSrc
    (GlooSource.Name Fixtures.acceptedProxy) Fixtures.glooClusterNodePort
  = (Ok [], [GetService "gloo-system" "internal";
             Warn "Gloo: Proxy service type not supported"])
  /\ (GlooSource.Endpoints_body Fixtures.glooSrc Fixtures.acceptedProxy
        Fixtures.glooClusterNodePort).1 = Ok [].
Proof.
  destruct (gloo_service_type_not_supported Fixtures.glooSrc
              Fixtures.acceptedProxy Fixtures.glooClusterNodePort
              Fixtures.nodePortService)
    as [Htargets Hnone]; [reflexivity|discriminate|].
  split; [exact Htargets|].
  destruct (GlooSource.Endpoints_body Fixtures.glooSrc Fixtures.acceptedProxy
              Fixtures.glooClusterNodePort).1 as [eps|e] eqn:Hrun;
    [|vm_compute in Hrun; discriminate].
  f_equal. apply Hnone. reflexivity.
Defined.

(** The Host "www" and the service "ambassador/ambassador". *)
Lemma ambassador_endpoint_provenance_witness :
  exists eps tr,
    AmbassadorHostSource.Endpoints Fixtures.ambassadorSrc
      [Fixtures.hostWithoutAnnotation; Fixtures.hostWithService]
      Fixtures.ambassadorCluster = (Ok eps, tr)
    /\ map DNSName eps = ["www.example.org"]
    /\ forall e, e ∈ eps ->
         exists host service lbNamespace lbName svc spec,
           host ∈ [Fixtures.hostWithoutAnnotation; Fixtures.hostWithService]
           /\ AmbassadorHostSource.Annotations host
                !! AmbassadorHostSource.ambHostAnnotation = Some service
           /\ parseAmbLoadBalancerService service = Ok (lbNamespace, lbName)
           /\ Services Fixtures.ambassadorCluster !! (lbNamespace, lbName)
              = Some svc
           /\ AmbassadorHostSource.Spec host = Some spec
           /\ AmbassadorHostSource.Spec_Hostname spec <> ""
           /\ DNSName e
              = strings.TrimSuffix (AmbassadorHostSource.Spec_Hostname spec) "."
           /\ RecordTTL e
              = (getTTLFromAnnotations
                   (AmbassadorHostSource.Annotations host)).1
           /\ forall target, target ∈ Targets e ->
                target <> ""
                /\ exists lb,
                     lb ∈ Service_Status_LoadBalancer_Ingress svc
                     /\ (target = IP lb \/ target = Hostname lb).
Proof.
  destruct (AmbassadorHostSource.Endpoints Fixtures.ambassadorSrc
              [Fixtures.hostWithoutAnnotation; Fixtures.hostWithService]
              Fixtures.ambassadorCluster)
    as [[eps|e] tr] eqn:Hrun; [|vm_compute in Hrun; discriminate].
  exists eps, tr. split; [reflexivity|]. split.
  - vm_compute in Hrun. injection Hrun as <- _. reflexivity.
  - exact (ambassador_endpoint_provenance _ _ _ _ _ Hrun).
Defined.

(** The Proxy "internal" and the service of its name. *)
Lemma gloo_endpoint_provenance_witness :
  exists eps tr,
    GlooSource.Endpoints Fixtures.glooSrc [Fixtures.acceptedProxy]
      Fixtures.glooCluster = (Ok eps, tr)
    /\ map Targets eps = [["203.0.113.2"; "203.0.113.1"]]
    /\ forall e, e ∈ eps ->
         exists p listener vhost domain svc,
           p ∈ [Fixtures.acceptedProxy]
           /\ listener ∈ GlooSource.Spec_Listeners p
           /\ vhost ∈ GlooSource.HTTPListener_VirtualHosts listener
           /\ domain ∈ GlooSource.Domains vhost
           /\ DNSName e
              = strings.TrimSuffix (strings.TrimSuffix domain ".") "."
           /\ Services Fixtures.glooCluster
                !! (GlooSource.namespace Fixtures.glooSrc, GlooSource.Name p)
              = Some svc
           /\ Service_Spec_Type svc = ServiceTypeLoadBalancer
           /\ Targets e
              = filter (fun t => suitableType t = RecordType e)
                  (targetsFromIngress (Service_Status_LoadBalancer_Ingress svc))
           /\ Labels e = ∅.
Proof.
  destruct (GlooSource.Endpoints Fixtures.glooSrc [Fixtures.acceptedProxy]
              Fixtures.glooCluster)
    as [[eps|e] tr] eqn:Hrun; [|vm_compute in Hrun; discriminate].
  exists eps, tr. split; [reflexivity|]. split.
  - vm_compute in Hrun. injection Hrun as <- _. reflexivity.
  - exact (gloo_endpoint_provenance _ _ _ _ _ Hrun).
Defined.

(** Passes that a template stops, and passes whose lister fails. *)
Lemma contour_pass_errors_witness :
  (exists e,
      (HTTPProxySource.EndpointsFromLister Fixtures.httpProxySrcBrokenTemplate
         (Ok [Fixtures.httpProxyInvalid; Fixtures.fooBar])
         Fixtures.emptyCluster).1 = Err e
      /\ (Ok [Fixtures.httpProxyInvalid; Fixtures.fooBar] = Err e
          \/ exists hps hp tmpl err,
               Ok [Fixtures.httpProxyInvalid; Fixtures.fooBar] = Ok hps
               /\ hp ∈ hps
               /\ HTTPProxySpec.kept Fixtures.httpProxySrcBrokenTemplate hp = true
               /\ HTTPProxySource.fqdnTemplate Fixtures.httpProxySrcBrokenTemplate
                  = Some tmpl
               /\ tmpl hp = Err err
               /\ e = "failed to get endpoints from template: "
                      +:+ "failed to apply template on HTTPProxy "
                      +:+ HTTPProxySource.Namespace hp +:+ "/"
                      +:+ HTTPProxySource.Name hp +:+ ": " +:+ err))
  /\ HTTPProxySource.EndpointsFromLister Fixtures.httpProxySrc
       (Err "the server is currently unable to handle the request")
       Fixtures.emptyCluster
     = (Err "the server is currently unable to handle the request", [])
  /\ (exists e,
         (IngressRouteSource.EndpointsFromLister
            Fixtures.ingressRouteSrcBrokenTemplate
            (Ok [Fixtures.routeInvalid; Fixtures.routeWithoutHost])
            Fixtures.contourCluster).1 = Err e
         /\ (Ok [Fixtures.routeInvalid; Fixtures.routeWithoutHost] = Err e
             \/ exists rts rt tmpl err,
                  Ok [Fixtures.routeInvalid; Fixtures.routeWithoutHost] = Ok rts
                  /\ rt ∈ rts
                  /\ IngressRouteSpec.kept Fixtures.ingressRouteSrcBrokenTemplate rt
                     = true
                  /\ IngressRouteSource.fqdnTemplate
                       Fixtures.ingressRouteSrcBrokenTemplate = Some tmpl
                  /\ tmpl rt = Err err
                  /\ e = "failed to apply template on ingressroute "
                         +:+ IngressRouteSource.Namespace rt +:+ "/"
                         +:+ IngressRouteSource.Name rt +:+ ": " +:+ err))
  /\ IngressRouteSource.EndpointsFromLister Fixtures.ingressRouteSrc
       (Err "the server is currently unable to handle the request")
       Fixtures.contourCluster
     = (Err "the server is currently unable to handle the request", []).
Proof.
  destruct contour_pass_errors as (Hproxy & Hlist & Hroute & Hlist').
  split; [|split; [apply Hlist|split; [|apply Hlist']]].
  - destruct (HTTPProxySource.EndpointsFromLister
                Fixtures.httpProxySrcBrokenTemplate
                (Ok [Fixtures.httpProxyInvalid; Fixtures.fooBar])
                Fixtures.emptyCluster).1
      as [eps|e] eqn:Hrun; [vm_compute in Hrun; discriminate|].
    exists e. split; [reflexivity|]. exact (Hproxy _ _ _ _ Hrun).
  - destruct (IngressRouteSource.EndpointsFromLister
                Fixtures.ingressRouteSrcBrokenTemplate
                (Ok [Fixtures.routeInvalid; Fixtures.routeWithoutHost])
                Fixtures.contourCluster).1
      as [eps|e] eqn:Hrun; [vm_compute in Hrun; discriminate|].
    exists e. split; [reflexivity|]. exact (Hroute _ _ _ _ Hrun).
Defined.

(** A pass that the TTL annotation "abc" stops. *)
Lemma kong_pass_errors_witness :
  exists e,
    (KongTCPIngressSource.EndpointsFromLister Fixtures.kongSrc
       (Ok [Fixtures.tcpIngressBoth; Fixtures.tcpIngressBadTTL])
       Fixtures.emptyCluster).1 = Err e
    /\ (Ok [Fixtures.tcpIngressBoth; Fixtures.tcpIngressBadTTL] = Err e
        \/ exists tis ti,
             Ok [Fixtures.tcpIngressBoth; Fixtures.tcpIngressBadTTL] = Ok tis
             /\ ti ∈ tis
             /\ KongTCPIngressSource.annotationSelector Fixtures.kongSrc
                  (KongTCPIngressSource.Annotations ti) = true
             /\ (getTTLFromAnnotations (KongTCPIngressSource.Annotations ti)).2
                = Some e).
Proof.
  destruct (KongTCPIngressSource.EndpointsFromLister Fixtures.kongSrc
              (Ok [Fixtures.tcpIngressBoth; Fixtures.tcpIngressBadTTL])
              Fixtures.emptyCluster).1
    as [eps|e] eqn:Hrun; [vm_compute in Hrun; discriminate|].
  exists e. split; [reflexivity|]. exact (kong_pass_errors _ _ _ _ Hrun).
Defined.

(** A pass that the lookup of a service stops. *)
Lemma ambassador_pass_errors_witness :
  exists e,
    (AmbassadorHostSource.EndpointsFromLister Fixtures.ambassadorSrc
       (Ok [Fixtures.hostWithService; Fixtures.hostWithMissingService])
       Fixtures.ambassadorCluster).1 = Err e
    /\ (Ok [Fixtures.hostWithService; Fixtures.hostWithMissingService] = Err e
        \/ exists hosts host service,
             Ok [Fixtures.hostWithService; Fixtures.hostWithMissingService]
             = Ok hosts
             /\ host ∈ hosts
             /\ AmbassadorHostSource.Annotations host
                  !! AmbassadorHostSource.ambHostAnnotation = Some service
             /\ (parseAmbLoadBalancerService service = Err e
                 \/ (exists lbNamespace lbName,
                       parseAmbLoadBalancerService service
                       = Ok (lbNamespace, lbName)
                       /\ (getService lbNamespace lbName
                             Fixtures.ambassadorCluster).1 = Ok (Err e))
                 \/ (getTTLFromAnnotations
                       (AmbassadorHostSource.Annotations host)).2 = Some e)).
Proof.
  destruct (AmbassadorHostSource.EndpointsFromLister Fixtures.ambassadorSrc
              (Ok [Fixtures.hostWithService; Fixtures.hostWithMissingService])
              Fixtures.ambassadorCluster).1
    as [eps|e] eqn:Hrun; [vm_compute in Hrun; discriminate|].
  exists e. split; [reflexivity|]. exact (ambassador_pass_errors _ _ _ _ Hrun).
Defined.

(** A pass that the lookup of a virtual service stops. *)
Lemma gloo_pass_errors_witness :
  exists e,
    (GlooSource.EndpointsFromLister Fixtures.glooSrc
       (Ok [Fixtures.acceptedProxy; Fixtures.proxyMissingService])
       Fixtures.glooCluster).1 = Err e
    /\ (Ok [Fixtures.acceptedProxy; Fixtures.proxyMissingService] = Err e
        \/ exists proxies p,
             Ok [Fixtures.acceptedProxy; Fixtures.proxyMissingService]
             = Ok proxies
             /\ p ∈ proxies
             /\ ((getService (GlooSource.namespace Fixtures.glooSrc)
                    (GlooSource.Name p) Fixtures.glooCluster).1 = Ok (Err e)
                 \/ exists listener vhost,
                      listener ∈ GlooSource.Spec_Listeners p
                      /\ vhost ∈ GlooSource.HTTPListener_VirtualHosts listener
                      /\ ((exists src,
                              src ∈ GlooSource.Metadata_Source vhost
                              /\ GlooSource.Kind src = "*v1.VirtualService"
                              /\ (getVirtualService
                                    (GlooSource.Source_Namespace src)
                                    (GlooSource.Source_Name src)
                                    Fixtures.glooCluster).1 = Ok (Err e))
                          \/ exists annotations,
                               (GlooSource.annotationsFromVirtualHost
                                  Fixtures.glooSrc vhost Fixtures.glooCluster).1
                               = Ok annotations
                               /\ (getTTLFromAnnotations annotations).2
                                  = Some e))).
Proof.
  destruct (GlooSource.EndpointsFromLister Fixtures.glooSrc
              (Ok [Fixtures.acceptedProxy; Fixtures.proxyMissingService])
              Fixtures.glooCluster).1
    as [eps|e] eqn:Hrun; [vm_compute in Hrun; discriminate|].
  exists e. split; [reflexivity|]. exact (gloo_pass_errors _ _ _ _ Hrun).
Defined.

(** * The target annotation and the TTL annotation *)

(** ** The fuel of the duration parser *)

Lemma leadingInt_length (s rest : string) (x v : Z) :
  leadingInt s x = Some (v, rest) ->
  (String.length rest <= String.length s)%nat.
Proof.
  revert x. induction s as [|c s IH]; intros x; simpl.
  - by intros [= _ <-].
  - destruct (digitValue c) as [d|]; [|by intros [= _ <-]].
    destruct (_ <? x); [done|]. destruct (_ <? _); [done|].
    intros Hrest%IH. lia.
Qed.

Lemma leadingFraction_length (s rest : string) (x scale f scale' : Z)
    (overflow : bool) :
  leadingFraction s x scale overflow = (f, scale', rest) ->
  (String.length rest <= String.length s)%nat.
Proof.
  revert x scale overflow. induction s as [|c s IH]; intros x scale overflow;
    simpl.
  - by intros [= _ _ <-].
  - destruct (digitValue c) as [d|]; [|by intros [= _ _ <-]].
    destruct overflow; [intros Hrest%IH; lia|].
    destruct (_ <? x); [intros Hrest%IH; lia|].
    destruct (_ <? _); intros Hrest%IH; lia.
Qed.

Lemma leadingUnit_length (s u rest : string) :
  leadingUnit s = (u, rest) ->
  String.length s = (String.length u + String.length rest)%nat.
Proof.
  revert u. induction s as [|c s IH]; intros u; simpl.
  - by intros [= <- <-].
  - destruct (_ || _); [by intros [= <- <-]|].
    destruct (leadingUnit s) as [u' rest'] eqn:Hs.
    intros [= <- <-]. simpl. by rewrite (IH u' eq_refl).
Qed.

(** Every term takes at least a byte. *)
Lemma durationTerm_length (s rest : string) (d d' : Z) :
  durationTerm s d = Some (d', rest) ->
  (String.length rest < String.length s)%nat.
Proof.
  unfold durationTerm. destruct s as [|c s]; [done|].
  destruct (negb _); [done|].
  destruct (leadingInt (String c s) 0) as [[v s1]|] eqn:Hint; [|done].
  apply leadingInt_length in Hint.
  assert (exists f scale s2 post,
             match s1 with
             | String c1 s1' =>
                 if Ascii.eqb c1 "." then
                   let '(f, scale, s2) := leadingFraction s1' 0 1 false in
                   (f, scale, s2,
                    negb (String.length s2 =? String.length s1')%nat)
                 else (0, 1, s1, false)
             | EmptyString => (0, 1, s1, false)
             end = (f, scale, s2, post)
             /\ (String.length s2 <= String.length s1)%nat)
    as (f & scale & s2 & post & -> & Hfrac).
  { destruct s1 as [|c1 s1']; [by eexists _, _, _, _|].
    destruct (Ascii.eqb c1 "."); [|by eexists _, _, _, _].
    destruct (leadingFraction s1' 0 1 false) as [[f scale] s2] eqn:Hf.
    apply leadingFraction_length in Hf.
    eexists _, _, _, _. split; [done|]. simpl. lia. }
  destruct (_ && _); [done|].
  destruct (leadingUnit s2) as [u s3] eqn:Hunit.
  apply leadingUnit_length in Hunit.
  destruct u as [|cu u]; [done|].
  destruct (unitMap _) as [unit|]; [|done].
  repeat (destruct (_ <? _); [done|]).
  intros [= _ <-]. simpl in *. lia.
Qed.

(** The fuel of the loop of [ParseDuration] is never used up: more fuel
    than the length of the string reads the same duration. *)
Lemma durationTerms_fuel (fuel : nat) (s : string) (d : Z) :
  (String.length s <= fuel)%nat ->
  durationTerms fuel s d = durationTerms (String.length s) s d.
Proof.
  remember (String.length s) as n eqn:Hn.
  revert fuel s d Hn.
  induction n as [n IH] using lt_wf_ind. intros fuel s d -> Hfuel.
  destruct s as [|c s]; [by destruct fuel|].
  destruct fuel as [|fuel]; [simpl in Hfuel; lia|].
  simpl String.length. cbn [durationTerms].
  destruct (durationTerm (String c s) d) as [[d' rest]|] eqn:Hterm; [|done].
  apply durationTerm_length in Hterm. simpl in Hterm, Hfuel.
  rewrite (IH (String.length rest) ltac:(simpl; lia) fuel rest d' eq_refl)
    by lia.
  by rewrite (IH (String.length rest) ltac:(simpl; lia)
                (String.length s) rest d' eq_refl) by lia.
Qed.

(** ** Hostnames that are given endpoints *)

Lemma endpointsForHostname_nonempty (hostname : string)
    (targets : list string) (ttl : Z) (providerSpecific : list (string * string))
    (setIdentifier : string) :
  targets <> [] ->
  exists e,
    e ∈ endpointsForHostname hostname targets ttl providerSpecific setIdentifier.
Proof.
  destruct targets as [|t ts]; [done|]. intros _.
  unfold endpointsForHostname.
  destruct (filter (fun x => suitableType x = suitableType t) (t :: ts))
    as [|t' ts'] eqn:Hfilter.
  { rewrite filter_cons, decide_True in Hfilter by done. done. }
  eexists. apply list_elem_of_In, in_flat_map. exists (suitableType t). split.
  - destruct (suitableType t); simpl; auto.
  - rewrite Hfilter. by left.
Qed.

Lemma synthesize_named (annotations : gmap string string)
    (targets : list string) (hostname : string) :
  targets <> [] ->
  exists e,
    e ∈ synthesize annotations targets hostname
    /\ DNSName e = strings.TrimSuffix hostname ".".
Proof.
  intros Hne.
  destruct (endpointsForHostname_nonempty hostname targets
              (getTTLFromAnnotations annotations).1
              (getProviderSpecificAnnotations annotations).1
              (getProviderSpecificAnnotations annotations).2 Hne) as [e He].
  exists e. split; [done|]. by apply synthesize_elem in He as (? & _).
Qed.

Lemma flat_map_synthesize_named (annotations : gmap string string)
    (targets hostnames : list string) (hostname : string) :
  targets <> [] ->
  hostname ∈ hostnames ->
  exists e,
    e ∈ flat_map (synthesize annotations targets) hostnames
    /\ DNSName e = strings.TrimSuffix hostname ".".
Proof.
  intros Hne Hin.
  destruct (synthesize_named annotations targets hostname Hne)
    as (e & He & Hname).
  exists e. split; [|done].
  apply list_elem_of_In, in_flat_map. exists hostname.
  split; by apply list_elem_of_In.
Qed.

Section TurnProcesses.

(** The turn of an HTTPProxy that passes the filters, when the template
    of the source renders: its endpoints are those of the pipeline, with
    the resolved targets and the TTL of the annotations, and when there
    are targets its native hostname and the hostnames of its annotation
    are given endpoints. *)
Lemma httpproxy_turn_processes sc hp c :
  HTTPProxySpec.kept sc hp = true ->
  (forall tmpl, HTTPProxySource.fqdnTemplate sc = Some tmpl ->
                isOk (tmpl hp) = true) ->
  exists eps,
    (HTTPProxySource.Endpoints_body sc hp c).1 = Ok eps
    /\ eps = HTTPProxySource.setResourceLabel hp
               (HTTPProxySpec.native hp ++ HTTPProxySpec.fromAnnotation sc hp
                ++ HTTPProxySpec.usedTemplate sc hp)
    /\ (forall e, e ∈ eps ->
          Targets e = filter (fun t => suitableType t = RecordType e)
                        (HTTPProxySpec.targets hp)
          /\ Targets e <> []
          /\ RecordTTL e
             = (getTTLFromAnnotations (HTTPProxySource.Annotations hp)).1)
    /\ (HTTPProxySpec.targets hp <> [] ->
        (forall virtualHost,
            HTTPProxySource.Spec_VirtualHost hp = Some virtualHost ->
            HTTPProxySource.Fqdn virtualHost <> "" ->
            exists e,
              e ∈ eps
              /\ DNSName e
                 = strings.TrimSuffix (HTTPProxySource.Fqdn virtualHost) ".")
        /\ (HTTPProxySource.ignoreHostnameAnnotation sc = false ->
            forall hostname,
              hostname ∈ getHostnamesFromAnnotations
                           (HTTPProxySource.Annotations hp) ->
              exists e,
                e ∈ eps /\ DNSName e = strings.TrimSuffix hostname ".")).
Proof.
  intros Hkept Htmpl. eexists.
  split; [by apply httpproxy_Endpoints_body_result|]. split; [done|]. split.
  - intros e (e' & -> & He)%list_elem_of_fmap. simpl.
    pose proof (httpproxy_pipeline_targets _ _ _ He) as Hne.
    by apply httpproxy_pipeline_elem in He as [? ?].
  - intros Hne. split.
    + intros virtualHost Hvhost Hfqdn.
      destruct (synthesize_named (HTTPProxySource.Annotations hp)
                  (HTTPProxySpec.targets hp)
                  (HTTPProxySource.Fqdn virtualHost) Hne) as (e & He & Hname).
      exists (setLabel ResourceLabelKey
                ("HTTPProxy/" +:+ HTTPProxySource.Namespace hp +:+ "/"
                 +:+ HTTPProxySource.Name hp) e).
      split; [|done]. apply list_elem_of_fmap. exists e. split; [done|].
      apply elem_of_app. left. unfold HTTPProxySpec.native.
      by rewrite Hvhost, decide_False.
    + intros Hflag hostname Hin.
      destruct (flat_map_synthesize_named (HTTPProxySource.Annotations hp)
                  (HTTPProxySpec.targets hp) _ hostname Hne Hin)
        as (e & He & Hname).
      exists (setLabel ResourceLabelKey
                ("HTTPProxy/" +:+ HTTPProxySource.Namespace hp +:+ "/"
                 +:+ HTTPProxySource.Name hp) e).
      split; [|done]. apply list_elem_of_fmap. exists e. split; [done|].
      apply elem_of_app. right. apply elem_of_app. left.
      unfold HTTPProxySpec.fromAnnotation. by rewrite Hflag.
Qed.

Lemma ingressroute_turn_processes sc rt c :
  IngressRouteSpec.kept sc rt = true ->
  (forall tmpl, IngressRouteSource.fqdnTemplate sc = Some tmpl ->
                isOk (tmpl rt) = true) ->
  exists eps,
    (IngressRouteSource.Endpoints_body sc rt c).1 = Ok eps
    /\ eps = IngressRouteSource.setResourceLabel rt
               (IngressRouteSpec.native sc c rt
                ++ IngressRouteSpec.fromAnnotation sc c rt
                ++ IngressRouteSpec.usedTemplate sc c rt)
    /\ (forall e, e ∈ eps ->
          Targets e = filter (fun t => suitableType t = RecordType e)
                        (IngressRouteSpec.targets sc c rt)
          /\ Targets e <> []
          /\ RecordTTL e
             = (getTTLFromAnnotations (IngressRouteSource.Annotations rt)).1)
    /\ (IngressRouteSpec.targets sc c rt <> [] ->
        (forall virtualHost,
            IngressRouteSource.Spec_VirtualHost rt = Some virtualHost ->
            IngressRouteSource.Fqdn virtualHost <> "" ->
            exists e,
              e ∈ eps
              /\ DNSName e
                 = strings.TrimSuffix (IngressRouteSource.Fqdn virtualHost) ".")
        /\ (IngressRouteSource.ignoreHostnameAnnotation sc = false ->
            forall hostname,
              hostname ∈ getHostnamesFromAnnotations
                           (IngressRouteSource.Annotations rt) ->
              exists e,
                e ∈ eps /\ DNSName e = strings.TrimSuffix hostname ".")).
Proof.
  intros Hkept Htmpl. eexists.
  split; [by apply ingressroute_Endpoints_body_result|]. split; [done|]. split.
  - intros e (e' & -> & He)%list_elem_of_fmap. simpl.
    pose proof (ingressroute_pipeline_targets _ _ _ _ He) as Hne.
    by apply ingressroute_pipeline_elem in He as [? ?].
  - intros Hne. split.
    + intros virtualHost Hvhost Hfqdn.
      destruct (synthesize_named (IngressRouteSource.Annotations rt)
                  (IngressRouteSpec.targets sc c rt)
                  (IngressRouteSource.Fqdn virtualHost) Hne)
        as (e & He & Hname).
      exists (setLabel ResourceLabelKey
                ("ingressroute/" +:+ IngressRouteSource.Namespace rt +:+ "/"
                 +:+ IngressRouteSource.Name rt) e).
      split; [|done]. apply list_elem_of_fmap. exists e. split; [done|].
      apply elem_of_app. left. unfold IngressRouteSpec.native.
      by rewrite Hvhost, decide_False.
    + intros Hflag hostname Hin.
      destruct (flat_map_synthesize_named (IngressRouteSource.Annotations rt)
                  (IngressRouteSpec.targets sc c rt) _ hostname Hne Hin)
        as (e & He & Hname).
      exists (setLabel ResourceLabelKey
                ("ingressroute/" +:+ IngressRouteSource.Namespace rt +:+ "/"
                 +:+ IngressRouteSource.Name rt) e).
      split; [|done]. apply list_elem_of_fmap. exists e. split; [done|].
      apply elem_of_app. right. apply elem_of_app. left.
      unfold IngressRouteSpec.fromAnnotation. by rewrite Hflag.
Qed.

End TurnProcesses.

(** ** What a turn leaves in the log *)

Lemma bind_trace_l {A B} (m : M A) (k : A -> M B) (c : Cluster) (ev : event) :
  ev ∈ (m c).2 -> ev ∈ ((x <- m ;; k x) c).2.
Proof.
  unfold bind. destruct (m c) as [[a|e] t1]; simpl; [|done].
  destruct (k a c) as [r t2]. simpl. intros Hev. apply elem_of_app. by left.
Qed.

Lemma wrap_trace {A} (m : M A) (msg : string) (c : Cluster) :
  (wrap m msg c).2 = (m c).2.
Proof. unfold wrap. by destruct (m c) as [[a|e] t]. Qed.

(** The events of a turn are events of the loop that all turns let run
    to its end. *)
Lemma forRange_trace_elem {A B} (body : A -> M (list B)) (c : Cluster)
    (x : A) (xs : list A) (acc : list B) (ev : event) :
  x ∈ xs ->
  (forall y, y ∈ xs -> isOk (body y c).1 = true) ->
  ev ∈ (body x c).2 ->
  ev ∈ (forRange body xs acc c).2.
Proof.
  intros Hx Hall Hev. revert acc.
  induction xs as [|y xs IH]; intros acc; [by apply elem_of_nil in Hx|].
  simpl. unfold bind.
  pose proof (Hall y ltac:(left)) as Hy.
  destruct (body y c) as [[new|e] t1] eqn:Hbody; [|done].
  destruct (forRange body xs (acc ++ new) c) as [r t2] eqn:Hrest. simpl.
  apply elem_of_app. apply elem_of_cons in Hx as [->|Hx].
  - left. by rewrite Hbody in Hev.
  - right. specialize (IH Hx ltac:(intros; apply Hall; by right) (acc ++ new)).
    by rewrite Hrest in IH.
Qed.

Lemma httpproxy_turn_warns sc hp c err :
  HTTPProxySpec.kept sc hp = true ->
  (getTTLFromAnnotations (HTTPProxySource.Annotations hp)).2 = Some err ->
  Warn err ∈ (HTTPProxySource.Endpoints_body sc hp c).2.
Proof.
  unfold HTTPProxySpec.kept.
  intros [[Hsel Hctl]%andb_prop Hvalid%bool_decide_eq_true]%andb_prop Herr.
  apply negb_true_iff in Hctl.
  unfold HTTPProxySource.Endpoints_body. rewrite Hsel, Hctl. simpl.
  case_decide; [done|]. apply bind_trace_l. rewrite wrap_trace.
  unfold HTTPProxySource.endpointsFromHTTPProxy. case_decide; [done|].
  destruct (getTTLFromAnnotations _) as [ttl err']. simpl in Herr. subst err'.
  apply bind_trace_l. simpl. by left.
Qed.

Lemma ingressroute_turn_warns sc rt c err :
  IngressRouteSpec.kept sc rt = true ->
  (getTTLFromAnnotations (IngressRouteSource.Annotations rt)).2 = Some err ->
  Warn err ∈ (IngressRouteSource.Endpoints_body sc rt c).2.
Proof.
  unfold IngressRouteSpec.kept.
  intros [[Hsel Hctl]%andb_prop Hvalid%bool_decide_eq_true]%andb_prop Herr.
  apply negb_true_iff in Hctl.
  unfold IngressRouteSource.Endpoints_body. rewrite Hsel, Hctl. simpl.
  case_decide; [done|]. apply bind_trace_l.
  unfold IngressRouteSource.endpointsFromIngressRoute. case_decide; [done|].
  destruct (getTTLFromAnnotations _) as [ttl err']. simpl in Herr. subst err'.
  apply bind_trace_l. simpl. by left.
Qed.

(** ** Turns that do not read the cluster *)

Section ClusterFree.

Lemma clusterFree_ret {A} (a : A) : clusterFree (ret a).
Proof. done. Qed.

Lemma clusterFree_fail {A} (e : error) : clusterFree (@fail A e).
Proof. done. Qed.

Lemma clusterFree_logWarn (msg : string) : clusterFree (logWarn msg).
Proof. done. Qed.

Lemma clusterFree_warnIfError (err : option error) :
  clusterFree (warnIfError err).
Proof. by destruct err. Qed.

Lemma clusterFree_bind {A B} (m : M A) (k : A -> M B) :
  clusterFree m -> (forall a, clusterFree (k a)) ->
  clusterFree (x <- m ;; k x).
Proof.
  intros Hm Hk c c'. unfold bind. rewrite (Hm c c').
  destruct (m c') as [[a|e] t1]; [|done]. by rewrite (Hk a c c').
Qed.

Import IngressRouteSource.

Variables (sc : ingressRouteSource) (rt : IngressRoute).

Hypothesis Hoverride :
  getTargetsFromTargetAnnotation (Annotations rt) <> [].

Lemma ingressroute_resolve_clusterFree :
  clusterFree
    (if decide (length (getTargetsFromTargetAnnotation (Annotations rt)) = 0%nat)
     then targetsFromContourLoadBalancer sc
     else ret (getTargetsFromTargetAnnotation (Annotations rt))).
Proof.
  case_decide as Hlen; [|apply clusterFree_ret].
  by apply length_zero_iff_nil in Hlen.
Qed.

Lemma endpointsFromIngressRoute_clusterFree :
  clusterFree (endpointsFromIngressRoute sc rt).
Proof.
  unfold endpointsFromIngressRoute.
  case_decide.
  - apply clusterFree_bind; [apply clusterFree_logWarn|].
    intros; apply clusterFree_ret.
  - destruct (getTTLFromAnnotations _) as [ttl err].
    apply clusterFree_bind; [apply clusterFree_warnIfError|]. intros _.
    apply clusterFree_bind; [apply ingressroute_resolve_clusterFree|].
    intros targets.
    destruct (getProviderSpecificAnnotations _). apply clusterFree_ret.
Qed.

Lemma ingressroute_endpointsFromTemplate_clusterFree
    (tmpl : Template IngressRoute) :
  clusterFree (endpointsFromTemplate sc tmpl rt).
Proof.
  unfold endpointsFromTemplate.
  destruct (tmpl rt); [|apply clusterFree_fail].
  destruct (getTTLFromAnnotations _) as [ttl err].
  apply clusterFree_bind; [apply clusterFree_warnIfError|]. intros _.
  apply clusterFree_bind; [apply ingressroute_resolve_clusterFree|].
  intros targets.
  destruct (getProviderSpecificAnnotations _). apply clusterFree_ret.
Qed.

Lemma ingressroute_Endpoints_body_clusterFree :
  clusterFree (Endpoints_body sc rt).
Proof.
  unfold Endpoints_body.
  destruct (negb _); [apply clusterFree_ret|].
  destruct (otherController _); [apply clusterFree_ret|].
  case_decide; [apply clusterFree_ret|].
  apply clusterFree_bind; [apply endpointsFromIngressRoute_clusterFree|].
  intros eps. apply clusterFree_bind.
  - destruct (fqdnTemplate sc) as [tmpl|]; [|apply clusterFree_ret].
    destruct (_ || _); [|apply clusterFree_ret].
    apply clusterFree_bind;
      [apply ingressroute_endpointsFromTemplate_clusterFree|].
    intros; apply clusterFree_ret.
  - intros eps'. case_decide; apply clusterFree_ret.
Qed.

End ClusterFree.

(** ** Kong TCPIngresses, labelled *)

Lemma kong_labelled_elem (ti : KongTCPIngressSource.TCPIngress)
    (eps : list Endpoint) (e : Endpoint) :
  e ∈ eps ->
  exists e',
    e' ∈ KongTCPIngressSource.setDualstackLabel ti
           (KongTCPIngressSource.setResourceLabel ti eps)
    /\ DNSName e' = DNSName e
    /\ Targets e' = Targets e
    /\ RecordTTL e' = RecordTTL e.
Proof.
  intros He.
  assert (setLabel ResourceLabelKey
            ("tcpingress/" +:+ KongTCPIngressSource.Namespace ti +:+ "/"
             +:+ KongTCPIngressSource.Name ti) e
          ∈ KongTCPIngressSource.setResourceLabel ti eps) as Hlabelled.
  { apply list_elem_of_fmap. by exists e. }
  unfold KongTCPIngressSource.setDualstackLabel.
  destruct (_ !! ALBDualstackAnnotationKey); [case_decide|].
  - eexists (setLabel DualstackLabelKey "true" _). split.
    + apply list_elem_of_fmap. eexists. split; [reflexivity|exact Hlabelled].
    + done.
  - eexists. split; [exact Hlabelled|done].
  - eexists. split; [exact Hlabelled|done].
Qed.

Lemma kong_labelled_from (ti : KongTCPIngressSource.TCPIngress)
    (eps : list Endpoint) (e : Endpoint) :
  e ∈ KongTCPIngressSource.setDualstackLabel ti
        (KongTCPIngressSource.setResourceLabel ti eps) ->
  exists e',
    e' ∈ eps
    /\ DNSName e = DNSName e'
    /\ Targets e = Targets e'
    /\ RecordType e = RecordType e'
    /\ RecordTTL e = RecordTTL e'.
Proof.
  unfold KongTCPIngressSource.setDualstackLabel. intros He.
  destruct (_ !! ALBDualstackAnnotationKey); [case_decide|].
  - apply list_elem_of_fmap in He as (e1 & -> & He).
    apply list_elem_of_fmap in He as (e2 & -> & He). by exists e2.
  - apply list_elem_of_fmap in He as (e2 & -> & He). by exists e2.
  - apply list_elem_of_fmap in He as (e2 & -> & He). by exists e2.
Qed.

Lemma kong_pipeline_ttl (ti : KongTCPIngressSource.TCPIngress) (e : Endpoint) :
  e ∈ KongTCPIngressSpec.fromAnnotation ti ++ KongTCPIngressSpec.native ti ->
  RecordTTL e
  = (getTTLFromAnnotations (KongTCPIngressSource.Annotations ti)).1.
Proof.
  intros [He|He]%elem_of_app.
  - unfold KongTCPIngressSpec.fromAnnotation in He.
    by apply flat_map_synthesize_elem in He as (? & _ & _ & _ & ?).
  - unfold KongTCPIngressSpec.native in He.
    apply list_elem_of_In, in_flat_map in He as (rule & _ & He).
    case_decide; [done|].
    by apply list_elem_of_In, synthesize_elem in He as (_ & _ & ?).
Qed.

(** ** The target annotation *)

(** C1, as the adapters have it. HTTPProxy and IngressRoute: when the
    target annotation gives targets, these are the comma-separated values
    of the annotation and they are the resolved targets; a resource that
    passes the filters is given the endpoints of the pipeline, each with
    the targets of the annotation that suit its record type, and its
    native hostname and the hostnames of its annotation are given an
    endpoint; the load balancer is not consulted: the endpoints of an
    HTTPProxy are the same under any other load-balancer status, and the
    turn of an IngressRoute looks no service up and returns the same in
    any cluster. Kong TCPIngress, Ambassador Host and Gloo Proxy: the
    target annotation is not read; the targets of a TCPIngress are those
    of its status, the turn of a Host is the same with a target annotation,
    and the endpoints of a Proxy have the targets of its service. With the
    annotation "1.2.3.4" and a load balancer, the one endpoint of the
    HTTPProxy, and of the IngressRoute, has the target "1.2.3.4" and the
    record type A. *)
Theorem target_annotation_overrides_load_balancer :
  (forall sc hp c,
      getTargetsFromTargetAnnotation (HTTPProxySource.Annotations hp) <> [] ->
      (exists v,
          HTTPProxySource.Annotations hp !! targetAnnotationKey = Some v
          /\ getTargetsFromTargetAnnotation (HTTPProxySource.Annotations hp)
             = strings.Split v ",")
      /\ HTTPProxySpec.targets hp
         = getTargetsFromTargetAnnotation (HTTPProxySource.Annotations hp)
      /\ ((forall tmpl, HTTPProxySource.fqdnTemplate sc = Some tmpl ->
                        isOk (tmpl hp) = true) ->
          exists eps,
            (HTTPProxySource.Endpoints_body sc hp c).1 = Ok eps
            /\ forall e, e ∈ eps ->
                 Targets e
                 = filter (fun t => suitableType t = RecordType e)
                     (getTargetsFromTargetAnnotation
                        (HTTPProxySource.Annotations hp)))
      /\ (forall ingress,
             HTTPProxySource.endpointsFromHTTPProxy sc
               (HTTPProxySpec.withLoadBalancer hp ingress) c
             = HTTPProxySource.endpointsFromHTTPProxy sc hp c
             /\ forall tmpl,
                  tmpl (HTTPProxySpec.withLoadBalancer hp ingress) = tmpl hp ->
                  HTTPProxySource.endpointsFromTemplate tmpl
                    (HTTPProxySpec.withLoadBalancer hp ingress) c
                  = HTTPProxySource.endpointsFromTemplate tmpl hp c)
      /\ (HTTPProxySpec.kept sc hp = true ->
          (forall tmpl, HTTPProxySource.fqdnTemplate sc = Some tmpl ->
                        isOk (tmpl hp) = true) ->
          exists eps,
            (HTTPProxySource.Endpoints_body sc hp c).1 = Ok eps
            /\ eps = HTTPProxySource.setResourceLabel hp
                       (HTTPProxySpec.native hp
                        ++ HTTPProxySpec.fromAnnotation sc hp
                        ++ HTTPProxySpec.usedTemplate sc hp)
            /\ (forall e, e ∈ eps ->
                  Targets e
                  = filter (fun t => suitableType t = RecordType e)
                      (getTargetsFromTargetAnnotation
                         (HTTPProxySource.Annotations hp))
                  /\ Targets e <> [])
            /\ (forall virtualHost,
                   HTTPProxySource.Spec_VirtualHost hp = Some virtualHost ->
                   HTTPProxySource.Fqdn virtualHost <> "" ->
                   exists e,
                     e ∈ eps
                     /\ DNSName e
                        = strings.TrimSuffix
                            (HTTPProxySource.Fqdn virtualHost) ".")
            /\ (HTTPProxySource.ignoreHostnameAnnotation sc = false ->
                forall hostname,
                  hostname ∈ getHostnamesFromAnnotations
                               (HTTPProxySource.Annotations hp) ->
                  exists e,
                    e ∈ eps
                    /\ DNSName e = strings.TrimSuffix hostname ".")))
  /\ (forall sc rt c,
         getTargetsFromTargetAnnotation (IngressRouteSource.Annotations rt) <> [] ->
         (exists v,
             IngressRouteSource.Annotations rt !! targetAnnotationKey = Some v
             /\ getTargetsFromTargetAnnotation (IngressRouteSource.Annotations rt)
                = strings.Split v ",")
         /\ IngressRouteSpec.targets sc c rt
            = getTargetsFromTargetAnnotation (IngressRouteSource.Annotations rt)
         /\ ((forall tmpl, IngressRouteSource.fqdnTemplate sc = Some tmpl ->
                           isOk (tmpl rt) = true) ->
             exists eps,
               (IngressRouteSource.Endpoints_body sc rt c).1 = Ok eps
               /\ forall e, e ∈ eps ->
                    Targets e
                    = filter (fun t => suitableType t = RecordType e)
                        (getTargetsFromTargetAnnotation
                           (IngressRouteSource.Annotations rt)))
         /\ Forall isWarn (IngressRouteSource.Endpoints_body sc rt c).2
         /\ (forall c',
                IngressRouteSource.Endpoints_body sc rt c'
                = IngressRouteSource.Endpoints_body sc rt c)
         /\ (IngressRouteSpec.kept sc rt = true ->
             (forall tmpl, IngressRouteSource.fqdnTemplate sc = Some tmpl ->
                           isOk (tmpl rt) = true) ->
             exists eps,
               (IngressRouteSource.Endpoints_body sc rt c).1 = Ok eps
               /\ eps = IngressRouteSource.setResourceLabel rt
                          (IngressRouteSpec.native sc c rt
                           ++ IngressRouteSpec.fromAnnotation sc c rt
                           ++ IngressRouteSpec.usedTemplate sc c rt)
               /\ (forall e, e ∈ eps ->
                     Targets e
                     = filter (fun t => suitableType t = RecordType e)
                         (getTargetsFromTargetAnnotation
                            (IngressRouteSource.Annotations rt))
                     /\ Targets e <> [])
               /\ (forall virtualHost,
                      IngressRouteSource.Spec_VirtualHost rt = Some virtualHost ->
                      IngressRouteSource.Fqdn virtualHost <> "" ->
                      exists e,
                        e ∈ eps
                        /\ DNSName e
                           = strings.TrimSuffix
                               (IngressRouteSource.Fqdn virtualHost) ".")
               /\ (IngressRouteSource.ignoreHostnameAnnotation sc = false ->
                   forall hostname,
                     hostname ∈ getHostnamesFromAnnotations
                                  (IngressRouteSource.Annotations rt) ->
                     exists e,
                       e ∈ eps
                       /\ DNSName e = strings.TrimSuffix hostname ".")))
  /\ (forall sc ti c part t,
         KongTCPIngressSource.Endpoints_body sc ti c = (Ok part, t) ->
         forall e, e ∈ part ->
           Targets e
           = filter (fun t => suitableType t = RecordType e)
               (targetsFromIngress
                  (KongTCPIngressSource.Status_LoadBalancer_Ingress ti)))
  /\ (forall sc host c value,
         AmbassadorHostSource.Endpoints_body sc
           (withTargetAnnotation host value) c
         = AmbassadorHostSource.Endpoints_body sc host c)
  /\ (forall gs proxy targets c eps t,
         GlooSource.endpointsFromProxy gs proxy targets c = (Ok eps, t) ->
         forall e, e ∈ eps ->
           Targets e
           = filter (fun t => suitableType t = RecordType e) targets)
  /\ (Fixtures.fake3.(HTTPProxySource.Annotations) !! targetAnnotationKey
      = Some "1.2.3.4"
      /\ Fixtures.fake3.(HTTPProxySource.Status_LoadBalancer_Ingress)
         = [Fixtures.lbIP "8.8.8.8"]
      /\ exists ep,
           (HTTPProxySource.Endpoints Fixtures.httpProxySrc [Fixtures.fake3]
              Fixtures.emptyCluster).1 = Ok [ep]
           /\ Targets ep = ["1.2.3.4"]
           /\ RecordType ep = RecordTypeA)
  /\ (Fixtures.routeWithTarget.(IngressRouteSource.Annotations)
        !! targetAnnotationKey = Some "1.2.3.4"
      /\ IngressRouteSpec.loadBalancerTargets Fixtures.ingressRouteSrc
           Fixtures.contourCluster = ["8.8.8.8"]
      /\ exists ep,
           IngressRouteSource.Endpoints Fixtures.ingressRouteSrc
             [Fixtures.routeWithTarget] Fixtures.contourCluster
           = (Ok [ep], [])
           /\ DNSName ep = "example3.org"
           /\ Targets ep = ["1.2.3.4"]
           /\ RecordType ep = RecordTypeA).
Proof.
  split; [|split; [|split; [|split; [|split; [|split]]]]].
  - intros sc hp c Hoverride.
    assert (HTTPProxySpec.targets hp
            = getTargetsFromTargetAnnotation (HTTPProxySource.Annotations hp))
      as Htargets by (unfold HTTPProxySpec.targets; simpl; by case_decide).
    split; [by apply getTargetsFromTargetAnnotation_override|].
    split; [done|]. split; [|split].
    + intros Htmpl.
      destruct (httpproxy_turn sc hp c Htmpl) as (eps & Heps & Hall).
      exists eps. split; [done|]. intros e He.
      destruct (Hall e He) as [-> _]. by rewrite Htargets.
    + intros ingress. split.
      * unfold HTTPProxySource.endpointsFromHTTPProxy,
          HTTPProxySpec.withLoadBalancer.
        cbn [HTTPProxySource.Annotations HTTPProxySource.Status_CurrentStatus
             HTTPProxySource.Spec_VirtualHost
             HTTPProxySource.Status_LoadBalancer_Ingress].
        rewrite !override_or_else.
        by destruct (decide (getTargetsFromTargetAnnotation
                               (HTTPProxySource.Annotations hp) = [])).
      * intros tmpl Hsame.
        unfold HTTPProxySource.endpointsFromTemplate. rewrite Hsame.
        unfold HTTPProxySpec.withLoadBalancer.
        cbn [HTTPProxySource.Annotations HTTPProxySource.Namespace
             HTTPProxySource.Name HTTPProxySource.Status_LoadBalancer_Ingress].
        rewrite !override_or_else.
        by destruct (decide (getTargetsFromTargetAnnotation
                               (HTTPProxySource.Annotations hp) = [])).
    + intros Hkept Htmpl.
      destruct (httpproxy_turn_processes sc hp c Hkept Htmpl)
        as (eps & Hrun & Heps & Hall & Hnamed).
      rewrite Htargets in Hall, Hnamed.
      destruct (Hnamed Hoverride) as [Hnative Hannotation].
      exists eps. repeat (split; [done|]). split; [|done].
      intros e He. by destruct (Hall e He) as (? & ? & _).
  - intros sc rt c Hoverride.
    assert (IngressRouteSpec.targets sc c rt
            = getTargetsFromTargetAnnotation (IngressRouteSource.Annotations rt))
      as Htargets by (unfold IngressRouteSpec.targets; simpl; by case_decide).
    split; [by apply getTargetsFromTargetAnnotation_override|].
    split; [done|]. split; [|split; [|split]].
    + intros Htmpl.
      destruct (ingressroute_turn sc rt c Htmpl) as (eps & Heps & Hall).
      exists eps. split; [done|]. intros e He.
      destruct (Hall e He) as [-> _]. by rewrite Htargets.
    + by apply ingressroute_Endpoints_body_quiet.
    + intros c'. by apply ingressroute_Endpoints_body_clusterFree.
    + intros Hkept Htmpl.
      destruct (ingressroute_turn_processes sc rt c Hkept Htmpl)
        as (eps & Hrun & Heps & Hall & Hnamed).
      rewrite Htargets in Hall, Hnamed.
      destruct (Hnamed Hoverride) as [Hnative Hannotation].
      exists eps. repeat (split; [done|]). split; [|done].
      intros e He. by destruct (Hall e He) as (? & ? & _).
  - intros sc ti c part t Hbody e He.
    apply kong_turn_endpoints in Hbody as [->| ->];
      [by apply elem_of_nil in He|].
    apply kong_labelled_from in He as (e' & He' & _ & -> & -> & _).
    by apply kong_pipeline_elem in He' as (? & _).
  - intros sc host c value.
    assert (forall key, key <> targetAnnotationKey ->
              AmbassadorHostSource.Annotations (withTargetAnnotation host value)
                !! key
              = AmbassadorHostSource.Annotations host !! key) as Hother.
    { intros key Hkey. unfold withTargetAnnotation. simpl.
      by rewrite lookup_insert_ne. }
    unfold AmbassadorHostSource.Endpoints_body,
      AmbassadorHostSource.endpointsFromHost, getTTLFromAnnotations.
    rewrite !Hother by (intros Heq; vm_compute in Heq; discriminate).
    done.
  - intros gs proxy targets c eps t Hrun e He.
    unfold GlooSource.endpointsFromProxy in Hrun.
    destruct (forRange_elem_of _ _ _ _ _ _ _ Hrun He)
      as [?%elem_of_nil|(listener & part & t1 & _ & Hlistener & Hpart)];
      [done|].
    destruct (forRange_elem_of _ _ _ _ _ _ _ Hlistener Hpart)
      as [?%elem_of_nil|(vhost & part' & t2 & _ & Hvhost & Hpart')]; [done|].
    apply bind_Ok in Hvhost as (annotations & t3 & t4 & _ & Hvhost & _).
    destruct (getTTLFromAnnotations _) as [ttl [err|]]; [done|].
    destruct (getProviderSpecificAnnotations _)
      as [providerSpecific setIdentifier].
    injection Hvhost as <- _.
    apply list_elem_of_In, in_flat_map in Hpart' as (domain & _ & Hdomain).
    by apply list_elem_of_In, endpointsForHostname_elem in Hdomain
        as (_ & ? & _).
  - split; [vm_compute; reflexivity|]. split; [reflexivity|].
    eexists. split; [vm_compute; reflexivity|]. split; reflexivity.
  - split; [vm_compute; reflexivity|]. split; [vm_compute; reflexivity|].
    eexists. split; [vm_compute; reflexivity|]. repeat split; reflexivity.
Qed.

(** The Kong adapter does not read the target annotation: with the
    annotation "1.2.3.4" the endpoints of the TCPIngress have the hostname
    of its load-balancer status as their target, and the record type
    CNAME. *)
Lemma kong_ignores_target_annotation :
  getTargetsFromTargetAnnotation
    (KongTCPIngressSource.Annotations Fixtures.tcpIngressWithTarget)
  = ["1.2.3.4"]
  /\ exists eps,
       (KongTCPIngressSource.Endpoints Fixtures.kongSrc
          [Fixtures.tcpIngressWithTarget] Fixtures.emptyCluster).1 = Ok eps
       /\ map DNSName eps = ["d.example.com"; "e.example.com"; "f.example.com"]
       /\ map Targets eps
          = [["a12e71861a4303f063456769a314a3bd-1291189659.us-east-1.elb.amazonaws.com"];
             ["a12e71861a4303f063456769a314a3bd-1291189659.us-east-1.elb.amazonaws.com"];
             ["a12e71861a4303f063456769a314a3bd-1291189659.us-east-1.elb.amazonaws.com"]]
       /\ map RecordType eps
          = [RecordTypeCNAME; RecordTypeCNAME; RecordTypeCNAME].
Proof.
  split; [vm_compute; reflexivity|].
  eexists. split; [vm_compute; reflexivity|]. repeat split; reflexivity.
Qed.

(** ** The TTL annotation *)

(** C4, as the adapters have it. HTTPProxy and IngressRoute: with the TTL
    annotation missing, or with one for which [getTTLFromAnnotations]
    returns an error, the turn of the resource succeeds whenever its
    template renders and its endpoints have TTL 0; the resource is still
    processed: when it passes the filters its endpoints are those of the
    pipeline, with its resolved targets, and its native hostname and the
    hostnames of its annotation are given an endpoint; the error is a
    warning of the log of the turn and of the pass, and a pass fails only
    when a template does. Kong TCPIngress: without the annotation the
    endpoints are those of the pipeline, with TTL 0; the error of the
    annotation is the error of the turn and of the pass. Ambassador Host:
    the error of the annotation is the error of [endpointsFromHost]. A
    value that does not parse gives the error that names it; durations
    parse, and "10s" on an HTTPProxy gives its endpoint the TTL 10. *)
Theorem ttl_missing_or_invalid :
  (forall sc hp c,
      ttlMissingOrInvalid (HTTPProxySource.Annotations hp) ->
      (forall tmpl, HTTPProxySource.fqdnTemplate sc = Some tmpl ->
                    isOk (tmpl hp) = true) ->
      exists eps,
        (HTTPProxySource.Endpoints_body sc hp c).1 = Ok eps
        /\ forall e, e ∈ eps -> RecordTTL e = 0)
  /\ (forall sc hps c,
         (forall tmpl hp, HTTPProxySource.fqdnTemplate sc = Some tmpl ->
                          hp ∈ hps -> isOk (tmpl hp) = true) ->
         isOk (HTTPProxySource.Endpoints sc hps c).1 = true)
  /\ (forall sc rt c,
         ttlMissingOrInvalid (IngressRouteSource.Annotations rt) ->
         (forall tmpl, IngressRouteSource.fqdnTemplate sc = Some tmpl ->
                       isOk (tmpl rt) = true) ->
         exists eps,
           (IngressRouteSource.Endpoints_body sc rt c).1 = Ok eps
           /\ forall e, e ∈ eps -> RecordTTL e = 0)
  /\ (forall sc rts c,
         (forall tmpl rt, IngressRouteSource.fqdnTemplate sc = Some tmpl ->
                          rt ∈ rts -> isOk (tmpl rt) = true) ->
         isOk (IngressRouteSource.Endpoints sc rts c).1 = true)
  /\ (forall sc hp c,
         ttlMissingOrInvalid (HTTPProxySource.Annotations hp) ->
         HTTPProxySpec.kept sc hp = true ->
         (forall tmpl, HTTPProxySource.fqdnTemplate sc = Some tmpl ->
                       isOk (tmpl hp) = true) ->
         exists eps,
           (HTTPProxySource.Endpoints_body sc hp c).1 = Ok eps
           /\ eps = HTTPProxySource.setResourceLabel hp
                      (HTTPProxySpec.native hp
                       ++ HTTPProxySpec.fromAnnotation sc hp
                       ++ HTTPProxySpec.usedTemplate sc hp)
           /\ (forall e, e ∈ eps ->
                 RecordTTL e = 0
                 /\ Targets e
                    = filter (fun t => suitableType t = RecordType e)
                        (HTTPProxySpec.targets hp)
                 /\ Targets e <> [])
           /\ (HTTPProxySpec.targets hp <> [] ->
               (forall virtualHost,
                   HTTPProxySource.Spec_VirtualHost hp = Some virtualHost ->
                   HTTPProxySource.Fqdn virtualHost <> "" ->
                   exists e,
                     e ∈ eps
                     /\ DNSName e
                        = strings.TrimSuffix
                            (HTTPProxySource.Fqdn virtualHost) ".")
               /\ (HTTPProxySource.ignoreHostnameAnnotation sc = false ->
                   forall hostname,
                     hostname ∈ getHostnamesFromAnnotations
                                  (HTTPProxySource.Annotations hp) ->
                     exists e,
                       e ∈ eps
                       /\ DNSName e = strings.TrimSuffix hostname ".")))
  /\ (forall sc hp c err,
         (getTTLFromAnnotations (HTTPProxySource.Annotations hp)).2 = Some err ->
         HTTPProxySpec.kept sc hp = true ->
         Warn err ∈ (HTTPProxySource.Endpoints_body sc hp c).2
         /\ forall hps,
              hp ∈ hps ->
              (forall tmpl hp', HTTPProxySource.fqdnTemplate sc = Some tmpl ->
                                hp' ∈ hps -> isOk (tmpl hp') = true) ->
              isOk (HTTPProxySource.Endpoints sc hps c).1 = true
              /\ Warn err ∈ (HTTPProxySource.Endpoints sc hps c).2)
  /\ (forall sc rt c,
         ttlMissingOrInvalid (IngressRouteSource.Annotations rt) ->
         IngressRouteSpec.kept sc rt = true ->
         (forall tmpl, IngressRouteSource.fqdnTemplate sc = Some tmpl ->
                       isOk (tmpl rt) = true) ->
         exists eps,
           (IngressRouteSource.Endpoints_body sc rt c).1 = Ok eps
           /\ eps = IngressRouteSource.setResourceLabel rt
                      (IngressRouteSpec.native sc c rt
                       ++ IngressRouteSpec.fromAnnotation sc c rt
                       ++ IngressRouteSpec.usedTemplate sc c rt)
           /\ (forall e, e ∈ eps ->
                 RecordTTL e = 0
                 /\ Targets e
                    = filter (fun t => suitableType t = RecordType e)
                        (IngressRouteSpec.targets sc c rt)
                 /\ Targets e <> [])
           /\ (IngressRouteSpec.targets sc c rt <> [] ->
               (forall virtualHost,
                   IngressRouteSource.Spec_VirtualHost rt = Some virtualHost ->
                   IngressRouteSource.Fqdn virtualHost <> "" ->
                   exists e,
                     e ∈ eps
                     /\ DNSName e
                        = strings.TrimSuffix
                            (IngressRouteSource.Fqdn virtualHost) ".")
               /\ (IngressRouteSource.ignoreHostnameAnnotation sc = false ->
                   forall hostname,
                     hostname ∈ getHostnamesFromAnnotations
                                  (IngressRouteSource.Annotations rt) ->
                     exists e,
                       e ∈ eps
                       /\ DNSName e = strings.TrimSuffix hostname ".")))
  /\ (forall sc rt c err,
         (getTTLFromAnnotations (IngressRouteSource.Annotations rt)).2
         = Some err ->
         IngressRouteSpec.kept sc rt = true ->
         Warn err ∈ (IngressRouteSource.Endpoints_body sc rt c).2
         /\ forall rts,
              rt ∈ rts ->
              (forall tmpl rt', IngressRouteSource.fqdnTemplate sc = Some tmpl ->
                                rt' ∈ rts -> isOk (tmpl rt') = true) ->
              isOk (IngressRouteSource.Endpoints sc rts c).1 = true
              /\ Warn err ∈ (IngressRouteSource.Endpoints sc rts c).2)
  /\ (forall sc ti c,
         KongTCPIngressSource.Annotations ti !! ttlAnnotationKey = None ->
         exists eps,
           (KongTCPIngressSource.Endpoints_body sc ti c).1 = Ok eps
           /\ (forall e, e ∈ eps -> RecordTTL e = 0)
           /\ (KongTCPIngressSource.annotationSelector sc
                 (KongTCPIngressSource.Annotations ti) = true ->
               eps = KongTCPIngressSource.setDualstackLabel ti
                       (KongTCPIngressSource.setResourceLabel ti
                          (KongTCPIngressSpec.fromAnnotation ti
                           ++ KongTCPIngressSpec.native ti))
               /\ (KongTCPIngressSpec.targets ti <> [] ->
                   forall rule,
                     rule ∈ KongTCPIngressSource.Spec_Rules ti ->
                     KongTCPIngressSource.Host rule <> "" ->
                     exists e,
                       e ∈ eps
                       /\ DNSName e
                          = strings.TrimSuffix
                              (KongTCPIngressSource.Host rule) ".")))
  /\ (forall sc ti c err,
         KongTCPIngressSource.annotationSelector sc
           (KongTCPIngressSource.Annotations ti) = true ->
         (getTTLFromAnnotations (KongTCPIngressSource.Annotations ti)).2
         = Some err ->
         KongTCPIngressSource.Endpoints_body sc ti c = (Err err, [])
         /\ forall tis, ti ∈ tis ->
              isOk (KongTCPIngressSource.Endpoints sc tis c).1 = false)
  /\ (forall sc host targets c err,
         (getTTLFromAnnotations (AmbassadorHostSource.Annotations host)).2
         = Some err ->
         AmbassadorHostSource.endpointsFromHost sc host targets c
         = (Err err, []))
  /\ (forall annotations v,
         annotations !! ttlAnnotationKey = Some v ->
         parseTTL v = None ->
         getTTLFromAnnotations annotations
         = (0, Some (v +:+ " is not a valid TTL value")))
  /\ (parseTTL "600" = Some 600
      /\ parseTTL "10s" = Some 10
      /\ parseTTL "1h30m" = Some 5400
      /\ parseTTL "1.5s" = Some 1
      /\ parseTTL "abc" = None
      /\ getTTLFromAnnotations {[ ttlAnnotationKey := "1h30m" ]} = (5400, None)
      /\ exists ep,
           (HTTPProxySource.Endpoints Fixtures.httpProxySrc
              [Fixtures.httpProxyDurationTTL] Fixtures.emptyCluster).1
           = Ok [ep]
           /\ RecordTTL ep = 10).
Proof.
  assert (forall sc hp c,
             ttlMissingOrInvalid (HTTPProxySource.Annotations hp) ->
             (forall tmpl, HTTPProxySource.fqdnTemplate sc = Some tmpl ->
                           isOk (tmpl hp) = true) ->
             exists eps,
               (HTTPProxySource.Endpoints_body sc hp c).1 = Ok eps
               /\ forall e, e ∈ eps -> RecordTTL e = 0) as Hhttpproxy.
  { intros sc hp c Httl Htmpl.
    destruct (httpproxy_turn sc hp c Htmpl) as (eps & Heps & Hall).
    exists eps. split; [done|]. intros e He.
    destruct (Hall e He) as [_ ->].
    by apply getTTLFromAnnotations_missing_or_invalid. }
  assert (forall sc rt c,
             ttlMissingOrInvalid (IngressRouteSource.Annotations rt) ->
             (forall tmpl, IngressRouteSource.fqdnTemplate sc = Some tmpl ->
                           isOk (tmpl rt) = true) ->
             exists eps,
               (IngressRouteSource.Endpoints_body sc rt c).1 = Ok eps
               /\ forall e, e ∈ eps -> RecordTTL e = 0) as Hroute.
  { intros sc rt c Httl Htmpl.
    destruct (ingressroute_turn sc rt c Htmpl) as (eps & Heps & Hall).
    exists eps. split; [done|]. intros e He.
    destruct (Hall e He) as [_ ->].
    by apply getTTLFromAnnotations_missing_or_invalid. }
  split; [done|]. split; [apply httpproxy_pass_total|].
  split; [done|]. split; [apply ingressroute_pass_total|].
  split; [|split; [|split; [|split; [|split; [|split; [|split; [|split]]]]]]].
  - intros sc hp c Httl Hkept Htmpl.
    destruct (httpproxy_turn_processes sc hp c Hkept Htmpl)
      as (eps & Hrun & Heps & Hall & Hnamed).
    exists eps. repeat (split; [done|]). split; [|done].
    intros e He. destruct (Hall e He) as (? & ? & ->).
    by rewrite getTTLFromAnnotations_missing_or_invalid.
  - intros sc hp c err Herr Hkept.
    pose proof (httpproxy_turn_warns sc hp c err Hkept Herr) as Hwarn.
    split; [done|]. intros hps Hhp Htmpl.
    split; [by apply httpproxy_pass_total|].
    unfold HTTPProxySource.Endpoints. apply bind_trace_l.
    apply (forRange_trace_elem _ _ hp); [done| |done].
    intros hp' Hhp'.
    destruct (httpproxy_turn sc hp' c) as (eps & -> & _); [|done].
    intros tmpl Htm. by apply Htmpl.
  - intros sc rt c Httl Hkept Htmpl.
    destruct (ingressroute_turn_processes sc rt c Hkept Htmpl)
      as (eps & Hrun & Heps & Hall & Hnamed).
    exists eps. repeat (split; [done|]). split; [|done].
    intros e He. destruct (Hall e He) as (? & ? & ->).
    by rewrite getTTLFromAnnotations_missing_or_invalid.
  - intros sc rt c err Herr Hkept.
    pose proof (ingressroute_turn_warns sc rt c err Hkept Herr) as Hwarn.
    split; [done|]. intros rts Hrt Htmpl.
    split; [by apply ingressroute_pass_total|].
    unfold IngressRouteSource.Endpoints. apply bind_trace_l.
    apply (forRange_trace_elem _ _ rt); [done| |done].
    intros rt' Hrt'.
    destruct (ingressroute_turn sc rt' c) as (eps & -> & _); [|done].
    intros tmpl Htm. by apply Htmpl.
  - intros sc ti c Hnone.
    assert (getTTLFromAnnotations (KongTCPIngressSource.Annotations ti) = (0, None))
      as Httl by (unfold getTTLFromAnnotations; by rewrite Hnone).
    destruct (KongTCPIngressSource.annotationSelector sc
                (KongTCPIngressSource.Annotations ti)) eqn:Hsel.
    + eexists. split.
      { apply kong_Endpoints_body_result; [done|]. by rewrite Httl. }
      split.
      * intros e (e' & He' & _ & _ & _ & ->)%kong_labelled_from.
        rewrite (kong_pipeline_ttl _ _ He'). by rewrite Httl.
      * intros _. split; [done|]. intros Hne rule Hrule Hhost.
        destruct (synthesize_named (KongTCPIngressSource.Annotations ti)
                    (KongTCPIngressSpec.targets ti)
                    (KongTCPIngressSource.Host rule) Hne) as (e & He & Hname).
        destruct (kong_labelled_elem ti
                    (KongTCPIngressSpec.fromAnnotation ti
                     ++ KongTCPIngressSpec.native ti) e)
          as (e' & He' & Hname' & _).
        { apply elem_of_app. right. unfold KongTCPIngressSpec.native.
          apply list_elem_of_In, in_flat_map. exists rule.
          split; [by apply list_elem_of_In|].
          rewrite decide_False by done. by apply list_elem_of_In. }
        exists e'. split; [done|]. by rewrite Hname'.
    + exists []. unfold KongTCPIngressSource.Endpoints_body. rewrite Hsel.
      split; [done|]. split; [by intros e ?%elem_of_nil|done].
  - intros sc ti c err Hsel Herr.
    assert (KongTCPIngressSource.Endpoints_body sc ti c = (Err err, []))
      as Hbody.
    { unfold KongTCPIngressSource.Endpoints_body,
        KongTCPIngressSource.endpointsFromTCPIngress.
      rewrite Hsel.
      destruct (getTTLFromAnnotations _) as [ttl err']. simpl in Herr.
      by subst err'. }
    split; [done|]. intros tis Hti.
    eapply pass_fails_with_turn; [done|]. by rewrite Hbody.
  - intros sc host targets c err Herr.
    unfold AmbassadorHostSource.endpointsFromHost.
    destruct (getTTLFromAnnotations _) as [ttl err']. simpl in Herr.
    by subst err'.
  - intros annotations v Hsome Hparse. unfold getTTLFromAnnotations.
    by rewrite Hsome, Hparse.
  - repeat (split; [vm_compute; reflexivity|]).
    eexists. split; [vm_compute; reflexivity|reflexivity].
Qed.

(** * The target and TTL annotations on resources of the tests *)

(** The target annotation "1.2.3.4" on an HTTPProxy with a load balancer
    and on a route whose source has a load-balancer service, on a Kong
    TCPIngress and on an Ambassador Host. *)
Lemma target_annotation_witness :
  HTTPProxySpec.targets Fixtures.fake3 = ["1.2.3.4"]
  /\ HTTPProxySource.endpointsFromHTTPProxy Fixtures.httpProxySrc
       (HTTPProxySpec.withLoadBalancer Fixtures.fake3 []) Fixtures.emptyCluster
     = HTTPProxySource.endpointsFromHTTPProxy Fixtures.httpProxySrc
         Fixtures.fake3 Fixtures.emptyCluster
  /\ (exists eps,
         (HTTPProxySource.Endpoints_body Fixtures.httpProxySrc Fixtures.fake3
            Fixtures.emptyCluster).1 = Ok eps
         /\ map DNSName eps = ["example3.org"]
         /\ map Targets eps = [["1.2.3.4"]]
         /\ exists e, e ∈ eps /\ DNSName e = strings.TrimSuffix "example3.org" ".")
  /\ IngressRouteSpec.targets Fixtures.ingressRouteSrc Fixtures.contourCluster
       Fixtures.routeWithTarget = ["1.2.3.4"]
  /\ Forall isWarn
       (IngressRouteSource.Endpoints_body Fixtures.ingressRouteSrc
          Fixtures.routeWithTarget Fixtures.contourCluster).2
  /\ IngressRouteSource.Endpoints_body Fixtures.ingressRouteSrc
       Fixtures.routeWithTarget Fixtures.emptyCluster
     = IngressRouteSource.Endpoints_body Fixtures.ingressRouteSrc
         Fixtures.routeWithTarget Fixtures.contourCluster
  /\ (exists eps,
         (IngressRouteSource.Endpoints_body Fixtures.ingressRouteSrc
            Fixtures.routeWithTarget Fixtures.contourCluster).1 = Ok eps
         /\ map DNSName eps = ["example3.org"]
         /\ map Targets eps = [["1.2.3.4"]]
         /\ exists e, e ∈ eps /\ DNSName e = strings.TrimSuffix "example3.org" ".")
  /\ (exists part t,
         KongTCPIngressSource.Endpoints_body Fixtures.kongSrc
           Fixtures.tcpIngressWithTarget Fixtures.emptyCluster = (Ok part, t)
         /\ length part = 3%nat
         /\ forall e, e ∈ part ->
              Targets e
              = filter (fun t => suitableType t = RecordType e)
                  (targetsFromIngress
                     (KongTCPIngressSource.Status_LoadBalancer_Ingress
                        Fixtures.tcpIngressWithTarget)))
  /\ AmbassadorHostSource.Endpoints_body Fixtures.ambassadorSrc
       (withTargetAnnotation Fixtures.hostWithService "1.2.3.4")
       Fixtures.ambassadorCluster
     = AmbassadorHostSource.Endpoints_body Fixtures.ambassadorSrc
         Fixtures.hostWithService Fixtures.ambassadorCluster.
Proof.
  destruct target_annotation_overrides_load_balancer
    as (Hhttpproxy & Hroute & Hkong & Hhost & _).
  destruct (Hhttpproxy Fixtures.httpProxySrc Fixtures.fake3 Fixtures.emptyCluster)
    as (_ & Htargets & _ & Hsame & Hprocessed); [vm_compute; discriminate|].
  destruct (Hroute Fixtures.ingressRouteSrc Fixtures.routeWithTarget
              Fixtures.contourCluster)
    as (_ & Htargets' & _ & Hquiet & Hfree & Hprocessed');
    [vm_compute; discriminate|].
  split; [rewrite Htargets; vm_compute; reflexivity|].
  split; [apply Hsame|].
  split.
  { destruct Hprocessed as (eps & Hrun & _ & _ & Hnative & _);
      [vm_compute; reflexivity|intros tmpl [=]|].
    exists eps. split; [exact Hrun|].
    destruct (Hnative {| HTTPProxySource.Fqdn := "example3.org" |}
                eq_refl ltac:(discriminate)) as (e & He & Hname).
    vm_compute in Hrun. injection Hrun as <-.
    split; [reflexivity|]. split; [reflexivity|]. by exists e. }
  split; [rewrite Htargets'; vm_compute; reflexivity|].
  split; [exact Hquiet|].
  split; [apply Hfree|].
  split.
  { destruct Hprocessed' as (eps & Hrun & _ & _ & Hnative & _);
      [vm_compute; reflexivity|intros tmpl [=]|].
    exists eps. split; [exact Hrun|].
    destruct (Hnative {| IngressRouteSource.Fqdn := "example3.org" |}
                eq_refl ltac:(discriminate)) as (e & He & Hname).
    vm_compute in Hrun. injection Hrun as <-.
    split; [reflexivity|]. split; [reflexivity|]. by exists e. }
  split; [|apply Hhost].
  destruct (KongTCPIngressSource.Endpoints_body Fixtures.kongSrc
              Fixtures.tcpIngressWithTarget Fixtures.emptyCluster)
    as [[part|e] t] eqn:Hrun; [|vm_compute in Hrun; discriminate].
  exists part, t. split; [reflexivity|]. split.
  - vm_compute in Hrun. injection Hrun as <- _. reflexivity.
  - exact (Hkong _ _ _ _ _ Hrun).
Defined.

(** The TTL annotation "abc" on an HTTPProxy, a route, the Kong TCPIngress
    and a Host, and no TTL annotation on the Kong TCPIngress. *)
Lemma ttl_missing_or_invalid_witness :
  (exists eps,
      (HTTPProxySource.Endpoints_body Fixtures.httpProxySrc
         Fixtures.httpProxyBadTTL Fixtures.emptyCluster).1 = Ok eps
      /\ map DNSName eps = ["example.org"]
      /\ map RecordTTL eps = [0]
      /\ forall e, e ∈ eps ->
           RecordTTL e = 0
           /\ Targets e
              = filter (fun t => suitableType t = RecordType e)
                  (HTTPProxySpec.targets Fixtures.httpProxyBadTTL)
           /\ Targets e <> [])
  /\ Warn "abc is not a valid TTL value"
     ∈ (HTTPProxySource.Endpoints_body Fixtures.httpProxySrc
          Fixtures.httpProxyBadTTL Fixtures.emptyCluster).2
  /\ isOk (HTTPProxySource.Endpoints Fixtures.httpProxySrc
             [Fixtures.fooBar; Fixtures.httpProxyBadTTL]
             Fixtures.emptyCluster).1 = true
  /\ Warn "abc is not a valid TTL value"
     ∈ (HTTPProxySource.Endpoints Fixtures.httpProxySrc
          [Fixtures.fooBar; Fixtures.httpProxyBadTTL] Fixtures.emptyCluster).2
  /\ (exists eps,
         (IngressRouteSource.Endpoints_body Fixtures.ingressRouteSrc
            Fixtures.routeBadTTL Fixtures.contourCluster).1 = Ok eps
         /\ map DNSName eps = ["example.org"]
         /\ map RecordTTL eps = [0]
         /\ forall e, e ∈ eps ->
              RecordTTL e = 0
              /\ Targets e
                 = filter (fun t => suitableType t = RecordType e)
                     (IngressRouteSpec.targets Fixtures.ingressRouteSrc
                        Fixtures.contourCluster Fixtures.routeBadTTL)
              /\ Targets e <> [])
  /\ Warn "abc is not a valid TTL value"
     ∈ (IngressRouteSource.Endpoints Fixtures.ingressRouteSrc
          [Fixtures.routeFooBar; Fixtures.routeBadTTL]
          Fixtures.contourCluster).2
  /\ (exists eps,
         (KongTCPIngressSource.Endpoints_body Fixtures.kongSrc
            Fixtures.tcpIngressBoth Fixtures.emptyCluster).1 = Ok eps
         /\ length eps = 3%nat
         /\ forall e, e ∈ eps -> RecordTTL e = 0)
  /\ KongTCPIngressSource.Endpoints_body Fixtures.kongSrc
       Fixtures.tcpIngressBadTTL Fixtures.emptyCluster
     = (Err "abc is not a valid TTL value", [])
  /\ AmbassadorHostSource.endpointsFromHost Fixtures.ambassadorSrc
       Fixtures.hostBadTTL ["1.1.1.1"] Fixtures.ambassadorCluster
     = (Err "abc is not a valid TTL value", []).
Proof.
  destruct ttl_missing_or_invalid
    as (_ & _ & _ & _ & Hproxy & Hproxylog & Hroute & Hroutelog
        & Hkong & Hkongbad & Hhost & _).
  split.
  { destruct (Hproxy Fixtures.httpProxySrc Fixtures.httpProxyBadTTL
                Fixtures.emptyCluster)
      as (eps & Hrun & _ & Hall & _);
      [right; eexists; vm_compute; reflexivity|vm_compute; reflexivity
      |intros tmpl [=]|].
    exists eps. split; [exact Hrun|].
    pose proof Hrun as Hrun'. vm_compute in Hrun'. injection Hrun' as <-.
    split; [reflexivity|]. split; [reflexivity|]. exact Hall. }
  destruct (Hproxylog Fixtures.httpProxySrc Fixtures.httpProxyBadTTL
              Fixtures.emptyCluster "abc is not a valid TTL value")
    as [Hturn Hpass]; [vm_compute; reflexivity..|].
  split; [exact Hturn|].
  destruct (Hpass [Fixtures.fooBar; Fixtures.httpProxyBadTTL])
    as [Hok Hlogged]; [right; left|intros tmpl hp' [=]|].
  split; [exact Hok|]. split; [exact Hlogged|].
  split.
  { destruct (Hroute Fixtures.ingressRouteSrc Fixtures.routeBadTTL
                Fixtures.contourCluster)
      as (eps & Hrun & _ & Hall & _);
      [right; eexists; vm_compute; reflexivity|vm_compute; reflexivity
      |intros tmpl [=]|].
    exists eps. split; [exact Hrun|].
    pose proof Hrun as Hrun'. vm_compute in Hrun'. injection Hrun' as <-.
    split; [reflexivity|]. split; [reflexivity|]. exact Hall. }
  destruct (Hroutelog Fixtures.ingressRouteSrc Fixtures.routeBadTTL
              Fixtures.contourCluster "abc is not a valid TTL value")
    as [_ Hpass']; [vm_compute; reflexivity..|].
  destruct (Hpass' [Fixtures.routeFooBar; Fixtures.routeBadTTL])
    as [_ Hlogged']; [right; left|intros tmpl rt' [=]|].
  split; [exact Hlogged'|].
  split.
  { destruct (Hkong Fixtures.kongSrc Fixtures.tcpIngressBoth
                Fixtures.emptyCluster)
      as (eps & Hrun & Hall & _); [vm_compute; reflexivity|].
    exists eps. split; [exact Hrun|].
    pose proof Hrun as Hrun'. vm_compute in Hrun'. injection Hrun' as <-.
    split; [reflexivity|exact Hall]. }
  split.
  - apply (Hkongbad Fixtures.kongSrc Fixtures.tcpIngressBadTTL
             Fixtures.emptyCluster "abc is not a valid TTL value");
      vm_compute; reflexivity.
  - apply (Hhost Fixtures.ambassadorSrc Fixtures.hostBadTTL ["1.1.1.1"]
             Fixtures.ambassadorCluster "abc is not a valid TTL value");
      vm_compute; reflexivity.
Defined.
